(** * Web Search MCP server

    A shallow embedding of [src/servers/web-search-mcp/main.py]: the four
    tool operations of [WebSearchMCP] ([web_search], [fetch_webpage],
    [extract_links], [scrape_data]), the dispatcher [handle_message] and
    the read loop [run].

    Python objects are values of type [value]; a call that may raise
    returns a [result _ exn]; the methods of the server object run in the
    monad [M], which threads the fields of [self] together with a trace of
    what the process did to the outside (lines read, lines printed,
    network calls).  Everything the program obtains from its libraries
    (the clock, [json.loads], the aiohttp session, BeautifulSoup,
    [urllib.parse]) is a field of the record [World]; the theorems hold
    for every world. *)

From Stdlib Require Import ZArith Ascii String List Lia Bool.
From stdpp Require Import base option list strings gmap pretty.

Set Warnings "-register-all".
Set Default Proof Using "Type".

Open Scope Z_scope.

(** ** Python values *)

(** A Python [float]: nan, an infinity, or the dyadic rational [m * 2^e]. *)
Inductive pyfloat :=
| FNan
| FInf (negative : bool)
| FFin (m e : Z).

(** The objects the server handles: what [json.loads] produces, and the
    traceback object that [send_error] reads off a raised exception. *)
Inductive value :=
| VNone
| VBool (b : bool)
| VInt (n : Z)
| VFloat (x : pyfloat)
| VStr (s : string)
| VList (l : list value)
| VDict (d : list (string * value))
| VTraceback.

Definition float_is_zero (x : pyfloat) : bool :=
  match x with
  | FFin m _ => m =? 0
  | _ => false
  end.

(** [n < x] for an [int] [n] and a [float] [x]. *)
Definition int_lt_float (n : Z) (x : pyfloat) : bool :=
  match x with
  | FNan => false
  | FInf negative => negb negative
  | FFin m e => if 0 <=? e then n <? m * 2 ^ e else n * 2 ^ (- e) <? m
  end.

(** [bool(v)], the test behind [if v], [not v], [a and b], [a or b]. *)
Definition truthy (v : value) : bool :=
  match v with
  | VNone => false
  | VBool b => b
  | VInt n => negb (n =? 0)
  | VFloat x => negb (float_is_zero x)
  | VStr s => match s with EmptyString => false | _ => true end
  | VList l => match l with [] => false | _ => true end
  | VDict d => match d with [] => false | _ => true end
  | VTraceback => true
  end.

(** [a or b] *)
Definition py_or (a b : value) : value := if truthy a then a else b.

(** [type(v).__name__] *)
Definition type_name (v : value) : string :=
  match v with
  | VNone => "NoneType"
  | VBool _ => "bool"
  | VInt _ => "int"
  | VFloat _ => "float"
  | VStr _ => "str"
  | VList _ => "list"
  | VDict _ => "dict"
  | VTraceback => "traceback"
  end.

(** [json.dumps] accepts every value but the traceback object. *)
Fixpoint serializable (v : value) : bool :=
  match v with
  | VList l => forallb serializable l
  | VDict d => forallb (fun kv => serializable kv.2) d
  | VTraceback => false
  | _ => true
  end.

(** ** Dictionaries

    A [dict] is an association list in insertion order; [dict_set] is
    [d[k] = v], which keeps the position of a key already present. *)
Fixpoint assoc {A : Type} (k : string) (d : list (string * A)) : option A :=
  match d with
  | [] => None
  | (k', v) :: d' => if String.eqb k' k then Some v else assoc k d'
  end.

Fixpoint dict_set {A : Type} (k : string) (v : A) (d : list (string * A))
  : list (string * A) :=
  match d with
  | [] => [(k, v)]
  | (k', v') :: d' =>
      if String.eqb k' k then (k, v) :: d' else (k', v') :: dict_set k v d'
  end.

(** ** Exceptions *)

Inductive exn_class :=
| PlainException
| TimeoutError
| JSONDecodeError
| TypeError
| AttributeError
| KeyError
| IndexError
| LibraryError (name : string).

(** An exception object: its class, [str(e)], its [code] attribute when it
    has one, and [__traceback__], which is [None] until the exception is
    raised. *)
Record exn := Exn {
  exn_class_of : exn_class;
  exn_str : string;
  exn_code : option value;
  exn_traceback : value
}.

(** [cls(msg)]: a fresh exception object, not raised yet. *)
Definition new_exn (cls : exn_class) (msg : string) : exn :=
  Exn cls msg None VNone.

(** What [raise] does to the object: it attaches the traceback. *)
Definition raised (e : exn) : exn :=
  Exn (exn_class_of e) (exn_str e) (exn_code e) VTraceback.

Definition throw {A : Type} (cls : exn_class) (msg : string) : result A exn :=
  Error (raised (new_exn cls msg)).

(** [obj.get(key, default)] *)
Definition py_get (obj : value) (key : string) (dflt : value) : result value exn :=
  match obj with
  | VDict d => Ok (default dflt (assoc key d))
  | _ => throw AttributeError
           ("'" +:+ type_name obj +:+ "' object has no attribute 'get'")
  end.

(** [obj[key]] for a string key *)
Definition py_getitem (obj : value) (key : string) : result value exn :=
  match obj with
  | VDict d =>
      match assoc key d with
      | Some v => Ok v
      | None => throw KeyError ("'" +:+ key +:+ "'")
      end
  | VStr _ => throw TypeError "string indices must be integers, not 'str'"
  | VList _ => throw TypeError "list indices must be integers or slices, not str"
  | _ => throw TypeError ("'" +:+ type_name obj +:+ "' object is not subscriptable")
  end.

(** [min(x, 20)]: the builtin keeps [x] unless [20 < x]; the comparison is
    defined for numbers only. *)
Definition py_min_20 (x : value) : result value exn :=
  match x with
  | VInt n => Ok (if 20 <? n then VInt 20 else x)
  | VBool _ => Ok x
  | VFloat f => Ok (if int_lt_float 20 f then VInt 20 else x)
  | _ => throw TypeError
           ("'<' not supported between instances of 'int' and '"
            +:+ type_name x +:+ "'")
  end.

(** ** Strings

    A [str] is a [string]; each [ascii] stands for one character. *)

(** [c.isspace()] on the characters below 256 *)
Definition isspace (c : ascii) : bool :=
  bool_decide (N_of_ascii c ∈ [9; 10; 11; 12; 13; 28; 29; 30; 31; 32; 133; 160]%N).

(** the characters at which [str.splitlines] breaks, [\r\n] apart *)
Definition is_linebreak (c : ascii) : bool :=
  bool_decide (N_of_ascii c ∈ [10; 11; 12; 13; 28; 29; 30; 133]%N).

Definition is_CR (c : ascii) : bool := bool_decide (N_of_ascii c = 13%N).
Definition is_LF (c : ascii) : bool := bool_decide (N_of_ascii c = 10%N).

Fixpoint lstrip (s : string) : string :=
  match s with
  | String c s' => if isspace c then lstrip s' else s
  | EmptyString => EmptyString
  end.

(** [s.strip()] *)
Definition strip (s : string) : string :=
  String.rev (lstrip (String.rev (lstrip s))).

(** [s.splitlines()]; [cur] is the current line, reversed; a last line
    without a terminator counts only when it is not empty. *)
Fixpoint splitlines_go (cur : string) (s : string) : list string :=
  match s with
  | EmptyString =>
      match cur with
      | EmptyString => []
      | _ => [String.rev cur]
      end
  | String c s' =>
      if is_linebreak c then
        String.rev cur ::
          match s' with
          | String c' s'' =>
              if is_CR c && is_LF c' then splitlines_go "" s''
              else splitlines_go "" s'
          | EmptyString => []
          end
      else splitlines_go (String c cur) s'
  end.

Definition splitlines (s : string) : list string := splitlines_go "" s.

(** [s.split(sep)] for a non-empty [sep]; [skip] counts the characters
    of a separator that are still to be passed over. *)
Fixpoint split_go (sep : string) (skip : nat) (cur : string) (s : string) : list string :=
  match s with
  | EmptyString => [String.rev cur]
  | String c s' =>
      match skip with
      | S skip' => split_go sep skip' cur s'
      | O =>
          if String.prefix sep s
          then String.rev cur :: split_go sep (Nat.pred (String.length sep)) "" s'
          else split_go sep O (String c cur) s'
      end
  end.

Definition split (sep : string) (s : string) : list string := split_go sep O "" s.

(** [sub in s] *)
Fixpoint contains (sub : string) (s : string) : bool :=
  String.prefix sub s ||
  match s with
  | EmptyString => false
  | String _ s' => contains sub s'
  end.

(** [s[:n]] *)
Fixpoint str_take (n : nat) (s : string) : string :=
  match n, s with
  | S n', String c s' => String c (str_take n' s')
  | _, _ => EmptyString
  end.

(** ** Dates

    A [datetime] is a number of microseconds; so is a [timedelta], whose
    fields [days], [seconds] and [microseconds] are normalised with
    [0 <= seconds < 86400] and [0 <= microseconds < 1000000]. *)
Definition timedelta_seconds (delta : Z) : Z :=
  (delta mod 86400000000) / 1000000.

(** ** The outside world *)

(** What the process does that can be seen from outside, in order. *)
Inductive event :=
| EvReadline (line : string)          (* [reader.readline()] returned [line] *)
| EvPrint (response : value)          (* [print(json.dumps(response), flush=True)] *)
| EvPost (url : string) (data : value)  (* [session.post(url, data=data)] *)
| EvGet (url : value)                 (* [session.get(url, timeout=10)] *)
| EvSessionClose                      (* [session.close()] *)
| EvExit (status : Z).                (* [sys.exit(status)] *)

(** An aiohttp response: [str(response.url)] (the URL after redirects),
    [response.status], [response.headers.get('Content-Type', '')] and the
    outcome of [await response.text()]. *)
Record response := Response {
  resp_url : string;
  resp_status : Z;
  resp_content_type : string;
  resp_text : result string exn
}.

(** The ways the server calls [find_all] / [find] / [soup(...)]. *)
Inductive strainer :=
| Named (names : list string)            (* [find_all(name)], [soup([names])] *)
| NamedWithClass (name cls : string)     (* [find_all(name, class_=cls)] *)
| NamedWithAttr (name attr : string).    (* [find_all(name, attr=True)] *)

(** An attribute of a tag is a string, or a list of strings for the
    multi-valued attributes ([class], [rel], ...). *)
Inductive attr :=
| AttrStr (s : string)
| AttrList (l : list string).

Definition attr_value (a : attr) : value :=
  match a with
  | AttrStr s => VStr s
  | AttrList l => VList (VStr <$> l)
  end.

(** The fields of [urlparse(url)] that the server reads. *)
Record parsed_url := ParsedUrl {
  scheme : string;
  netloc : string;
  query : string
}.

Record World := {
  (** the HTML document model *)
  soup : Type;
  tag : Type;
  (** [datetime.now()], by the number of earlier readings, and [isoformat] *)
  w_now : nat -> Z;
  w_isoformat : Z -> string;
  (** [str(v)] where the text depends on the interpreter's [repr] *)
  w_repr : value -> string;
  (** [json.loads] *)
  w_json_loads : string -> result value exn;
  (** the aiohttp session; the answer may depend on all that happened before *)
  w_post : list event -> string -> value -> result response exn;
  w_get : list event -> value -> result response exn;
  (** BeautifulSoup: the parser, the matches of a strainer in document
      order below the root or below a tag, CSS selection, removal of a
      subtree, text extraction ([get_text()] of the document,
      [get_text(strip=True)] of a tag) and the attributes of a tag *)
  w_BeautifulSoup : string -> result soup exn;
  w_find_all : soup -> strainer -> list tag;
  w_tag_find_all : tag -> strainer -> list tag;
  w_odd_limit : value -> list tag -> list tag;
  w_select : soup -> value -> result (list tag) exn;
  w_decompose : tag -> soup -> soup;
  w_get_text : soup -> string;
  w_tag_text : tag -> string;
  w_attrs : tag -> list (string * attr);
  (** [urllib.parse] *)
  w_urljoin : string -> string -> result string exn;
  w_urlparse : string -> result parsed_url exn;
  w_unquote : string -> string;
  (** [os.environ.get('MCP_NAME')] *)
  w_MCP_NAME : option string
}.

(** ** The server object *)

(** The bound methods that [initialize] registers as handlers. *)
Inductive tool := WebSearch | FetchWebpage | ExtractLinks | ScrapeData.

(** The fields of [self] ([session] is [true] once the aiohttp session
    exists), the number of clock readings so far and the trace. *)
Record state := State {
  tools : list (string * tool);
  session : bool;
  cache : gmap string (Z * value);
  ticks : nat;
  trace : list event
}.

(** [WebSearchMCP()] *)
Definition init_state : state := State [] false ∅ O [].

Definition cache_ttl : Z := 300.

Definition set_tools (f : list (string * tool) -> list (string * tool)) (st : state) : state :=
  State (f (tools st)) (session st) (cache st) (ticks st) (trace st).
Definition set_session (b : bool) (st : state) : state :=
  State (tools st) b (cache st) (ticks st) (trace st).
Definition set_cache (f : gmap string (Z * value) -> gmap string (Z * value)) (st : state) : state :=
  State (tools st) (session st) (f (cache st)) (ticks st) (trace st).
Definition tick (st : state) : state :=
  State (tools st) (session st) (cache st) (S (ticks st)) (trace st).
Definition log (ev : event) (st : state) : state :=
  State (tools st) (session st) (cache st) (ticks st) (trace st ++ [ev]).

(** ** The monad of the methods: state and exceptions *)

Definition M (A : Type) : Type := state -> result A exn * state.

Definition ret {A : Type} (a : A) : M A := fun st => (Ok a, st).

Definition bind {A B : Type} (m : M A) (k : A -> M B) : M B :=
  fun st =>
    match m st with
    | (Ok a, st') => k a st'
    | (Error e, st') => (Error e, st')
    end.

Declare Scope monad_scope.
Delimit Scope monad_scope with monad.
Notation "x <- m ;; k" := (bind m (fun x => k))
  (at level 100, m at next level, right associativity) : monad_scope.
Notation "m ;;; k" := (bind m (fun _ => k))
  (at level 100, right associativity) : monad_scope.
Open Scope monad_scope.

(** [raise e] *)
Definition raise {A : Type} (e : exn) : M A := fun st => (Error (raised e), st).

(** a call that does not touch the state: it returns, or it raises *)
Definition lift {A : Type} (r : result A exn) : M A :=
  match r with
  | Ok a => ret a
  | Error e => raise e
  end.

(** [try: body  except Exception as e: handler(e)] *)
Definition try_except {A : Type} (body : M A) (handler : exn -> M A) : M A :=
  fun st =>
    match body st with
    | (Ok a, st') => (Ok a, st')
    | (Error e, st') => handler e st'
    end.

Definition get_state : M state := fun st => (Ok st, st).
Definition modify (f : state -> state) : M unit := fun st => (Ok tt, f st).

(** sequencing of calls that may raise but do not touch the state *)
Definition and_then {A B : Type} (r : result A exn) (k : A -> result B exn)
  : result B exn :=
  match r with
  | Ok a => k a
  | Error e => Error e
  end.

(** a library call that raises: the exception reaches the program raised *)
Definition call {A : Type} (r : result A exn) : result A exn :=
  match r with
  | Ok a => Ok a
  | Error e => Error (raised e)
  end.

(** [{'success': False, 'error': msg}] *)
Definition failure (msg : string) : value :=
  VDict [("success", VBool false); ("error", VStr msg)].

Definition nonempty (s : string) : bool :=
  match s with
  | EmptyString => false
  | _ => true
  end.

(** ** The methods of [WebSearchMCP] *)

Section Server.

Variable W : World.

(** [datetime.now()] *)
Definition now : M Z := fun st => (Ok (w_now W (ticks st)), tick st).

(** [str(v)], as in an f-string *)
Definition py_str (v : value) : string :=
  match v with
  | VStr s => s
  | VNone => "None"
  | VBool true => "True"
  | VBool false => "False"
  | VInt n => pretty n
  | _ => w_repr W v
  end.

(** [self.server_name] *)
Definition server_name : string := default "web-search-mcp" (w_MCP_NAME W).

Definition register_tool (name : string) (handler : tool) : M unit :=
  modify (set_tools (dict_set name handler)).

Definition descriptions : list (string * string) :=
  [("webSearch", "Search the web using DuckDuckGo (no API key required)");
   ("fetchWebpage", "Fetch and parse webpage content");
   ("extractLinks", "Extract all links from a webpage");
   ("scrapeData", "Scrape structured data from a webpage using CSS selectors")].

Definition get_tool_description (tool_name : string) : string :=
  default "No description available" (assoc tool_name descriptions).

(** [print(json.dumps(response), flush=True)]: [json.dumps] raises before
    anything is printed when the response cannot be encoded. *)
Definition send_response (response : value) : M unit :=
  if serializable response then modify (log (EvPrint response))
  else raise (new_exn TypeError "Object of type traceback is not JSON serializable").

Definition send_error (error : exn) (request_id : value) : M unit :=
  send_response
    (VDict [("type", VStr "error");
            ("requestId", request_id);
            ("error",
             VDict [("code", default (VStr "INTERNAL_ERROR") (exn_code error));
                    ("message", VStr (exn_str error));
                    ("details", exn_traceback error)])]).

(** the list comprehension over [self.tools.keys()] *)
Definition tool_list (registry : list (string * tool)) : value :=
  VList ((fun name =>
            VDict [("name", VStr name);
                   ("description", VStr (get_tool_description name))])
         <$> registry.*1).

Definition initialize : M unit :=
  modify (set_session true) ;;;
  register_tool "webSearch" WebSearch ;;;
  register_tool "fetchWebpage" FetchWebpage ;;;
  register_tool "extractLinks" ExtractLinks ;;;
  register_tool "scrapeData" ScrapeData ;;;
  st <- get_state ;;
  send_response
    (VDict [("type", VStr "initialize");
            ("status", VStr "success");
            ("serverName", VStr server_name);
            ("version", VStr "1.0.0");
            ("tools", tool_list (tools st))]).

(** [self.session.post(url, data=data)] and [self.session.get(url, timeout=10)] *)
Definition session_post (url : string) (data : value) : M response :=
  st <- get_state ;;
  if session st then
    modify (log (EvPost url data)) ;;; lift (w_post W (trace st) url data)
  else raise (new_exn AttributeError "'NoneType' object has no attribute 'post'").

Definition session_get (url : value) : M response :=
  st <- get_state ;;
  if session st then
    modify (log (EvGet url)) ;;; lift (w_get W (trace st) url)
  else raise (new_exn AttributeError "'NoneType' object has no attribute 'get'").

(** [t.get(key, dflt)] on a tag *)
Definition tag_get (t : tag W) (key : string) (dflt : value) : value :=
  default dflt (attr_value <$> assoc key (w_attrs W t)).

(** [find_all(..., limit=limit)]: with a positive integer limit the search
    stops at that many matches; what other limits do is left to the
    document model. *)
Definition limited (limit : value) (matches : list (tag W)) : list (tag W) :=
  match limit with
  | VInt n => if 0 <? n then take (Z.to_nat n) matches else w_odd_limit W limit matches
  | _ => w_odd_limit W limit matches
  end.

(** [find(...)]: the first match or [None] *)
Definition tag_find (t : tag W) (q : strainer) : option (tag W) :=
  head (w_tag_find_all W t q).
Definition soup_find (s : soup W) (q : strainer) : option (tag W) :=
  head (w_find_all W s q).

(** *** [web_search] *)

Definition search_url : string := "https://html.duckduckgo.com/html/".

Definition search_params (q : value) : value :=
  VDict [("q", q); ("s", VStr "0"); ("dc", VStr "0"); ("v", VStr "l");
         ("o", VStr "json")].

(** The redirect decoding applied to the [href] of a result title. *)
Definition decode_redirect (url : value) : result value exn :=
  match url with
  | VStr u =>
      if String.prefix "//duckduckgo.com/l/" u then
        and_then (call (w_urlparse W u)) (fun parsed =>
          let url_params := query parsed in
          if contains "uddg=" url_params then
            match split "uddg=" url_params with
            | _ :: target :: _ =>
                match split "&" target with
                | first :: _ => Ok (VStr (w_unquote W first))
                | [] => throw IndexError "list index out of range"
                end
            | _ => throw IndexError "list index out of range"
            end
          else Ok url)
      else Ok url
  | _ => throw AttributeError
           ("'" +:+ type_name url +:+ "' object has no attribute 'startswith'")
  end.

(** One turn of the loop over the result blocks: the record appended to
    [results], if the block has a title link. *)
Definition search_hit (block : tag W) : result (option value) exn :=
  let title_elem := tag_find block (NamedWithClass "a" "result__a") in
  let snippet_elem := tag_find block (NamedWithClass "a" "result__snippet") in
  match title_elem with
  | Some title_elem =>
      let title := w_tag_text W title_elem in
      and_then (decode_redirect (tag_get title_elem "href" (VStr ""))) (fun url =>
        let snippet :=
          match snippet_elem with
          | Some e => w_tag_text W e
          | None => ""
          end in
        Ok (Some (VDict [("title", VStr title); ("url", url);
                         ("snippet", VStr snippet);
                         ("source", VStr "DuckDuckGo")])))
  | None => Ok None
  end.

Fixpoint search_hits (blocks : list (tag W)) : result (list value) exn :=
  match blocks with
  | [] => Ok []
  | block :: rest =>
      and_then (search_hit block) (fun hit =>
        and_then (search_hits rest) (fun hits => Ok (option_list hit ++ hits)%list))
  end.

(** The result blocks the loop runs over. *)
Definition result_blocks (s : soup W) (max_results : value) : list (tag W) :=
  limited max_results (w_find_all W s (NamedWithClass "div" "result")).

Definition web_search (params : value) : M value :=
  query <- lift (py_get params "query" (VStr "")) ;;
  requested <- lift (py_get params "maxResults" (VInt 10)) ;;
  max_results <- lift (py_min_20 requested) ;;
  if negb (truthy query) then ret (failure "Query parameter is required")
  else
    try_except
      (resp <- session_post search_url (search_params query) ;;
       html <- lift (resp_text resp) ;;
       s <- lift (w_BeautifulSoup W html) ;;
       results <- lift (search_hits (result_blocks s max_results)) ;;
       ret (VDict [("success", VBool true);
                   ("query", query);
                   ("results", VList results);
                   ("count", VInt (Z.of_nat (length results)))]))
      (fun e => ret (failure (exn_str e))).

(** *** [fetch_webpage] *)

(** lines stripped, split at double spaces, the pieces stripped, the
    non-empty ones joined by one space *)
Definition normalize_text (text : string) : string :=
  let lines := strip <$> splitlines text in
  let chunks := flat_map (fun line => strip <$> split "  " line) lines in
  String.concat " " (List.filter nonempty chunks).

Definition text_limit : nat := Z.to_nat 10000.

(** [for script in soup(['script', 'style']): script.decompose()] *)
Definition drop_scripts (s : soup W) : soup W :=
  fold_left (fun s' t => w_decompose W t s') (w_find_all W s (Named ["script"; "style"])) s.

(** The full normalised text of a page. *)
Definition page_text (s : soup W) : string :=
  normalize_text (w_get_text W (drop_scripts s)).

(** One turn of the loop over the [meta] tags. *)
Definition meta_entry (metadata : list (string * value)) (meta : tag W)
  : result (list (string * value)) exn :=
  let name := py_or (tag_get meta "name" VNone) (tag_get meta "property" VNone) in
  let content := tag_get meta "content" VNone in
  if truthy name && truthy content then
    match name with
    | VStr key => Ok (dict_set key content metadata)
    | _ => throw TypeError ("unhashable type: '" +:+ type_name name +:+ "'")
    end
  else Ok metadata.

Fixpoint meta_entries (metadata : list (string * value)) (metas : list (tag W))
  : result (list (string * value)) exn :=
  match metas with
  | [] => Ok metadata
  | meta :: rest => and_then (meta_entry metadata meta) (fun md => meta_entries md rest)
  end.

Definition heading_texts (s : soup W) (name : string) : value :=
  VList ((fun h => VStr (w_tag_text W h)) <$> limited (VInt 5) (w_find_all W s (Named [name]))).

Definition page_metadata (s : soup W) : result value exn :=
  let metadata :=
    match soup_find s (Named ["title"]) with
    | Some title => dict_set "title" (VStr (w_tag_text W title)) []
    | None => []
    end in
  and_then (meta_entries metadata (w_find_all W s (Named ["meta"]))) (fun metadata =>
    let headings := VDict [("h1", heading_texts s "h1"); ("h2", heading_texts s "h2")] in
    Ok (VDict (dict_set "headings" headings metadata))).

(** The result record built from a response, between the network call
    and the cache write. *)
Definition fetch_result (resp : response) (s : soup W)
    (extract_text extract_metadata : value) : result (list (string * value)) exn :=
  let result := [("success", VBool true);
                 ("url", VStr (resp_url resp));
                 ("statusCode", VInt (resp_status resp));
                 ("contentType", VStr (resp_content_type resp))] in
  let s' := if truthy extract_text then drop_scripts s else s in
  let result :=
    if truthy extract_text then
      let text := page_text s in
      dict_set "textLength" (VInt (Z.of_nat (String.length text)))
        (dict_set "text" (VStr (str_take text_limit text)) result)
    else result in
  if truthy extract_metadata then
    and_then (page_metadata s') (fun metadata => Ok (dict_set "metadata" metadata result))
  else Ok result.

Definition cache_key_of (url : value) : string := "fetch:" +:+ py_str url.

(** The cache check: the cached record when the key is present and the
    [seconds] field of its age is below the TTL. *)
Definition cache_check (cache_key : string) : M (option value) :=
  st <- get_state ;;
  match cache st !! cache_key with
  | Some (cached_time, cached_data) =>
      t <- now ;;
      ret (if timedelta_seconds (t - cached_time) <? cache_ttl
           then Some cached_data else None)
  | None => ret None
  end.

(** The two [except] clauses of [fetch_webpage]: [asyncio.TimeoutError]
    first, then [Exception]. *)
Definition fetch_failure (e : exn) : value :=
  match exn_class_of e with
  | TimeoutError => failure "Request timeout"
  | _ => failure (exn_str e)
  end.

(** The [try] block of [fetch_webpage] with its [except] clauses. *)
Definition fetch_fresh (url extract_text extract_metadata : value)
    (cache_key : string) : M value :=
  try_except
    (resp <- session_get url ;;
     html <- lift (resp_text resp) ;;
     s <- lift (w_BeautifulSoup W html) ;;
     result <- lift (fetch_result resp s extract_text extract_metadata) ;;
     t <- now ;;
     modify (set_cache (insert cache_key (t, VDict result))) ;;;
     ret (VDict result))
    (fun e => ret (fetch_failure e)).

Definition fetch_webpage (params : value) : M value :=
  url <- lift (py_get params "url" (VStr "")) ;;
  extract_text <- lift (py_get params "extractText" (VBool true)) ;;
  extract_metadata <- lift (py_get params "extractMetadata" (VBool true)) ;;
  if negb (truthy url) then ret (failure "URL parameter is required")
  else
    let cache_key := cache_key_of url in
    hit <- cache_check cache_key ;;
    match hit with
    | Some cached_data => ret cached_data
    | None => fetch_fresh url extract_text extract_metadata cache_key
    end.

(** *** [extract_links] *)

Record link := Link {
  link_url : string;
  link_text : string;
  link_internal : bool;
  link_protocol : string
}.

Definition link_value (l : link) : value :=
  VDict [("url", VStr (link_url l));
         ("text", VStr (link_text l));
         ("internal", VBool (link_internal l));
         ("protocol", VStr (link_protocol l))].

(** [link['href']] of an anchor, as the string given to [urljoin] *)
Definition href_of (a : tag W) : result string exn :=
  match assoc "href" (w_attrs W a) with
  | Some (AttrStr href) => Ok href
  | Some (AttrList _) => throw TypeError "Cannot mix str and non-str arguments"
  | None => throw KeyError "'href'"
  end.

(** The loop over the anchors, with its two accumulators. *)
Fixpoint collect_links (base_url base_netloc : string)
    (internal_only external_only : value)
    (anchors : list (tag W)) (seen : gset string) (links : list link)
  : result (list link) exn :=
  match anchors with
  | [] => Ok links
  | a :: rest =>
      and_then (href_of a) (fun href =>
      and_then (call (w_urljoin W base_url href)) (fun absolute_url =>
      and_then (call (w_urlparse W absolute_url)) (fun parsed =>
        if bool_decide (absolute_url ∈ seen) then
          collect_links base_url base_netloc internal_only external_only rest seen links
        else
          let seen' := {[absolute_url]} ∪ seen in
          let is_internal := String.eqb (netloc parsed) base_netloc in
          if truthy internal_only && negb is_internal then
            collect_links base_url base_netloc internal_only external_only rest seen' links
          else if truthy external_only && is_internal then
            collect_links base_url base_netloc internal_only external_only rest seen' links
          else
            collect_links base_url base_netloc internal_only external_only rest seen'
              (links ++ [Link absolute_url
                              (str_take 100 (w_tag_text W a))
                              is_internal
                              (scheme parsed)])%list)))
  end.

Definition count_internal (links : list link) : nat :=
  length (List.filter link_internal links).
Definition count_external (links : list link) : nat :=
  length (List.filter (fun l => negb (link_internal l)) links).

Definition links_result (base_url : string) (links : list link) : value :=
  VDict [("success", VBool true);
         ("url", VStr base_url);
         ("links", VList (link_value <$> links));
         ("count", VInt (Z.of_nat (length links)));
         ("internal", VInt (Z.of_nat (count_internal links)));
         ("external", VInt (Z.of_nat (count_external links)))].

(** The links of a page, from the parsed document and the final URL. *)
Definition page_links (base_url : string) (s : soup W)
    (internal_only external_only : value) : result (list link) exn :=
  and_then (call (w_urlparse W base_url)) (fun parsed_base =>
    collect_links base_url (netloc parsed_base) internal_only external_only
      (w_find_all W s (NamedWithAttr "a" "href")) ∅ []).

Definition extract_links (params : value) : M value :=
  url <- lift (py_get params "url" (VStr "")) ;;
  internal_only <- lift (py_get params "internalOnly" (VBool false)) ;;
  external_only <- lift (py_get params "externalOnly" (VBool false)) ;;
  if negb (truthy url) then ret (failure "URL parameter is required")
  else
    try_except
      (resp <- session_get url ;;
       html <- lift (resp_text resp) ;;
       let base_url := resp_url resp in
       s <- lift (w_BeautifulSoup W html) ;;
       links <- lift (page_links base_url s internal_only external_only) ;;
       ret (links_result base_url links))
      (fun e => ret (failure (exn_str e))).

(** *** [scrape_data] *)

(** [elem.get(attribute)] for the attribute name taken from the request *)
Definition elem_get (elem : tag W) (attribute : value) : result value exn :=
  match attribute with
  | VStr a => Ok (tag_get elem a VNone)
  | VList _ | VDict _ =>
      throw TypeError ("unhashable type: '" +:+ type_name attribute +:+ "'")
  | _ => Ok VNone
  end.

(** [[elem.get(attribute) for elem in elements if elem.get(attribute)]] *)
Fixpoint attribute_values (attribute : value) (elements : list (tag W))
  : result (list value) exn :=
  match elements with
  | [] => Ok []
  | elem :: rest =>
      and_then (elem_get elem attribute) (fun v =>
        and_then (attribute_values attribute rest) (fun vs =>
          Ok (if truthy v then v :: vs else vs)))
  end.

(** [[elem.get_text(strip=True) for elem in elements]] *)
Definition text_values (elements : list (tag W)) : list value :=
  (fun elem => VStr (w_tag_text W elem)) <$> elements.

(** [values[0] if single and values else values] *)
Definition collapse (single : value) (values : list value) : value :=
  match values with
  | first :: _ => if truthy single then first else VList values
  | [] => VList values
  end.

(** One turn of the loop over [selectors.items()]. *)
Definition scrape_field (s : soup W) (scraped_data : list (string * value))
    (key : string) (selector_config : value) : result (list (string * value)) exn :=
  match selector_config with
  | VStr _ =>
      and_then (call (w_select W s selector_config)) (fun elements =>
        match elements with
        | [] => Ok scraped_data
        | _ => Ok (dict_set key (VList (text_values elements)) scraped_data)
        end)
  | VDict config =>
      let selector := default (VStr "") (assoc "selector" config) in
      let attribute := default VNone (assoc "attribute" config) in
      let single := default (VBool false) (assoc "single" config) in
      and_then (call (w_select W s selector)) (fun elements =>
        match elements with
        | [] => Ok scraped_data
        | _ =>
            and_then
              (if truthy attribute then attribute_values attribute elements
               else Ok (text_values elements))
              (fun values => Ok (dict_set key (collapse single values) scraped_data))
        end)
  | _ => Ok scraped_data
  end.

Fixpoint scrape_fields (s : soup W) (scraped_data : list (string * value))
    (items : list (string * value)) : result (list (string * value)) exn :=
  match items with
  | [] => Ok scraped_data
  | (key, selector_config) :: rest =>
      and_then (scrape_field s scraped_data key selector_config) (fun data =>
        scrape_fields s data rest)
  end.

(** [selectors.items()] *)
Definition py_items (selectors : value) : result (list (string * value)) exn :=
  match selectors with
  | VDict d => Ok d
  | _ => throw AttributeError
           ("'" +:+ type_name selectors +:+ "' object has no attribute 'items'")
  end.

Definition scrape_result (url : value) (scraped_data : list (string * value)) : value :=
  VDict [("success", VBool true);
         ("url", url);
         ("data", VDict scraped_data);
         ("fieldsExtracted", VInt (Z.of_nat (length scraped_data)))].

Definition scrape_data (params : value) : M value :=
  url <- lift (py_get params "url" (VStr "")) ;;
  selectors <- lift (py_get params "selectors" (VDict [])) ;;
  if negb (truthy url) then ret (failure "URL parameter is required")
  else if negb (truthy selectors) then ret (failure "Selectors parameter is required")
  else
    try_except
      (resp <- session_get url ;;
       html <- lift (resp_text resp) ;;
       s <- lift (w_BeautifulSoup W html) ;;
       items <- lift (py_items selectors) ;;
       scraped_data <- lift (scrape_fields s [] items) ;;
       ret (scrape_result url scraped_data))
      (fun e => ret (failure (exn_str e))).

(** *** [handle_message] and [run] *)

(** [await handler(params)] *)
Definition call_tool (handler : tool) (params : value) : M value :=
  match handler with
  | WebSearch => web_search params
  | FetchWebpage => fetch_webpage params
  | ExtractLinks => extract_links params
  | ScrapeData => scrape_data params
  end.

(** [self.tools.get(name)] for the value found under ['tool'] *)
Definition lookup_handler (name : value) : M (option tool) :=
  st <- get_state ;;
  match name with
  | VStr s => ret (assoc s (tools st))
  | VList _ | VDict _ =>
      raise (new_exn TypeError ("unhashable type: '" +:+ type_name name +:+ "'"))
  | _ => ret None
  end.

(** [v == s] for a string literal [s] *)
Definition is_str (v : value) (s : string) : bool :=
  match v with
  | VStr s' => String.eqb s' s
  | _ => false
  end.

(** The body of the [try] in [handle_message]. *)
Definition dispatch (message : string) : M unit :=
  request <- lift (w_json_loads W message) ;;
  (* the f-string handed to [logger.debug] *)
  _ <- lift (py_get request "type" VNone) ;;
  _ <- lift (py_get request "tool" VNone) ;;
  type <- lift (py_getitem request "type") ;;
  tool_given <-
    (if is_str type "tool"
     then t <- lift (py_get request "tool" VNone) ;; ret (truthy t)
     else ret false) ;;
  if tool_given then
    name <- lift (py_getitem request "tool") ;;
    handler <- lookup_handler name ;;
    match handler with
    | None =>
        name <- lift (py_getitem request "tool") ;;
        request_id <- lift (py_get request "id" VNone) ;;
        send_error (new_exn PlainException ("Unknown tool: " +:+ py_str name)) request_id
    | Some handler =>
        params <- lift (py_get request "params" (VDict [])) ;;
        result <- call_tool handler params ;;
        request_id <- lift (py_get request "id" VNone) ;;
        name <- lift (py_getitem request "tool") ;;
        send_response
          (VDict [("type", VStr "tool_response");
                  ("requestId", request_id);
                  ("tool", name);
                  ("result", result)])
    end
  else if is_str type "list_tools" then
    request_id <- lift (py_get request "id" VNone) ;;
    st <- get_state ;;
    send_response
      (VDict [("type", VStr "tools_list");
              ("requestId", request_id);
              ("tools", tool_list (tools st))])
  else if is_str type "ping" then
    request_id <- lift (py_get request "id" VNone) ;;
    t <- now ;;
    send_response
      (VDict [("type", VStr "pong");
              ("requestId", request_id);
              ("timestamp", VStr (w_isoformat W t))])
  else
    type <- lift (py_getitem request "type") ;;
    request_id <- lift (py_get request "id" VNone) ;;
    send_error (new_exn PlainException ("Unknown request type: " +:+ py_str type))
      request_id.

(** Both [except] clauses call [self.send_error(e)], without a request id. *)
Definition handle_message (message : string) : M unit :=
  try_except (dispatch message) (fun e => send_error e VNone).

(** What one turn of the loop gets from its first two steps,
    [await reader.readline()] and [line.decode('utf-8')]: the text of the
    line, or the exception that one of the two raises ([readline] raises
    [ValueError] on a line longer than the limit of the reader, 64 KiB;
    [decode] raises [UnicodeDecodeError] on bytes that are no UTF-8). *)
Inductive input :=
| Line (line : string)
| Unreadable (e : exn).

(** The [while True] loop of [run] over what is still to come on the
    input; the end of the list is the end of the input.  An exception of
    [readline] or of [decode] is raised outside [handle_message] and ends
    the loop, as does one that leaves [handle_message]. *)
Fixpoint read_loop (inputs : list input) : M unit :=
  match inputs with
  | [] => ret tt
  | Unreadable e :: _ => raise e
  | Line line :: rest =>
      modify (log (EvReadline line)) ;;;
      if nonempty line then
        let message := strip line in
        (if nonempty message then handle_message message else ret tt) ;;;
        read_loop rest
      else ret tt
  end.

(** The loop on lines that are all read and decoded. *)
Definition serve (lines : list string) : M unit :=
  read_loop (Line <$> lines).

(** [shutdown]: close the session if there is one, then [sys.exit(0)]. *)
Definition shutdown (st : state) : state :=
  log (EvExit 0) (if session st then log EvSessionClose st else st).

(** [run]: [initialize], then the loop; the [finally] clause shuts the
    process down however the loop ends.  The result is the final state of
    the process, or the exception that [initialize] raised. *)
Definition run (inputs : list input) (st : state) : result state exn :=
  match initialize st with
  | (Ok _, st1) => Ok (shutdown (read_loop inputs st1).2)
  | (Error e, _) => Error e
  end.

End Server.

(** ** A small concrete world

    Pages are flat lists of elements, each with a list of child elements;
    the network, the parser and the JSON decoder are look-up tables.  The
    examples below run the server in this world. *)
Module Toy.

Record leaf := Leaf {
  leaf_name : string;
  leaf_attrs : list (string * attr);
  leaf_text : string
}.

Record node := Node {
  node_self : leaf;
  node_children : list leaf
}.

Definition has_class (cls : string) (l : leaf) : bool :=
  match assoc "class" (leaf_attrs l) with
  | Some (AttrList cs) => bool_decide (cls ∈ cs)
  | Some (AttrStr c) => String.eqb c cls
  | None => false
  end.

Definition matches (q : strainer) (l : leaf) : bool :=
  match q with
  | Named names => bool_decide (leaf_name l ∈ names)
  | NamedWithClass name cls => String.eqb (leaf_name l) name && has_class cls l
  | NamedWithAttr name a =>
      String.eqb (leaf_name l) name &&
      match assoc a (leaf_attrs l) with Some _ => true | None => false end
  end.

Definition below (q : strainer) (n : node) : list node :=
  (fun l => Node l []) <$> List.filter (matches q) (node_children n).

Definition find_all (doc : list node) (q : strainer) : list node :=
  flat_map (fun n => (if matches q (node_self n) then [n] else []) ++ below q n)%list doc.

(** a selector is a tag name *)
Definition select (doc : list node) (selector : value) : result (list node) exn :=
  match selector with
  | VStr name => if nonempty name then Ok (find_all doc (Named [name]))
                 else Error (new_exn (LibraryError "SelectorSyntaxError") "empty selector")
  | _ => Error (new_exn TypeError "expected a string")
  end.

Definition decompose (t : node) (doc : list node) : list node :=
  List.filter (fun n => negb (String.eqb (leaf_name (node_self n)) (leaf_name (node_self t)))) doc.

Definition newline : string := String (ascii_of_nat 10) EmptyString.

Definition get_text (doc : list node) : string :=
  String.concat newline
    (flat_map (fun n => leaf_text (node_self n) :: (leaf_text <$> node_children n)) doc).

(** [scheme://netloc/path?query] *)
Definition urlparse (u : string) : result parsed_url exn :=
  match split "://" u with
  | sch :: rest :: _ =>
      Ok (ParsedUrl sch (default "" (head (split "/" rest)))
                    (default "" (head (drop 1 (split "?" rest)))))
  | _ => Ok (ParsedUrl "" "" (default "" (head (drop 1 (split "?" u)))))
  end.

Definition urljoin (base href : string) : result string exn :=
  if contains "://" href then Ok href
  else if String.prefix "[" href
       then Error (new_exn (LibraryError "ValueError") "Invalid IPv6 URL")
       else match urlparse base with
            | Ok p => Ok (scheme p +:+ "://" +:+ netloc p +:+ href)
            | Error e => Error e
            end.

Definition world (clock : nat -> Z)
    (site : list (string * result response exn))
    (pages : list (string * list node))
    (messages : list (string * value)) : World :=
  {| soup := list node;
     tag := node;
     w_now := clock;
     w_isoformat := fun t => pretty t;
     w_repr := fun _ => "<object>";
     w_json_loads := fun message =>
       match assoc message messages with
       | Some v => Ok v
       | None => Error (new_exn JSONDecodeError "Expecting value: line 1 column 1 (char 0)")
       end;
     w_post := fun _ url _ =>
       default (Error (new_exn (LibraryError "ClientConnectorError") "Cannot connect to host"))
               (assoc url site);
     w_get := fun _ url =>
       match url with
       | VStr u =>
           default (Error (new_exn (LibraryError "ClientConnectorError") "Cannot connect to host"))
                   (assoc u site)
       | _ => Error (new_exn TypeError "Constructor parameter should be str")
       end;
     w_BeautifulSoup := fun html => Ok (default [] (assoc html pages));
     w_find_all := find_all;
     w_tag_find_all := fun t q => below q t;
     w_odd_limit := fun _ l => l;
     w_select := select;
     w_decompose := decompose;
     w_get_text := get_text;
     w_tag_text := fun t => strip (leaf_text (node_self t));
     w_attrs := fun t => leaf_attrs (node_self t);
     w_urljoin := urljoin;
     w_urlparse := urlparse;
     w_unquote := fun s => s;
     w_MCP_NAME := None |}.

(** A page with two links to the same address, one external link, a
    script and some text. *)
Definition example_doc : list node :=
  [Node (Leaf "title" [] " Example ") [];
   Node (Leaf "script" [] "var x = 1;") [];
   Node (Leaf "p" [("class", AttrList ["lead"; "big"])] "Hello   world") [];
   Node (Leaf "a" [("href", AttrStr "/about")] "About us") [];
   Node (Leaf "a" [("href", AttrStr "https://example.com/about")] "About again") [];
   Node (Leaf "a" [("href", AttrStr "https://other.org/")] "Elsewhere") []].

Definition example_site : list (string * result response exn) :=
  [("https://example.com",
    Ok (Response "https://example.com/" 200 "text/html" (Ok "<example>")));
   ("https://slow.example.com",
    Error (new_exn TimeoutError ""))].

Definition example_pages : list (string * list node) :=
  [("<example>", example_doc)].

(** The clock: the first reading at time 0, the later ones one day and
    ten seconds after it. *)
Definition example_clock (n : nat) : Z :=
  match n with
  | O => 0
  | S _ => 86410 * 1000000
  end.

(** The decoder knows these lines (written here without their quotes). *)
Definition example_messages : list (string * value) :=
  [("{type: ping, id: 1}",
    VDict [("type", VStr "ping"); ("id", VStr "1")]);
   ("{type: tool, tool: doesNotExist, id: 3}",
    VDict [("type", VStr "tool"); ("tool", VStr "doesNotExist"); ("id", VInt 3)]);
   ("{type: tool, id: 4}",
    VDict [("type", VStr "tool"); ("id", VInt 4)]);
   ("{type: tool, tool: webSearch, id: 7, params: {query: rocq, maxResults: '5'}}",
    VDict [("type", VStr "tool"); ("tool", VStr "webSearch"); ("id", VStr "7");
           ("params", VDict [("query", VStr "rocq"); ("maxResults", VStr "5")])]);
   ("{type: tool, tool: extractLinks, id: 8, params: {url: https://example.com}}",
    VDict [("type", VStr "tool"); ("tool", VStr "extractLinks"); ("id", VInt 8);
           ("params", VDict [("url", VStr "https://example.com")])])].

Definition example_world : World :=
  world example_clock example_site example_pages example_messages.

(** The server after [initialize]. *)
Definition ready : state := (initialize example_world init_state).2.

Definition page_params : value := VDict [("url", VStr "https://example.com")].

Definition slow_params : value := VDict [("url", VStr "https://slow.example.com")].

(** The record of the example page. *)
Definition example_record : value :=
  VDict [("success", VBool true);
         ("url", VStr "https://example.com/");
         ("statusCode", VInt 200);
         ("contentType", VStr "text/html");
         ("text", VStr "Example Hello world About us About again Elsewhere");
         ("textLength", VInt 50);
         ("metadata",
          VDict [("title", VStr "Example");
                 ("headings", VDict [("h1", VList []); ("h2", VList [])])])].

(** The server after one [fetch_webpage] of the example page. *)
Definition fetched : state := (fetch_webpage example_world page_params ready).2.

Definition example_links : list link :=
  [Link "https://example.com/about" "About us" true "https";
   Link "https://other.org/" "Elsewhere" false "https"].

(** The record that [extract_links] returns for the example page. *)
Definition example_links_record : value :=
  VDict [("success", VBool true);
         ("url", VStr "https://example.com/");
         ("links",
          VList [VDict [("url", VStr "https://example.com/about");
                        ("text", VStr "About us");
                        ("internal", VBool true);
                        ("protocol", VStr "https")];
                 VDict [("url", VStr "https://other.org/");
                        ("text", VStr "Elsewhere");
                        ("internal", VBool false);
                        ("protocol", VStr "https")]]);
         ("count", VInt 2);
         ("internal", VInt 1);
         ("external", VInt 1)].

(** Selectors: all anchors; a selector without a match; the title
    attribute of the anchors, which none of them has; the class of the
    paragraph, a multi-valued attribute. *)
Definition example_selectors : list (string * value) :=
  [("anchors", VStr "a");
   ("nothing", VStr "h1");
   ("first", VDict [("selector", VStr "a"); ("single", VBool true)]);
   ("titles", VDict [("selector", VStr "a"); ("attribute", VStr "title");
                     ("single", VBool true)]);
   ("classes", VDict [("selector", VStr "p"); ("attribute", VStr "class");
                      ("single", VBool true)])].

Definition scrape_params : value :=
  VDict [("url", VStr "https://example.com"); ("selectors", VDict example_selectors)].

Definition example_data : list (string * value) :=
  [("anchors", VList [VStr "About us"; VStr "About again"; VStr "Elsewhere"]);
   ("first", VStr "About us");
   ("titles", VList []);
   ("classes", VList [VStr "lead"; VStr "big"])].

(** The record that [scrape_data] returns for the example page. *)
Definition example_scrape_record : value :=
  VDict [("success", VBool true);
         ("url", VStr "https://example.com");
         ("data", VDict example_data);
         ("fieldsExtracted", VInt 4)].

Definition search_line : string :=
  "{type: tool, tool: webSearch, id: 7, params: {query: rocq, maxResults: '5'}}".

Definition search_request : list (string * value) :=
  [("type", VStr "tool"); ("tool", VStr "webSearch"); ("id", VStr "7");
   ("params", VDict [("query", VStr "rocq"); ("maxResults", VStr "5")])].

End Toy.

(** ** Vocabulary of the statements *)

(** [message] is a line that [json.loads] decodes, to [request]; what it
    decodes to holds JSON values only. *)
Definition decodes (W : World) (message : string) (request : value) : Prop :=
  w_json_loads W message = Ok request ∧ serializable request = true.

(** [request.get('id')] *)
Definition id_of (request : list (string * value)) : value :=
  default VNone (assoc "id" request).

(** The [error] response that [send_error] builds from an exception object
    that was created but never raised. *)
Definition error_response (request_id : value) (msg : string) : value :=
  VDict [("type", VStr "error");
         ("requestId", request_id);
         ("error", VDict [("code", VStr "INTERNAL_ERROR");
                          ("message", VStr msg);
                          ("details", VNone)])].

(** The responses printed, and the network calls made, along a trace. *)
Definition printed (tr : list event) : list value :=
  omap (fun ev => match ev with EvPrint r => Some r | _ => None end) tr.

Definition is_network_call (ev : event) : bool :=
  match ev with
  | EvPost _ _ | EvGet _ => true
  | _ => false
  end.

Definition network_calls (tr : list event) : list event :=
  List.filter is_network_call tr.

(** From [st] to [st'] nothing was printed and the registry and the
    session were left alone. *)
Definition quiet (st st' : state) : Prop :=
  printed (trace st') = printed (trace st)
  /\ tools st' = tools st
  /\ session st' = session st.

(** [v] is the record of a successful operation. *)
Definition is_success (v : value) : Prop :=
  py_get v "success" VNone = Ok (VBool true).

(** The exception [min] raises when [maxResults] is a string. *)
Definition min_type_error : exn :=
  Exn TypeError "'<' not supported between instances of 'int' and 'str'"
      None VTraceback.

(** The exception [json.dumps] raises on the traceback object. *)
Definition dumps_type_error : exn :=
  Exn TypeError "Object of type traceback is not JSON serializable"
      None VTraceback.

(** The request for [url], made after the trace [tr], times out: in
    [session.get] or while the body is read. *)
Definition times_out (W : World) (tr : list event) (url : value) : Prop :=
  exists e, exn_class_of e = TimeoutError /\
    (w_get W tr url = Error e \/
     exists resp, w_get W tr url = Ok resp /\ resp_text resp = Error e).

(** The ways a call of [fetch_webpage] can go, from the state [st] to the
    outcome [out]: it raises, it returns a failure record, it serves a
    cached record, or it fetches the page and caches the record. *)
Inductive fetch_case (W : World) (params : value) (st : state)
    (out : result value exn * state) : Prop :=
| FetchRaises (e : exn) :
    out = (Error e, st) ->
    fetch_case W params st out
| FetchFails (msg : string) (st' : state) :
    out = (Ok (failure msg), st') ->
    cache st' = cache st ->
    quiet st st' ->
    fetch_case W params st out
| FetchServed (url : value) (cached_time : Z) (cached_data : value) :
    py_get params "url" (VStr "") = Ok url ->
    cache st !! cache_key_of W url = Some (cached_time, cached_data) ->
    out = (Ok cached_data, tick st) ->
    fetch_case W params st out
| FetchStored (url et em : value) (resp : response) (html : string) (s : soup W)
    (result : list (string * value)) (st1 : state) :
    py_get params "url" (VStr "") = Ok url ->
    py_get params "extractText" (VBool true) = Ok et ->
    py_get params "extractMetadata" (VBool true) = Ok em ->
    st1 = st \/ st1 = tick st ->
    w_get W (trace st) url = Ok resp ->
    resp_text resp = Ok html ->
    w_BeautifulSoup W html = Ok s ->
    fetch_result W resp s et em = Ok result ->
    out = (Ok (VDict result),
           set_cache (insert (cache_key_of W url) (w_now W (ticks st1), VDict result))
                     (tick (log (EvGet url) st1))) ->
    fetch_case W params st out.

(** The record that stands for a link in the [links] of a result. *)
Definition link_record (url text : string) (internal : bool) (protocol : string)
  : value :=
  VDict [("url", VStr url);
         ("text", VStr text);
         ("internal", VBool internal);
         ("protocol", VStr protocol)].

(** The absolute URL of an anchor: its [href] joined to the base URL. *)
Definition absolute_url (W : World) (base_url : string) (a : tag W) : result string exn :=
  and_then (href_of W a) (fun href => call (w_urljoin W base_url href)).

(** [l] records the first of the [anchors] that has its absolute URL. *)
Definition first_occurrence (W : World) (base_url : string) (anchors : list (tag W))
    (l : link) : Prop :=
  exists pre a post,
    anchors = pre ++ a :: post
    /\ absolute_url W base_url a = Ok (link_url l)
    /\ link_text l = str_take 100 (w_tag_text W a)
    /\ forall a', a' ∈ pre -> absolute_url W base_url a' ≠ Ok (link_url l).

(** The selector that a field of [selectors] applies to the page, if its
    configuration is a string or a record. *)
Definition selector_of (selector_config : value) : option value :=
  match selector_config with
  | VStr _ => Some selector_config
  | VDict config => Some (default (VStr "") (assoc "selector" config))
  | _ => None
  end.

(** The values extracted from the matched elements: the truthy values of
    the named attribute, or else the texts. *)
Definition extracted_values (W : World) (attribute : value) (elements : list (tag W))
  : result (list value) exn :=
  if truthy attribute then attribute_values W attribute elements
  else Ok (text_values W elements).

(** What [scrape_field] stores under a key, [None] when it stores nothing. *)
Definition field_value (W : World) (s : soup W) (selector_config : value)
  : result (option value) exn :=
  match selector_config with
  | VStr _ =>
      and_then (call (w_select W s selector_config)) (fun elements =>
        match elements with
        | [] => Ok None
        | _ => Ok (Some (VList (text_values W elements)))
        end)
  | VDict config =>
      and_then (call (w_select W s (default (VStr "") (assoc "selector" config))))
        (fun elements =>
           match elements with
           | [] => Ok None
           | _ =>
               and_then
                 (extracted_values W (default VNone (assoc "attribute" config)) elements)
                 (fun values =>
                    Ok (Some (collapse (default (VBool false) (assoc "single" config))
                                       values)))
           end)
  | _ => Ok None
  end.

(** A sequence, as opposed to a scalar. *)
Definition is_sequence (v : value) : bool :=
  match v with
  | VList _ => true
  | _ => false
  end.

(** ** Further vocabulary *)

(** The events of the end of the process. *)
Definition is_shutdown (ev : event) : bool :=
  match ev with
  | EvSessionClose | EvExit _ => true
  | _ => false
  end.

(** The footprint of a computation: it leaves the registry and the
    session alone and only adds to the trace, and what it adds is no
    event of the shutdown. *)
Definition steady {A : Type} (m : M A) : Prop :=
  forall st,
    tools (m st).2 = tools st
    /\ session (m st).2 = session st
    /\ exists tr, trace (m st).2 = trace st ++ tr
                  /\ forallb (fun ev => negb (is_shutdown ev)) tr = true.

(** The announcement that [initialize] prints. *)
Definition announcement (W : World) (registry : list (string * tool)) : value :=
  VDict [("type", VStr "initialize");
         ("status", VStr "success");
         ("serverName", VStr (server_name W));
         ("version", VStr "1.0.0");
         ("tools", tool_list registry)].

(** [meta.get('name') or meta.get('property')] and [meta.get('content')] *)
Definition meta_name (W : World) (meta : tag W) : value :=
  py_or (tag_get W meta "name" VNone) (tag_get W meta "property" VNone).

Definition meta_content (W : World) (meta : tag W) : value :=
  tag_get W meta "content" VNone.

(** No character of [s] is a line boundary. *)
Fixpoint one_line (s : string) : bool :=
  match s with
  | EmptyString => true
  | String c s' => negb (is_linebreak c) && one_line s'
  end.

(** Whether a link with these URL parts gets past the two filters. *)
Definition passes (io eo : value) (base_netloc : string) (parsed : parsed_url) : bool :=
  negb (truthy io && negb (String.eqb (netloc parsed) base_netloc))
  && negb (truthy eo && String.eqb (netloc parsed) base_netloc).


(** ** A second concrete world

    The documents of the first one, with a clock that advances by one
    minute at every reading, a [urlparse] that knows URLs without a
    scheme, a page of search results and a page with [meta] tags. *)
Module Demo.

Definition clock (n : nat) : Z := Z.of_nat n * 60000000.

(** One reading every ten minutes. *)
Definition slow_clock (n : nat) : Z := Z.of_nat n * 600000000.

(** The text before the first of the characters [stops], and the text
    after the first [c]. *)
Fixpoint upto (stops : list ascii) (s : string) : string :=
  match s with
  | EmptyString => EmptyString
  | String a s' => if bool_decide (a ∈ stops) then EmptyString else String a (upto stops s')
  end.

Fixpoint after (c : ascii) (s : string) : string :=
  match s with
  | EmptyString => EmptyString
  | String a s' => if Ascii.eqb a c then s' else after c s'
  end.

(** [urlparse] of the first world, and for a URL that starts with [//]:
    no scheme, the host up to the next [/], [?] or [#], and the query
    after the first [?] up to [#]. *)
Definition urlparse (u : string) : result parsed_url exn :=
  match u with
  | String "/" (String "/" rest) =>
      Ok (ParsedUrl "" (upto ["/"; "?"; "#"]%char rest) (upto ["#"]%char (after "?" rest)))
  | _ => Toy.urlparse u
  end.

Definition result_block (href title snippet : string) : Toy.node :=
  Toy.Node (Toy.Leaf "div" [("class", AttrList ["result"])] "")
    [Toy.Leaf "a" [("class", AttrList ["result__a"]); ("href", AttrStr href)] title;
     Toy.Leaf "a" [("class", AttrList ["result__snippet"])] snippet].

(** Three results: a redirect link, a plain link, and a redirect link
    without a target. *)
Definition search_doc : list Toy.node :=
  [result_block "//duckduckgo.com/l/?uddg=rocq-prover.org&rut=1" "Rocq" "The Rocq prover";
   result_block "https://example.com/" "Example" "An example";
   result_block "//duckduckgo.com/l/?rut=2" "Third" ""].

(** Three [meta] tags of the same name, the last one without a content. *)
Definition meta_first : Toy.node :=
  Toy.Node (Toy.Leaf "meta" [("name", AttrStr "description");
                             ("content", AttrStr "first")] "") [].
Definition meta_second : Toy.node :=
  Toy.Node (Toy.Leaf "meta" [("property", AttrStr "description");
                             ("content", AttrStr "second")] "") [].
Definition meta_third : Toy.node :=
  Toy.Node (Toy.Leaf "meta" [("name", AttrStr "description")] "") [].

Definition meta_doc : list Toy.node :=
  [Toy.Node (Toy.Leaf "title" [] "Meta page") [];
   meta_first; meta_second; meta_third;
   Toy.Node (Toy.Leaf "h1" [] "Heading") []].

Definition site : list (string * result response exn) :=
  [("https://example.com",
    Ok (Response "https://example.com/" 200 "text/html" (Ok "<example>")));
   ("https://example.com/meta",
    Ok (Response "https://example.com/meta" 200 "text/html" (Ok "<meta>")));
   ("https://html.duckduckgo.com/html/",
    Ok (Response "https://html.duckduckgo.com/html/" 200 "text/html" (Ok "<results>")));
   ("https://slow.example.com",
    Error (new_exn TimeoutError ""))].

Definition pages : list (string * list Toy.node) :=
  [("<example>", Toy.example_doc); ("<meta>", meta_doc); ("<results>", search_doc)].

Definition ping_request : list (string * value) :=
  [("type", VStr "ping"); ("id", VStr "1")].
Definition list_request : list (string * value) :=
  [("type", VStr "list_tools"); ("id", VInt 2)].
Definition subscribe_request : list (string * value) :=
  [("type", VStr "subscribe"); ("id", VInt 5)].
Definition untyped_request : list (string * value) :=
  [("id", VInt 6)].
Definition scrape_request : list (string * value) :=
  [("type", VStr "tool"); ("tool", VStr "scrapeData"); ("id", VInt 9);
   ("params", VDict [("url", VStr "https://example.com")])].
Definition null_params_request : list (string * value) :=
  [("type", VStr "tool"); ("tool", VStr "fetchWebpage"); ("id", VInt 10);
   ("params", VNone)].
Definition links_request : list (string * value) :=
  [("type", VStr "tool"); ("tool", VStr "extractLinks"); ("id", VInt 8);
   ("params", VDict [("url", VStr "https://example.com")])].

(** The decoder knows these lines (written here without their quotes). *)
Definition messages : list (string * value) :=
  [("{type: ping, id: 1}", VDict ping_request);
   ("{type: list_tools, id: 2}", VDict list_request);
   ("{type: subscribe, id: 5}", VDict subscribe_request);
   ("{id: 6}", VDict untyped_request);
   ("{type: tool, tool: extractLinks, id: 8, params: {url: https://example.com}}",
    VDict links_request);
   ("{type: tool, tool: scrapeData, id: 9, params: {url: https://example.com}}",
    VDict scrape_request);
   ("{type: tool, tool: fetchWebpage, id: 10, params: null}",
    VDict null_params_request)].

Definition world_at (now : nat -> Z) : World :=
  {| soup := list Toy.node;
     tag := Toy.node;
     w_now := now;
     w_isoformat := fun t => pretty t;
     w_repr := fun _ => "<object>";
     w_json_loads := fun message =>
       match assoc message messages with
       | Some v => Ok v
       | None => Error (new_exn JSONDecodeError "Expecting value: line 1 column 1 (char 0)")
       end;
     w_post := fun _ url _ =>
       default (Error (new_exn (LibraryError "ClientConnectorError") "Cannot connect to host"))
               (assoc url site);
     w_get := fun _ url =>
       match url with
       | VStr u =>
           default (Error (new_exn (LibraryError "ClientConnectorError") "Cannot connect to host"))
                   (assoc u site)
       | _ => Error (new_exn TypeError "Constructor parameter should be str")
       end;
     w_BeautifulSoup := fun html => Ok (default [] (assoc html pages));
     w_find_all := Toy.find_all;
     w_tag_find_all := fun t q => Toy.below q t;
     w_odd_limit := fun _ l => l;
     w_select := Toy.select;
     w_decompose := Toy.decompose;
     w_get_text := Toy.get_text;
     w_tag_text := fun t => strip (Toy.leaf_text (Toy.node_self t));
     w_attrs := fun t => Toy.leaf_attrs (Toy.node_self t);
     w_urljoin := Toy.urljoin;
     w_urlparse := urlparse;
     w_unquote := fun s => s;
     w_MCP_NAME := Some "demo" |}.

Definition world : World := world_at clock.
Definition slow_world : World := world_at slow_clock.

(** The server after [initialize], and after one [fetch_webpage] of the
    example page, under either clock. *)
Definition ready : state := (initialize world init_state).2.
Definition fetched : state := (fetch_webpage world Toy.page_params ready).2.
Definition slow_fetched : state :=
  (fetch_webpage slow_world Toy.page_params (initialize slow_world init_state).2).2.

(** Selectors: a bare selector, a record without [single], and a
    configuration that is neither. *)
Definition selectors : list (string * value) :=
  [("anchors", VStr "a");
   ("links", VDict [("selector", VStr "a"); ("attribute", VStr "href")]);
   ("n", VInt 3)].

(** The example page fetched without its text, and the server after that
    call. *)
Definition textless_params : value :=
  VDict [("url", VStr "https://example.com"); ("extractText", VBool false)].
Definition textless_record : value :=
  VDict [("success", VBool true);
         ("url", VStr "https://example.com/");
         ("statusCode", VInt 200);
         ("contentType", VStr "text/html");
         ("metadata",
          VDict [("title", VStr "Example");
                 ("headings", VDict [("h1", VList []); ("h2", VList [])])])].
Definition fetched_textless : state := (fetch_webpage world textless_params ready).2.

(** The internal links of the example page, and the scrape of it. *)
Definition internal_params : value :=
  VDict [("url", VStr "https://example.com"); ("internalOnly", VBool true)].
Definition internal_links_record : value :=
  VDict [("success", VBool true);
         ("url", VStr "https://example.com/");
         ("links",
          VList [VDict [("url", VStr "https://example.com/about");
                        ("text", VStr "About us");
                        ("internal", VBool true);
                        ("protocol", VStr "https")]]);
         ("count", VInt 1);
         ("internal", VInt 1);
         ("external", VInt 0)].
Definition scrape_record : value :=
  VDict [("success", VBool true);
         ("url", VStr "https://example.com");
         ("data",
          VDict [("anchors", VList [VStr "About us"; VStr "About again";
                                    VStr "Elsewhere"]);
                 ("links", VList [VStr "/about"; VStr "https://example.com/about";
                                  VStr "https://other.org/"])]);
         ("fieldsExtracted", VInt 2)].

Definition meta_response : response :=
  Response "https://example.com/meta" 200 "text/html" (Ok "<meta>").

End Demo.
(** * Properties *)

(** ** Dictionaries and strings *)

Lemma Ok_inj {A E : Type} (a b : A) : @Ok A E a = Ok b -> a = b.
Proof. by intros [= ->]. Qed.

Lemma assoc_dict_set_eq {A : Type} (k : string) (v : A) (d : list (string * A)) :
  assoc k (dict_set k v d) = Some v.
Proof.
  induction d as [|[k' v'] d IH]; simpl.
  - by rewrite String.eqb_refl.
  - destruct (String.eqb k' k) eqn:E; simpl.
    + by rewrite String.eqb_refl.
    + by rewrite E.
Qed.

Lemma assoc_dict_set_ne {A : Type} (k k' : string) (v : A) (d : list (string * A)) :
  k ≠ k' -> assoc k (dict_set k' v d) = assoc k d.
Proof.
  intros Hne. induction d as [|[k0 v0] d IH]; simpl.
  - destruct (String.eqb_spec k' k); congruence.
  - destruct (String.eqb_spec k0 k') as [->|Hk0]; simpl.
    + destruct (String.eqb_spec k' k); congruence.
    + destruct (String.eqb_spec k0 k); auto.
Qed.

Lemma assoc_None_keys {A : Type} (k : string) (d : list (string * A)) :
  assoc k d = None <-> k ∉ d.*1.
Proof.
  induction d as [|[k' v] d IH]; simpl.
  - split; [intros _; apply not_elem_of_nil | done].
  - rewrite not_elem_of_cons. destruct (String.eqb_spec k' k) as [->|Hne].
    + split; [done | intros [? _]; done].
    + rewrite IH. split; [intros ?; split; [congruence | done] | intros [_ ?]; done].
Qed.

Lemma dict_set_keys_fresh {A : Type} (k : string) (v : A) (d : list (string * A)) :
  k ∉ d.*1 -> (dict_set k v d).*1 = d.*1 ++ [k].
Proof.
  induction d as [|[k' v'] d IH]; simpl; [done|].
  rewrite not_elem_of_cons. intros [Hne Hd].
  destruct (String.eqb_spec k' k); [congruence|]. simpl. f_equal. by apply IH.
Qed.

Lemma dict_set_keys_present {A : Type} (k : string) (v : A) (d : list (string * A)) :
  k ∈ d.*1 -> (dict_set k v d).*1 = d.*1.
Proof.
  induction d as [|[k' v'] d IH]; simpl.
  - intros H. by apply elem_of_nil in H.
  - destruct (String.eqb_spec k' k) as [->|Hne]; simpl; [done|].
    rewrite elem_of_cons. intros [?|?]; [congruence|]. f_equal. by apply IH.
Qed.

(** [d[k] = v] keeps the keys of a dict distinct. *)
Lemma dict_set_NoDup {A : Type} (k : string) (v : A) (d : list (string * A)) :
  NoDup d.*1 -> NoDup (dict_set k v d).*1.
Proof.
  intros Hd. destruct (decide (k ∈ d.*1)) as [Hin|Hout].
  - by rewrite dict_set_keys_present.
  - rewrite dict_set_keys_fresh by done.
    apply NoDup_app. split; [done|]. split; [|apply NoDup_singleton].
    intros x Hx Hk. apply list_elem_of_singleton in Hk. by subst.
Qed.

Lemma serializable_assoc (d : list (string * value)) (k : string) (v : value) :
  serializable (VDict d) = true -> assoc k d = Some v -> serializable v = true.
Proof.
  simpl. induction d as [|[k' v'] d IH]; simpl; [done|].
  intros [Hv Hd]%andb_true_iff. destruct (String.eqb k' k); [|by auto].
  intros [= <-]. done.
Qed.

Lemma str_take_length (n : nat) (s : string) :
  (String.length (str_take n s) <= n)%nat.
Proof.
  revert s. induction n as [|n IH]; intros [|c s]; simpl; try lia.
  specialize (IH s). lia.
Qed.

Lemma str_take_prefix (n : nat) (s : string) :
  String.prefix (str_take n s) s = true.
Proof.
  revert s. induction n as [|n IH]; intros [|c s]; simpl; try done.
  destruct (ascii_dec c c); [apply IH | done].
Qed.

(** ** Dates *)

(** Within a day, the [seconds] field is the age in whole seconds. *)
Lemma timedelta_seconds_same_day (delta : Z) :
  0 <= delta < 86400000000 -> timedelta_seconds delta = delta / 1000000.
Proof.
  intros H. unfold timedelta_seconds. by rewrite Z.mod_small.
Qed.

(** Whole days of age do not show in the [seconds] field. *)
Lemma timedelta_seconds_days (days delta : Z) :
  timedelta_seconds (days * 86400000000 + delta) = timedelta_seconds delta.
Proof.
  unfold timedelta_seconds. f_equal.
  rewrite Z.add_comm. apply Z_mod_plus_full.
Qed.

(** ** Traces *)

Lemma printed_app (tr1 tr2 : list event) :
  printed (tr1 ++ tr2) = printed tr1 ++ printed tr2.
Proof. unfold printed. apply omap_app. Qed.

Lemma quiet_tick (st : state) : quiet st (tick st).
Proof. done. Qed.

Lemma quiet_trans (st1 st2 st3 : state) : quiet st1 st2 -> quiet st2 st3 -> quiet st1 st3.
Proof. unfold quiet. intros (-> & -> & ->) (-> & -> & ->). done. Qed.

(** Network calls print nothing. *)
Lemma quiet_log (ev : event) (st : state) :
  is_network_call ev = true -> quiet st (log ev st).
Proof.
  intros Hev. unfold quiet. simpl. rewrite printed_app.
  destruct ev; try done; simpl; by rewrite app_nil_r.
Qed.

Lemma quiet_set_cache (f : gmap string (Z * value) -> gmap string (Z * value)) (st : state) :
  quiet st (set_cache f st).
Proof. done. Qed.

(** ** Exceptions and the tool operations *)

Section Tools.

Variable W : World.

(** A [try] whose handler returns a record returns a record. *)
Lemma try_except_returns {A : Type} (body : M A) (handler : exn -> M A) (st : state) :
  (forall e st1, exists a, handler e st1 = (Ok a, st1)) ->
  exists a st', try_except body handler st = (Ok a, st').
Proof.
  intros Hh. unfold try_except. destruct (body st) as [[a|e] st1]; [by eauto|].
  destruct (Hh e st1) as [a ->]. eauto.
Qed.

(** The cache check never raises; it reads the clock once when the key
    is present and leaves everything else alone. *)
Lemma cache_check_spec (cache_key : string) (st : state) :
  cache_check W cache_key st =
  match cache st !! cache_key with
  | Some (cached_time, cached_data) =>
      (Ok (if timedelta_seconds (w_now W (ticks st) - cached_time) <? cache_ttl
           then Some cached_data else None), tick st)
  | None => (Ok None, st)
  end.
Proof.
  unfold cache_check, bind, get_state, now, ret.
  destruct (cache st !! cache_key) as [[cached_time cached_data]|]; done.
Qed.

Lemma fetch_fresh_returns (url et em : value) (cache_key : string) (st : state) :
  exists r st', fetch_fresh W url et em cache_key st = (Ok r, st').
Proof.
  apply try_except_returns. by eauto.
Qed.

(** On a mapping, [fetch_webpage], [extract_links] and [scrape_data]
    return a record whatever happens. *)
Lemma fetch_webpage_returns (d : list (string * value)) (st : state) :
  exists r st', fetch_webpage W (VDict d) st = (Ok r, st').
Proof.
  unfold fetch_webpage, bind, lift, ret. simpl.
  destruct (truthy (default (VStr "") (assoc "url" d))); simpl; [|by eauto].
  rewrite cache_check_spec.
  destruct (cache st !! _) as [[cached_time cached_data]|].
  - destruct (_ <? _); [by eauto | apply fetch_fresh_returns].
  - apply fetch_fresh_returns.
Qed.

Lemma extract_links_returns (d : list (string * value)) (st : state) :
  exists r st', extract_links W (VDict d) st = (Ok r, st').
Proof.
  unfold extract_links, bind, lift, ret. simpl.
  destruct (truthy (default (VStr "") (assoc "url" d))); simpl; [|by eauto].
  apply try_except_returns. by eauto.
Qed.

Lemma scrape_data_returns (d : list (string * value)) (st : state) :
  exists r st', scrape_data W (VDict d) st = (Ok r, st').
Proof.
  unfold scrape_data, bind, lift, ret. simpl.
  destruct (truthy (default (VStr "") (assoc "url" d))); simpl; [|by eauto].
  destruct (truthy (default (VDict []) (assoc "selectors" d))); simpl; [|by eauto].
  apply try_except_returns. by eauto.
Qed.

(** So does [web_search], provided [min] accepts [maxResults]. *)
Lemma web_search_returns (d : list (string * value)) (st : state) (m : value) :
  py_min_20 (default (VInt 10) (assoc "maxResults" d)) = Ok m ->
  exists r st', web_search W (VDict d) st = (Ok r, st').
Proof.
  intros Hm. unfold web_search, bind, lift, ret. simpl. rewrite Hm.
  destruct (truthy (default (VStr "") (assoc "query" d))); simpl; [|by eauto].
  apply try_except_returns. by eauto.
Qed.

(** When [min] rejects [maxResults], [web_search] raises, before it looks
    at [query] and outside its [try]. *)
Lemma web_search_raises (d : list (string * value)) (st : state) (e : exn) :
  py_min_20 (default (VInt 10) (assoc "maxResults" d)) = Error e ->
  web_search W (VDict d) st = (Error (raised e), st).
Proof.
  intros Hm. unfold web_search, bind, lift, ret. simpl. by rewrite Hm.
Qed.

(** An exception that leaves a tool operation carries its traceback. *)
Lemma call_tool_error (handler : tool) (params : value) (st st' : state) (e : exn) :
  call_tool W handler params st = (Error e, st') ->
  exn_traceback e = VTraceback.
Proof.
  destruct params as [| | | | | |d|];
    try (destruct handler; simpl;
         unfold web_search, fetch_webpage, extract_links, scrape_data, bind, lift;
         simpl; unfold raise; by intros [= <- _]).
  destruct handler; simpl.
  - destruct (py_min_20 (default (VInt 10) (assoc "maxResults" d))) as [m|e0] eqn:Hm.
    + destruct (web_search_returns d st m Hm) as (r & st1 & ->). done.
    + rewrite (web_search_raises d st e0 Hm). by intros [= <- _].
  - destruct (fetch_webpage_returns d st) as (r & st1 & ->). done.
  - destruct (extract_links_returns d st) as (r & st1 & ->). done.
  - destruct (scrape_data_returns d st) as (r & st1 & ->). done.
Qed.

End Tools.

(** ** The dispatcher *)

Section Dispatch.

Variable W : World.

Lemma decodes_field (message : string) (request : list (string * value))
    (k : string) (v : value) :
  decodes W message (VDict request) -> assoc k request = Some v ->
  serializable v = true.
Proof. intros [_ Hs] Hk. by eapply serializable_assoc. Qed.

Lemma decodes_id (message : string) (request : list (string * value)) :
  decodes W message (VDict request) -> serializable (id_of request) = true.
Proof.
  intros Hd. unfold id_of. destruct (assoc "id" request) eqn:E; [|done].
  by eapply decodes_field.
Qed.

(** Reporting an exception that was never raised prints one [error]
    response carrying the given request id. *)
Lemma send_error_fresh (cls : exn_class) (msg : string) (request_id : value) (st : state) :
  serializable request_id = true ->
  send_error (new_exn cls msg) request_id st
  = (Ok tt, log (EvPrint (error_response request_id msg)) st).
Proof.
  intros Hid. unfold send_error, send_response, error_response. simpl.
  rewrite Hid. done.
Qed.

(** Reporting an exception that was raised prints nothing: the traceback
    in [details] cannot be encoded, and [json.dumps] raises in turn. *)
Lemma send_error_traceback (e : exn) (request_id : value) (st : state) :
  exn_traceback e = VTraceback ->
  send_error e request_id st = (Error dumps_type_error, st).
Proof.
  intros He. unfold send_error, send_response. simpl.
  rewrite He. simpl. rewrite !andb_false_r. done.
Qed.

Lemma send_error_raised (e : exn) (request_id : value) (st : state) :
  send_error (raised e) request_id st = (Error dumps_type_error, st).
Proof. by apply send_error_traceback. Qed.

(** What [handle_message] does with a decoded request whose [type] is
    [tool] and whose [tool] is a non-empty string. *)
Lemma handle_message_tool (message : string) (request : list (string * value))
    (name : string) (st : state) :
  decodes W message (VDict request) ->
  assoc "type" request = Some (VStr "tool") ->
  assoc "tool" request = Some (VStr name) ->
  name ≠ "" ->
  handle_message W message st =
  match assoc name (tools st) with
  | None =>
      (Ok tt, log (EvPrint (error_response (id_of request) ("Unknown tool: " +:+ name))) st)
  | Some handler =>
      match call_tool W handler (default (VDict []) (assoc "params" request)) st with
      | (Ok result, st') =>
          send_response
            (VDict [("type", VStr "tool_response");
                    ("requestId", id_of request);
                    ("tool", VStr name);
                    ("result", result)]) st'
      | (Error e, st') => (Error dumps_type_error, st')
      end
  end.
Proof.
  intros Hd Hty Htool Hne.
  pose proof (decodes_id _ _ Hd) as Hid. destruct Hd as [Hload _].
  unfold handle_message, try_except, dispatch, bind, lift, ret.
  rewrite Hload. simpl. rewrite Hty, Htool. simpl.
  destruct name as [|c name]; [done|]. simpl.
  destruct (assoc (String c name) (tools st)) as [handler|] eqn:Hreg; simpl.
  - destruct (call_tool W handler _ st) as [[result|e] st'] eqn:Hcall.
    + fold (id_of request). unfold send_response. simpl.
      destruct (serializable (id_of request) && _) eqn:Hs; simpl; [done|].
      by rewrite (send_error_raised (new_exn TypeError _)).
    + apply send_error_traceback. by eapply call_tool_error.
  - fold (id_of request). by rewrite send_error_fresh.
Qed.

(** What [handle_message] does with a decoded request that is no tool
    call: either its [type] is not [tool], or its [tool] is missing or
    falsy. *)
Lemma handle_message_other (message : string) (request : list (string * value))
    (type : value) (st : state) :
  decodes W message (VDict request) ->
  assoc "type" request = Some type ->
  is_str type "tool" && truthy (default VNone (assoc "tool" request)) = false ->
  handle_message W message st =
  if is_str type "list_tools" then
    (Ok tt, log (EvPrint (VDict [("type", VStr "tools_list");
                                 ("requestId", id_of request);
                                 ("tools", tool_list (tools st))])) st)
  else if is_str type "ping" then
    (Ok tt, log (EvPrint (VDict [("type", VStr "pong");
                                 ("requestId", id_of request);
                                 ("timestamp", VStr (w_isoformat W (w_now W (ticks st))))]))
                (tick st))
  else
    (Ok tt, log (EvPrint (error_response (id_of request)
                            ("Unknown request type: " +:+ py_str W type))) st).
Proof.
  intros Hd Hty Hnot.
  pose proof (decodes_id _ _ Hd) as Hid. destruct Hd as [Hload _].
  unfold handle_message, try_except, dispatch, bind, lift, ret.
  rewrite Hload. simpl. rewrite Hty. simpl.
  fold (id_of request).
  destruct (is_str type "tool") eqn:Ht; simpl in Hnot; rewrite ?Hnot; cbn beta iota.
  all: destruct (is_str type "list_tools") eqn:Hl;
    [ unfold get_state, send_response; simpl; rewrite Hid; simpl;
      assert (forallb serializable
                ((fun name => VDict [("name", VStr name);
                                     ("description", VStr (get_tool_description name))])
                 <$> (tools st).*1) = true) as ->;
      [ induction (tools st).*1; simpl; auto | done ]
    | ].
  all: destruct (is_str type "ping") eqn:Hp;
    [ unfold now, send_response; simpl; rewrite Hid; done | ].
  all: by rewrite send_error_fresh.
Qed.



(** C2: with a text under [maxResults], [web_search] raises the
    [TypeError] of [min] instead of returning a failure record, and the
    exception leaves [handle_message] as well: [send_error] cannot encode
    its report, so nothing is printed and the [TypeError] of [json.dumps]
    goes up into the loop of [run]. *)
Theorem web_search_failure_escapes (message : string)
    (request : list (string * value)) (st : state) :
  decodes W message (VDict request) ->
  assoc "type" request = Some (VStr "tool") ->
  assoc "tool" request = Some (VStr "webSearch") ->
  assoc "params" request
    = Some (VDict [("query", VStr "rocq"); ("maxResults", VStr "5")]) ->
  assoc "webSearch" (tools st) = Some WebSearch ->
  web_search W (VDict [("query", VStr "rocq"); ("maxResults", VStr "5")]) st
    = (Error min_type_error, st)
  /\ handle_message W message st = (Error dumps_type_error, st).
Proof.
  intros Hd Hty Htool Hparams Hreg. split; [done|].
  rewrite (handle_message_tool message request "webSearch" st Hd Hty Htool) by done.
  rewrite Hreg, Hparams. done.
Qed.

(** One turn of the loop on a line that was read and decoded. *)
Lemma serve_cons (line : string) (rest : list string) (st : state) :
  serve W (line :: rest) st
  = (modify (log (EvReadline line)) ;;;
     if nonempty line then
       (if nonempty (strip line) then handle_message W (strip line) else ret tt) ;;;
       serve W rest
     else ret tt) st.
Proof. reflexivity. Qed.

(** C3: a decodable request with a [type] and an [id] that gets no
    response at all: the line is read, the failure of [web_search] leaves
    [handle_message], and the loop ends without printing anything and
    without reading the lines that follow. *)
Theorem request_left_unanswered (line : string) (rest : list string)
    (request : list (string * value)) (st : state) :
  nonempty (strip line) = true ->
  decodes W (strip line) (VDict request) ->
  assoc "type" request = Some (VStr "tool") ->
  assoc "tool" request = Some (VStr "webSearch") ->
  assoc "id" request = Some (VStr "7") ->
  assoc "params" request
    = Some (VDict [("query", VStr "rocq"); ("maxResults", VStr "5")]) ->
  assoc "webSearch" (tools st) = Some WebSearch ->
  serve W (line :: rest) st = (Error dumps_type_error, log (EvReadline line) st)
  /\ printed (trace (serve W (line :: rest) st).2) = printed (trace st).
Proof.
  intros Hmsg Hd Hty Htool Hid Hparams Hreg.
  assert (nonempty line = true) as Hline.
  { destruct line; [done | done]. }
  assert (serve W (line :: rest) st = (Error dumps_type_error, log (EvReadline line) st)) as ->.
  { rewrite serve_cons. unfold bind, modify. rewrite Hline, Hmsg.
    rewrite (handle_message_tool (strip line) request "webSearch" _ Hd Hty Htool) by done.
    simpl. rewrite Hreg, Hparams. done. }
  split; [done|]. simpl. unfold printed. rewrite omap_app. simpl.
  by rewrite app_nil_r.
Qed.

End Dispatch.

(** C6: with no [query] and a text under [maxResults], [web_search] does
    not return the record [Query parameter is required]: [min] is applied
    to [maxResults] before [query] is looked at, and raises. *)
Theorem web_search_missing_query_raises (W : World) (st : state) :
  web_search W (VDict [("maxResults", VStr "5")]) st = (Error min_type_error, st).
Proof. done. Qed.

(** ** [fetch_webpage] and its cache *)

Section Fetch.

Variable W : World.

(** The steps of the [try] block, one by one: the record is cached only
    when every step succeeded. *)
Lemma fetch_fresh_spec (url et em : value) (cache_key : string) (st : state) :
  fetch_fresh W url et em cache_key st =
  if session st then
    match w_get W (trace st) url with
    | Ok resp =>
        match resp_text resp with
        | Ok html =>
            match w_BeautifulSoup W html with
            | Ok s =>
                match fetch_result W resp s et em with
                | Ok result =>
                    (Ok (VDict result),
                     set_cache (insert cache_key (w_now W (ticks st), VDict result))
                               (tick (log (EvGet url) st)))
                | Error e => (Ok (fetch_failure e), log (EvGet url) st)
                end
            | Error e => (Ok (fetch_failure e), log (EvGet url) st)
            end
        | Error e => (Ok (fetch_failure e), log (EvGet url) st)
        end
    | Error e => (Ok (fetch_failure e), log (EvGet url) st)
    end
  else (Ok (failure "'NoneType' object has no attribute 'get'"), st).
Proof.
  unfold fetch_fresh, try_except, session_get, bind, get_state, modify, lift, raise, ret, now.
  destruct (session st); [|done]. simpl.
  destruct (w_get W (trace st) url) as [resp|e]; [|done].
  destruct (resp_text resp) as [html|e]; [|done].
  destruct (w_BeautifulSoup W html) as [s|e]; [|done].
  destruct (fetch_result W resp s et em) as [result|e]; done.
Qed.

Lemma fetch_result_success (resp : response) (s : soup W) (et em : value)
    (result : list (string * value)) :
  fetch_result W resp s et em = Ok result -> is_success (VDict result).
Proof.
  unfold fetch_result, is_success, py_get. intros Hres.
  assert (assoc "success" result = Some (VBool true)) as ->; [|done].
  destruct (truthy et), (truthy em).
  - destruct (page_metadata _ _); cbn [and_then] in Hres; [|done].
    apply Ok_inj in Hres as <-. by rewrite !assoc_dict_set_ne.
  - apply Ok_inj in Hres as <-. by rewrite !assoc_dict_set_ne.
  - destruct (page_metadata _ _); cbn [and_then] in Hres; [|done].
    apply Ok_inj in Hres as <-. by rewrite !assoc_dict_set_ne.
  - by apply Ok_inj in Hres as <-.
Qed.

(** What [fetch_webpage] does on a mapping with a usable [url]. *)
Lemma fetch_webpage_spec (d : list (string * value)) (st : state) :
  let url := default (VStr "") (assoc "url" d) in
  truthy url = true ->
  fetch_webpage W (VDict d) st =
  match cache_check W (cache_key_of W url) st with
  | (Ok (Some cached_data), st1) => (Ok cached_data, st1)
  | (Ok None, st1) =>
      fetch_fresh W url (default (VBool true) (assoc "extractText" d))
                  (default (VBool true) (assoc "extractMetadata" d))
                  (cache_key_of W url) st1
  | (Error e, st1) => (Error e, st1)
  end.
Proof.
  intros url Hurl. unfold fetch_webpage, bind, lift, ret. simpl.
  fold url. rewrite Hurl. simpl.
  destruct (cache_check W (cache_key_of W url) st) as [[[data|]|e] st1]; done.
Qed.

(** An entry is served, with no network call, whenever the [seconds]
    field of its age is below the TTL. *)
Lemma fetch_webpage_cache_hit (d : list (string * value)) (st : state)
    (cached_time : Z) (cached_data : value) :
  let url := default (VStr "") (assoc "url" d) in
  truthy url = true ->
  cache st !! cache_key_of W url = Some (cached_time, cached_data) ->
  timedelta_seconds (w_now W (ticks st) - cached_time) < cache_ttl ->
  fetch_webpage W (VDict d) st = (Ok cached_data, tick st).
Proof.
  intros url Hurl Hc Hage. rewrite fetch_webpage_spec by done. fold url.
  rewrite cache_check_spec, Hc.
  destruct (Z.ltb_spec (timedelta_seconds (w_now W (ticks st) - cached_time)) cache_ttl);
    [done | lia].
Qed.

(** The sound half of the TTL check: an entry younger than 300 seconds is
    served from the cache, with no network call. *)
Lemma fetch_webpage_within_ttl (d : list (string * value)) (st : state)
    (cached_time : Z) (cached_data : value) :
  let url := default (VStr "") (assoc "url" d) in
  truthy url = true ->
  cache st !! cache_key_of W url = Some (cached_time, cached_data) ->
  0 <= w_now W (ticks st) - cached_time < cache_ttl * 1000000 ->
  fetch_webpage W (VDict d) st = (Ok cached_data, tick st)
  /\ trace (tick st) = trace st.
Proof.
  intros url Hurl Hc Hage. split; [|done].
  apply (fetch_webpage_cache_hit d st cached_time cached_data Hurl Hc).
  rewrite timedelta_seconds_same_day by (unfold cache_ttl in *; lia).
  apply Z.div_lt_upper_bound; unfold cache_ttl in *; lia.
Qed.

(** An entry between 300 seconds and one day old is not served: the page
    is fetched again. *)
Lemma fetch_webpage_expired (d : list (string * value)) (st : state)
    (cached_time : Z) (cached_data : value) :
  let url := default (VStr "") (assoc "url" d) in
  truthy url = true ->
  cache st !! cache_key_of W url = Some (cached_time, cached_data) ->
  cache_ttl * 1000000 <= w_now W (ticks st) - cached_time < 86400000000 ->
  fetch_webpage W (VDict d) st =
  fetch_fresh W url (default (VBool true) (assoc "extractText" d))
              (default (VBool true) (assoc "extractMetadata" d))
              (cache_key_of W url) (tick st).
Proof.
  intros url Hurl Hc Hage. rewrite fetch_webpage_spec by done. fold url.
  rewrite cache_check_spec, Hc.
  rewrite timedelta_seconds_same_day by (unfold cache_ttl in *; lia).
  destruct (Z.ltb_spec ((w_now W (ticks st) - cached_time) / 1000000) cache_ttl) as [Hlt|];
    [|done].
  exfalso. unfold cache_ttl in *.
  assert (300 <= (w_now W (ticks st) - cached_time) / 1000000); [|lia].
  apply Z.div_le_lower_bound; lia.
Qed.

(** C1: an entry that is one or more whole days plus less than 300
    seconds old (one day and ten seconds, say) is served from the cache:
    the check reads the [seconds] field of the age, which leaves the days
    out, and the call returns the cached record without any network
    call. *)
Theorem stale_entry_served (d : list (string * value)) (url : string) (st : state)
    (cached_time : Z) (cached_data : value) (days delta : Z) :
  assoc "url" d = Some (VStr url) ->
  url ≠ "" ->
  cache st !! ("fetch:" +:+ url) = Some (cached_time, cached_data) ->
  1 <= days ->
  0 <= delta < 300 * 1000000 ->
  w_now W (ticks st) - cached_time = days * 86400000000 + delta ->
  cache_ttl * 1000000 < w_now W (ticks st) - cached_time
  /\ fetch_webpage W (VDict d) st = (Ok cached_data, tick st)
  /\ network_calls (trace (tick st)) = network_calls (trace st).
Proof.
  intros Hurl Hne Hc Hdays Hdelta Hage. split; [unfold cache_ttl; lia|]. split; [|done].
  apply (fetch_webpage_cache_hit d st cached_time cached_data).
  - rewrite Hurl. simpl. by destruct url.
  - by rewrite Hurl.
  - rewrite Hage, timedelta_seconds_days, timedelta_seconds_same_day by lia.
    unfold cache_ttl. apply Z.div_lt_upper_bound; lia.
Qed.

Lemma fetch_failure_is_failure (e : exn) : exists msg, fetch_failure e = failure msg.
Proof. unfold fetch_failure. destruct (exn_class_of e); eauto. Qed.

Lemma fetch_fresh_cases (d : list (string * value)) (st st1 : state) :
  let url := default (VStr "") (assoc "url" d) in
  st1 = st \/ st1 = tick st ->
  fetch_case W (VDict d) st
    (fetch_fresh W url (default (VBool true) (assoc "extractText" d))
                 (default (VBool true) (assoc "extractMetadata" d))
                 (cache_key_of W url) st1).
Proof.
  intros url Hst1. rewrite fetch_fresh_spec.
  assert (cache st1 = cache st) as Hcache by (by destruct Hst1 as [-> | ->]).
  assert (trace st1 = trace st) as Htrace by (by destruct Hst1 as [-> | ->]).
  assert (quiet st st1) as Hq1 by (destruct Hst1 as [-> | ->]; done).
  assert (quiet st (log (EvGet url) st1)) as Hq2.
  { eapply quiet_trans; [done | by apply quiet_log]. }
  destruct (session st1); [|by eapply FetchFails].
  rewrite Htrace.
  destruct (w_get W (trace st) url) as [resp|e] eqn:Hget;
    [|destruct (fetch_failure_is_failure e) as [msg ->]; by eapply FetchFails].
  destruct (resp_text resp) as [html|e] eqn:Htext;
    [|destruct (fetch_failure_is_failure e) as [msg ->]; by eapply FetchFails].
  destruct (w_BeautifulSoup W html) as [s|e] eqn:Hsoup;
    [|destruct (fetch_failure_is_failure e) as [msg ->]; by eapply FetchFails].
  destruct (fetch_result W resp s _ _) as [result|e] eqn:Hres;
    [|destruct (fetch_failure_is_failure e) as [msg ->]; by eapply FetchFails].
  by eapply (FetchStored W (VDict d) st _ url _ _ resp html s result st1).
Qed.

(** Every call of [fetch_webpage] goes one of the four ways. *)
Lemma fetch_webpage_cases (params : value) (st : state) :
  fetch_case W params st (fetch_webpage W params st).
Proof.
  destruct params as [| | | | | |d|]; try by eapply FetchRaises.
  destruct (truthy (default (VStr "") (assoc "url" d))) eqn:Hurl.
  - rewrite fetch_webpage_spec by done. rewrite cache_check_spec.
    destruct (cache st !! _) as [[cached_time cached_data]|] eqn:Hc.
    + destruct (_ <? _).
      * by eapply FetchServed.
      * apply fetch_fresh_cases. by right.
    + apply fetch_fresh_cases. by left.
  - eapply FetchFails; [|done|done].
    unfold fetch_webpage, bind, lift, ret. simpl. by rewrite Hurl.
Qed.

(** C7: a call of [fetch_webpage] that does not return a success record
    leaves the cache as it was; a request that times out gives the record
    whose [success] is false and whose [error] is [Request timeout]; and a
    cache that holds success records only still does so after any call. *)
Theorem failed_fetch_keeps_cache (params : value) (st : state) :
  (~ (exists r, (fetch_webpage W params st).1 = Ok r /\ is_success r) ->
   cache (fetch_webpage W params st).2 = cache st)
  /\ (forall url,
        py_get params "url" (VStr "") = Ok url -> truthy url = true ->
        (cache_check W (cache_key_of W url) st).1 = Ok None ->
        session st = true ->
        times_out W (trace st) url ->
        (fetch_webpage W params st).1
        = Ok (VDict [("success", VBool false); ("error", VStr "Request timeout")]))
  /\ ((forall k t v, cache st !! k = Some (t, v) -> is_success v) ->
      forall k t v, cache (fetch_webpage W params st).2 !! k = Some (t, v) ->
                    is_success v).
Proof.
  split; [|split].
  - intros Hfail. destruct (fetch_webpage_cases params st)
      as [e Hout | msg st' Hout Hc _ | url t0 data _ _ Hout
          | url et em resp html s result st1 _ _ _ _ _ _ _ Hres Hout];
      try (by rewrite Hout).
    destruct Hfail. exists (VDict result). rewrite Hout. split; [done|].
    by eapply fetch_result_success.
  - intros url Hurl Htruthy Hmiss Hsession (e & Hcls & Hto).
    destruct params as [| | | | | |d|]; try done.
    simpl in Hurl. injection Hurl as Hurl.
    rewrite fetch_webpage_spec by (by rewrite Hurl). rewrite Hurl.
    destruct (cache_check W (cache_key_of W url) st) as [[[data|]|e0] st1] eqn:Hcc;
      try done.
    assert (session st1 = true /\ trace st1 = trace st) as [Hs1 Ht1].
    { rewrite cache_check_spec in Hcc.
      destruct (cache st !! _) as [[t0 data]|];
        [injection Hcc as _ <- | injection Hcc as <-]; done. }
    rewrite fetch_fresh_spec, Hs1, Ht1.
    destruct Hto as [-> | (resp & -> & ->)]; simpl;
      unfold fetch_failure; by rewrite Hcls.
  - intros Hinv k t v.
    destruct (fetch_webpage_cases params st)
      as [e Hout | msg st' Hout Hc _ | url t0 data _ _ Hout
          | url et em resp html s result st1 _ _ _ Hst1 _ _ _ Hres Hout];
      rewrite Hout; simpl; try (by apply Hinv).
    + rewrite Hc. by apply Hinv.
    + assert (cache st1 = cache st) as -> by (by destruct Hst1 as [-> | ->]).
      destruct (decide (cache_key_of W url = k)) as [<-|Hne].
      * rewrite lookup_insert_eq. intros [= <- <-]. by eapply fetch_result_success.
      * rewrite lookup_insert_ne by done. by apply Hinv.
Qed.

Lemma str_take_length_min (n : nat) (s : string) :
  String.length (str_take n s) = Nat.min n (String.length s).
Proof.
  revert s. induction n as [|n IH]; intros [|c s]; simpl; try done.
  by rewrite IH.
Qed.

(** The [text] and [textLength] fields of a freshly built record. *)
Lemma fetch_result_text (resp : response) (s : soup W) (et em : value)
    (result : list (string * value)) :
  fetch_result W resp s et em = Ok result ->
  truthy et = true ->
  assoc "text" result = Some (VStr (str_take text_limit (page_text W s)))
  /\ assoc "textLength" result
     = Some (VInt (Z.of_nat (String.length (page_text W s)))).
Proof.
  unfold fetch_result. intros Hres Het. rewrite Het in Hres.
  destruct (truthy em).
  - destruct (page_metadata _ _); cbn [and_then] in Hres; [|done].
    apply Ok_inj in Hres as <-. split.
    + rewrite !assoc_dict_set_ne by done. apply assoc_dict_set_eq.
    + rewrite assoc_dict_set_ne by done. apply assoc_dict_set_eq.
  - apply Ok_inj in Hres as <-. split.
    + rewrite assoc_dict_set_ne by done. apply assoc_dict_set_eq.
    + apply assoc_dict_set_eq.
Qed.

(** C8, amended: when a page is fetched (not served from the cache) with
    [extractText] enabled, the [text] of the record is the first 10000
    characters of the full normalised text of the page (all of it when it
    is shorter), and [textLength] is the length of the full text. *)
Theorem fetched_text_truncated (params : value) (st st' : state) (r et : value) :
  fetch_webpage W params st = (Ok r, st') ->
  trace st' ≠ trace st ->
  is_success r ->
  py_get params "extractText" (VBool true) = Ok et ->
  truthy et = true ->
  exists (url : value) (resp : response) (html : string) (s : soup W) (text : string),
    py_get params "url" (VStr "") = Ok url
    /\ w_get W (trace st) url = Ok resp
    /\ resp_text resp = Ok html
    /\ w_BeautifulSoup W html = Ok s
    /\ py_get r "text" VNone = Ok (VStr text)
    /\ (Z.of_nat (String.length text) <= 10000)
    /\ String.length text = Nat.min (Z.to_nat 10000) (String.length (page_text W s))
    /\ String.prefix text (page_text W s) = true
    /\ py_get r "textLength" VNone
       = Ok (VInt (Z.of_nat (String.length (page_text W s)))).
Proof.
  intros Hcall Htrace Hsucc Het Htruthy.
  destruct (fetch_webpage_cases params st)
    as [e Hout | msg st1 Hout Hc _ | url t0 data _ _ Hout
        | url et' em resp html s result st1 Hurl Het' _ Hst1 Hget Htext Hsoup Hres Hout];
    rewrite Hcall in Hout.
  - done.
  - injection Hout as -> _. done.
  - injection Hout as _ ->. done.
  - injection Hout as -> _.
    assert (et' = et) as -> by congruence.
    destruct (fetch_result_text resp s et em result Hres Htruthy) as [Ht Hl].
    exists url, resp, html, s, (str_take text_limit (page_text W s)).
    do 4 (split; [done|]).
    split; [unfold py_get; by rewrite Ht|].
    split.
    { pose proof (str_take_length text_limit (page_text W s)). unfold text_limit in *. lia. }
    split; [apply str_take_length_min|].
    split; [apply str_take_prefix|].
    unfold py_get. by rewrite Hl.
Qed.

End Fetch.

(** ** [extract_links] *)

Section Links.

Variable W : World.

Lemma count_internal_external (links : list link) :
  (count_internal links + count_external links = length links)%nat.
Proof.
  unfold count_internal, count_external.
  induction links as [|l links IH]; simpl; [done|].
  destruct (link_internal l); simpl; lia.
Qed.

(** The loop over the anchors appends records to [links]: their URLs are
    pairwise distinct and were not in [seen]; each is the record of the first
    anchor with its URL; with both filters on, nothing is appended. *)
Lemma collect_links_spec (base_url base_netloc : string) (io eo : value)
    (anchors : list (tag W)) :
  forall (seen : gset string) (links out : list link),
    collect_links W base_url base_netloc io eo anchors seen links = Ok out ->
    exists new,
      out = links ++ new
      /\ NoDup (link_url <$> new)
      /\ (forall l, l ∈ new -> link_url l ∉ seen)
      /\ Forall (fun l => (String.length (link_text l) <= 100)%nat) new
      /\ (truthy io = true -> truthy eo = true -> new = [])
      /\ (forall l, l ∈ new -> first_occurrence W base_url anchors l).
Proof.
  induction anchors as [|a rest IH]; intros seen links out; simpl.
  { intros [= <-]. exists []. rewrite app_nil_r.
    repeat split; try done; try apply NoDup_nil_2; intros l Hl; by apply elem_of_nil in Hl. }
  destruct (href_of W a) as [href|e] eqn:Hhref; simpl; [|done].
  destruct (w_urljoin W base_url href) as [u|e] eqn:Hjoin; simpl; [|done].
  destruct (w_urlparse W u) as [parsed|e] eqn:Hparse; simpl; [|done].
  assert (absolute_url W base_url a = Ok u) as Habs.
  { unfold absolute_url. rewrite Hhref. simpl. by rewrite Hjoin. }
  (* a later record whose URL is fresh for [seen'] is also the first
     occurrence when [a] is put in front *)
  assert (forall (seen' : gset string) l,
            (u ∈ seen') ->
            link_url l ∉ seen' ->
            first_occurrence W base_url rest l ->
            first_occurrence W base_url (a :: rest) l) as Hshift.
  { intros seen' l Hu Hl (pre & a0 & post & -> & Ha0 & Htext & Hpre).
    exists (a :: pre), a0, post. repeat split; try done.
    intros a' [->|Ha']%elem_of_cons; [|by apply Hpre].
    rewrite Habs. intros [= ->]. done. }
  case_bool_decide as Hseen.
  - intros Hout. destruct (IH _ _ _ Hout) as (new & -> & Hnd & Hfresh & Hlen & Hboth & Hfirst).
    exists new. repeat split; try done.
    intros l Hl. apply (Hshift seen); auto.
  - set (seen' := {[u]} ∪ seen).
    assert (u ∈ seen') as Hu.
    { apply elem_of_union. left. by apply elem_of_singleton. }
    destruct (truthy io && negb (String.eqb (netloc parsed) base_netloc)) eqn:Hio;
      [|destruct (truthy eo && String.eqb (netloc parsed) base_netloc) eqn:Heo].
    + intros Hout.
      destruct (IH _ _ _ Hout) as (new & -> & Hnd & Hfresh & Hlen & Hboth & Hfirst).
      exists new. repeat split; try done.
      * intros l Hl Hin. apply (Hfresh l Hl). apply elem_of_union. by right.
      * intros l Hl. apply (Hshift seen'); auto.
    + intros Hout.
      destruct (IH _ _ _ Hout) as (new & -> & Hnd & Hfresh & Hlen & Hboth & Hfirst).
      exists new. repeat split; try done.
      * intros l Hl Hin. apply (Hfresh l Hl). apply elem_of_union. by right.
      * intros l Hl. apply (Hshift seen'); auto.
    + intros Hout.
      destruct (IH _ _ _ Hout) as (new & -> & Hnd & Hfresh & Hlen & Hboth & Hfirst).
      set (rec := Link u (str_take 100 (w_tag_text W a))
                       (String.eqb (netloc parsed) base_netloc) (scheme parsed)).
      exists (rec :: new). repeat split.
      * by rewrite <- app_assoc.
      * simpl. apply NoDup_cons. split; [|done].
        intros (l & Hl1 & Hl2)%list_elem_of_fmap.
        specialize (Hfresh l Hl2). simpl in Hl1. rewrite <- Hl1 in Hfresh. done.
      * intros l [->|Hl]%elem_of_cons; [done|].
        intros Hin. apply (Hfresh l Hl). apply elem_of_union. by right.
      * apply Forall_cons. split; [apply str_take_length | done].
      * intros Hi He. rewrite Hi in Hio. rewrite He in Heo. simpl in *.
        destruct (String.eqb (netloc parsed) base_netloc); done.
      * intros l [->|Hl]%elem_of_cons.
        -- exists [], a, rest. repeat split; try done.
           intros a' Ha'. by apply elem_of_nil in Ha'.
        -- apply (Hshift seen'); auto.
Qed.

Lemma page_links_spec (base_url : string) (s : soup W) (io eo : value)
    (links : list link) :
  page_links W base_url s io eo = Ok links ->
  NoDup (link_url <$> links)
  /\ Forall (fun l => (String.length (link_text l) <= 100)%nat) links
  /\ (truthy io = true -> truthy eo = true -> links = [])
  /\ (forall l, l ∈ links ->
       first_occurrence W base_url (w_find_all W s (NamedWithAttr "a" "href")) l).
Proof.
  unfold page_links. destruct (w_urlparse W base_url) as [parsed|e]; simpl; [|done].
  intros Hloop.
  destruct (collect_links_spec _ _ _ _ _ _ _ _ Hloop)
    as (new & -> & Hnd & _ & Hlen & Hboth & Hfirst).
  done.
Qed.

(** The steps of [extract_links] on a mapping with a usable [url]. *)
Lemma extract_links_spec (d : list (string * value)) (st : state) :
  let url := default (VStr "") (assoc "url" d) in
  let io := default (VBool false) (assoc "internalOnly" d) in
  let eo := default (VBool false) (assoc "externalOnly" d) in
  truthy url = true ->
  extract_links W (VDict d) st =
  if session st then
    match w_get W (trace st) url with
    | Ok resp =>
        match resp_text resp with
        | Ok html =>
            match w_BeautifulSoup W html with
            | Ok s =>
                match page_links W (resp_url resp) s io eo with
                | Ok links =>
                    (Ok (links_result (resp_url resp) links), log (EvGet url) st)
                | Error e => (Ok (failure (exn_str e)), log (EvGet url) st)
                end
            | Error e => (Ok (failure (exn_str e)), log (EvGet url) st)
            end
        | Error e => (Ok (failure (exn_str e)), log (EvGet url) st)
        end
    | Error e => (Ok (failure (exn_str e)), log (EvGet url) st)
    end
  else (Ok (failure "'NoneType' object has no attribute 'get'"), st).
Proof.
  intros url io eo Hurl.
  unfold extract_links, try_except, session_get, bind, get_state, modify, lift, raise, ret.
  simpl. fold url io eo. rewrite Hurl. simpl.
  destruct (session st); [|done]. simpl.
  destruct (w_get W (trace st) url) as [resp|e]; [|done].
  destruct (resp_text resp) as [html|e]; [|done].
  destruct (w_BeautifulSoup W html) as [s|e]; [|done].
  destruct (page_links W (resp_url resp) s io eo) as [links|e]; done.
Qed.

(** C4: the record of a successful [extract_links] holds, under [links],
    the records of a list of links in which no URL occurs twice and every
    text has at most 100 characters; its [count] is the length of that
    list, its [internal] and [external] are the numbers of links marked
    internal and not, and the two add up to [count]; with both
    [internalOnly] and [externalOnly] set [count] is 0; and each link is
    the record of the first anchor with its absolute URL, the [href] being
    joined to the final URL of the response, which the record holds under
    [url]. *)
Theorem extract_links_success (params : value) (st st' : state) (r : value) :
  extract_links W params st = (Ok r, st') ->
  is_success r ->
  exists (url io eo : value) (resp : response) (html : string) (s : soup W)
         (links : list link),
    py_get params "url" (VStr "") = Ok url
    /\ py_get params "internalOnly" (VBool false) = Ok io
    /\ py_get params "externalOnly" (VBool false) = Ok eo
    /\ w_get W (trace st) url = Ok resp
    /\ resp_text resp = Ok html
    /\ w_BeautifulSoup W html = Ok s
    /\ py_get r "url" VNone = Ok (VStr (resp_url resp))
    /\ py_get r "links" VNone
       = Ok (VList ((fun l => link_record (link_url l) (link_text l)
                                          (link_internal l) (link_protocol l))
                    <$> links))
    /\ py_get r "count" VNone = Ok (VInt (Z.of_nat (length links)))
    /\ py_get r "internal" VNone
       = Ok (VInt (Z.of_nat (length (List.filter link_internal links))))
    /\ py_get r "external" VNone
       = Ok (VInt (Z.of_nat (length (List.filter (fun l => negb (link_internal l))
                                                links))))
    /\ (length (List.filter link_internal links)
        + length (List.filter (fun l => negb (link_internal l)) links)
        = length links)%nat
    /\ NoDup (link_url <$> links)
    /\ Forall (fun l => (String.length (link_text l) <= 100)%nat) links
    /\ (truthy io = true -> truthy eo = true -> py_get r "count" VNone = Ok (VInt 0))
    /\ (forall l, l ∈ links ->
         first_occurrence W (resp_url resp)
           (w_find_all W s (NamedWithAttr "a" "href")) l).
Proof.
  intros Hcall Hsucc.
  destruct params as [| | | | | |d|]; try done.
  destruct (truthy (default (VStr "") (assoc "url" d))) eqn:Hurl.
  2:{ unfold extract_links, bind, lift, ret in Hcall. simpl in Hcall.
      rewrite Hurl in Hcall. injection Hcall as <- _. done. }
  rewrite extract_links_spec in Hcall by done.
  destruct (session st); [|injection Hcall as <- _; done].
  destruct (w_get W (trace st) _) as [resp|e] eqn:Hget; [|injection Hcall as <- _; done].
  destruct (resp_text resp) as [html|e] eqn:Htext; [|injection Hcall as <- _; done].
  destruct (w_BeautifulSoup W html) as [s|e] eqn:Hsoup; [|injection Hcall as <- _; done].
  destruct (page_links W (resp_url resp) s _ _) as [links|e] eqn:Hlinks;
    [|injection Hcall as <- _; done].
  injection Hcall as <- _.
  destruct (page_links_spec _ _ _ _ _ Hlinks) as (Hnd & Hlen & Hboth & Hfirst).
  eexists _, _, _, resp, html, s, links.
  do 6 (split; [done|]).
  split; [done|]. split; [done|]. split; [done|]. split; [done|]. split; [done|].
  split; [apply count_internal_external|].
  split; [done|]. split; [done|]. split; [|done].
  intros Hi He. simpl. by rewrite Hboth.
Qed.

End Links.

(** ** [scrape_data] *)

Section Scrape.

Variable W : World.

(** One turn of the loop stores [field_value] under the key, or nothing. *)
Lemma scrape_field_value (s : soup W) (data : list (string * value)) (key : string)
    (selector_config : value) :
  scrape_field W s data key selector_config =
  and_then (field_value W s selector_config) (fun o =>
    Ok (match o with
        | Some v => dict_set key v data
        | None => data
        end)).
Proof.
  destruct selector_config as [| | | |sel| |config|]; simpl; try done.
  - destruct (call (w_select W s (VStr sel))) as [[|e es]|e]; done.
  - destruct (call (w_select W s _)) as [[|e es]|e]; try done.
    unfold extracted_values.
    cbn -[attribute_values text_values collapse dict_set truthy assoc].
    destruct (truthy (default VNone (assoc "attribute" config))); [|done].
    destruct (attribute_values W (default VNone (assoc "attribute" config)) (e :: es));
      done.
Qed.

(** The loop over the fields: the keys of the result stay distinct, and
    when the field names are distinct, each field ends up with its
    [field_value]. *)
Lemma scrape_fields_spec (s : soup W) (items : list (string * value)) :
  forall (data out : list (string * value)),
    scrape_fields W s data items = Ok out ->
    NoDup data.*1 ->
    NoDup out.*1
    /\ (forall k, k ∉ items.*1 -> assoc k out = assoc k data)
    /\ (NoDup items.*1 ->
        (forall k, k ∈ items.*1 -> k ∉ data.*1) ->
        forall key selector_config, (key, selector_config) ∈ items ->
          exists o, field_value W s selector_config = Ok o /\ assoc key out = o).
Proof.
  induction items as [|[k cfg] rest IH]; intros data out; simpl.
  { intros [= <-] Hnd. repeat split; try done.
    intros _ _ key selector_config Hin. by apply elem_of_nil in Hin. }
  rewrite scrape_field_value.
  destruct (field_value W s cfg) as [o|e] eqn:Hfv; simpl; [|done].
  set (data' := match o with Some v => dict_set k v data | None => data end).
  intros Hout Hnd.
  assert (NoDup data'.*1) as Hnd'.
  { unfold data'. destruct o; [by apply dict_set_NoDup | done]. }
  assert (forall k', k' ≠ k -> assoc k' data' = assoc k' data) as Hother.
  { intros k' Hne. unfold data'. destruct o; [by apply assoc_dict_set_ne | done]. }
  destruct (IH _ _ Hout Hnd') as (Hndout & Hkeep & Hfields).
  split; [done|]. split.
  - intros k' [Hne Hk']%not_elem_of_cons. rewrite Hkeep by done. by apply Hother.
  - intros [Hk Hrest]%NoDup_cons Hfresh key selector_config
      [[= -> ->]|Hin]%elem_of_cons.
    + exists o. split; [done|]. rewrite Hkeep by done.
      unfold data'. destruct o.
      * apply assoc_dict_set_eq.
      * apply assoc_None_keys. apply Hfresh. by left.
    + apply Hfields; try done.
      intros k' Hk'. assert (k' ≠ k) as Hne by (intros ->; done).
      intros Hin'. assert (assoc k' data' = None) as Hnone.
      { rewrite Hother by done. apply assoc_None_keys. apply Hfresh. by right. }
      by apply assoc_None_keys in Hnone.
Qed.

(** A field whose selector matches nothing is left out. *)
Lemma field_value_no_match (s : soup W) (selector_config selector : value) :
  selector_of selector_config = Some selector ->
  w_select W s selector = Ok [] ->
  field_value W s selector_config = Ok None.
Proof.
  destruct selector_config; simpl; try done; intros [= <-] Hsel; by rewrite Hsel.
Qed.

(** A record with [single] set stores the first extracted value. *)
Lemma field_value_single (s : soup W) (config : list (string * value))
    (elements : list (tag W)) (first : value) (rest : list value) :
  truthy (default (VBool false) (assoc "single" config)) = true ->
  w_select W s (default (VStr "") (assoc "selector" config)) = Ok elements ->
  extracted_values W (default VNone (assoc "attribute" config)) elements
    = Ok (first :: rest) ->
  field_value W s (VDict config) = Ok (Some first).
Proof.
  intros Hsingle Hsel Hvals. simpl. rewrite Hsel. simpl.
  destruct elements as [|e es].
  - unfold extracted_values in Hvals.
    destruct (truthy (default VNone (assoc "attribute" config))); simpl in Hvals; done.
  - rewrite Hvals. simpl. by rewrite Hsingle.
Qed.

(** The texts of elements are strings. *)
Lemma extracted_text_is_string (attribute : value) (elements : list (tag W))
    (first : value) (rest : list value) :
  truthy attribute = false ->
  extracted_values W attribute elements = Ok (first :: rest) ->
  exists t, first = VStr t.
Proof.
  unfold extracted_values. intros ->. destruct elements as [|e es]; [done|].
  simpl. intros [= <- _]. eauto.
Qed.

(** The steps of [scrape_data] on a mapping with a usable [url] and a
    non-empty [selectors]. *)
Lemma scrape_data_spec (d : list (string * value)) (st : state) :
  let url := default (VStr "") (assoc "url" d) in
  let selectors := default (VDict []) (assoc "selectors" d) in
  truthy url = true ->
  truthy selectors = true ->
  scrape_data W (VDict d) st =
  if session st then
    match w_get W (trace st) url with
    | Ok resp =>
        match resp_text resp with
        | Ok html =>
            match w_BeautifulSoup W html with
            | Ok s =>
                match and_then (py_items selectors) (scrape_fields W s []) with
                | Ok data => (Ok (scrape_result url data), log (EvGet url) st)
                | Error e => (Ok (failure (exn_str e)), log (EvGet url) st)
                end
            | Error e => (Ok (failure (exn_str e)), log (EvGet url) st)
            end
        | Error e => (Ok (failure (exn_str e)), log (EvGet url) st)
        end
    | Error e => (Ok (failure (exn_str e)), log (EvGet url) st)
    end
  else (Ok (failure "'NoneType' object has no attribute 'get'"), st).
Proof.
  intros url selectors Hurl Hsel.
  unfold scrape_data, try_except, session_get, bind, get_state, modify, lift, raise, ret.
  simpl. fold url selectors. rewrite Hurl, Hsel. simpl.
  destruct (session st); [|done]. simpl.
  destruct (w_get W (trace st) url) as [resp|e]; [|done].
  destruct (resp_text resp) as [html|e]; [|done].
  destruct (w_BeautifulSoup W html) as [s|e]; [|done].
  destruct (py_items selectors) as [items|e]; simpl; [|done].
  destruct (scrape_fields W s [] items) as [data|e]; done.
Qed.

(** C5, amended: the record of a successful [scrape_data] holds a mapping
    under [data] and its number of entries under [fieldsExtracted]; the
    keys of [data] are distinct, so that [fieldsExtracted] is their
    number; a field whose selector matches no element is not among them;
    and a field in record form with [single] set, from whose matches at
    least one value is extracted, holds the first extracted value, which
    is a string when no attribute is named. *)
Theorem scrape_data_success (params : value) (st st' : state) (r url : value)
    (selectors : list (string * value)) :
  scrape_data W params st = (Ok r, st') ->
  is_success r ->
  py_get params "url" (VStr "") = Ok url ->
  py_get params "selectors" (VDict []) = Ok (VDict selectors) ->
  NoDup selectors.*1 ->
  exists (resp : response) (html : string) (s : soup W) (data : list (string * value)),
    w_get W (trace st) url = Ok resp
    /\ resp_text resp = Ok html
    /\ w_BeautifulSoup W html = Ok s
    /\ py_get r "url" VNone = Ok url
    /\ py_get r "data" VNone = Ok (VDict data)
    /\ py_get r "fieldsExtracted" VNone = Ok (VInt (Z.of_nat (length data)))
    /\ NoDup data.*1
    /\ (forall key selector_config selector,
          (key, selector_config) ∈ selectors ->
          selector_of selector_config = Some selector ->
          w_select W s selector = Ok [] ->
          assoc key data = None)
    /\ (forall key config elements first rest,
          (key, VDict config) ∈ selectors ->
          truthy (default (VBool false) (assoc "single" config)) = true ->
          w_select W s (default (VStr "") (assoc "selector" config)) = Ok elements ->
          extracted_values W (default VNone (assoc "attribute" config)) elements
            = Ok (first :: rest) ->
          assoc key data = Some first
          /\ (truthy (default VNone (assoc "attribute" config)) = false ->
              exists t, first = VStr t)).
Proof.
  intros Hcall Hsucc Hurl Hsel Hnd.
  destruct params as [| | | | | |d|]; try done.
  simpl in Hurl, Hsel. injection Hurl as Hurl. injection Hsel as Hsel.
  destruct (truthy url) eqn:Htu.
  2:{ unfold scrape_data, bind, lift, ret in Hcall. simpl in Hcall.
      rewrite Hurl, Htu in Hcall. injection Hcall as <- _. done. }
  destruct (truthy (VDict selectors)) eqn:Hts.
  2:{ unfold scrape_data, bind, lift, ret in Hcall. simpl in Hcall.
      rewrite Hurl, Hsel, Htu, Hts in Hcall. injection Hcall as <- _. done. }
  rewrite scrape_data_spec in Hcall by (by rewrite ?Hurl, ?Hsel).
  rewrite Hurl, Hsel in Hcall.
  destruct (session st); [|injection Hcall as <- _; done].
  destruct (w_get W (trace st) url) as [resp|e] eqn:Hget; [|injection Hcall as <- _; done].
  destruct (resp_text resp) as [html|e] eqn:Htext; [|injection Hcall as <- _; done].
  destruct (w_BeautifulSoup W html) as [s|e] eqn:Hsoup; [|injection Hcall as <- _; done].
  simpl in Hcall.
  destruct (scrape_fields W s [] selectors) as [data|e] eqn:Hfields;
    [|injection Hcall as <- _; done].
  injection Hcall as <- _.
  destruct (scrape_fields_spec s selectors [] data Hfields (NoDup_nil_2 (A:=string)))
    as (Hndout & _ & Hfv).
  assert (forall key selector_config, (key, selector_config) ∈ selectors ->
            exists o, field_value W s selector_config = Ok o /\ assoc key data = o)
    as Hfield.
  { apply Hfv; [done|]. intros k _ Hk. by apply elem_of_nil in Hk. }
  exists resp, html, s, data.
  do 7 (split; [done|]). split.
  - intros key cfg sel Hin Hcfg Hnone.
    destruct (Hfield key cfg Hin) as (o & Ho & ->).
    rewrite (field_value_no_match s cfg sel Hcfg Hnone) in Ho. by injection Ho as <-.
  - intros key config elements first rest Hin Hsingle Hselect Hvals.
    destruct (Hfield key (VDict config) Hin) as (o & Ho & ->).
    rewrite (field_value_single s config elements first rest Hsingle Hselect Hvals) in Ho.
    injection Ho as <-. split; [done|].
    intros Hattr. by eapply extracted_text_is_string.
Qed.

End Scrape.

(** ** [web_search] *)

Section Search.

Variable W : World.

(** Without a usable [query], and with a [maxResults] that [min] accepts,
    the record [Query parameter is required] is returned and nothing else
    happens: no network call. *)
Lemma web_search_missing_query (d : list (string * value)) (st : state) (m : value) :
  truthy (default (VStr "") (assoc "query" d)) = false ->
  py_min_20 (default (VInt 10) (assoc "maxResults" d)) = Ok m ->
  web_search W (VDict d) st = (Ok (failure "Query parameter is required"), st).
Proof.
  intros Hq Hm. unfold web_search, bind, lift, ret. simpl. by rewrite Hm, Hq.
Qed.

(** [min] accepts an absent [maxResults] and every number. *)
Lemma max_results_default (d : list (string * value)) :
  assoc "maxResults" d = None ->
  py_min_20 (default (VInt 10) (assoc "maxResults" d)) = Ok (VInt 10).
Proof. by intros ->. Qed.

Lemma max_results_clamped (n : Z) :
  20 < n -> py_min_20 (VInt n) = Ok (VInt 20).
Proof. intros H. simpl. by destruct (Z.ltb_spec 20 n); [|lia]. Qed.

Lemma max_results_clamped_float (x : pyfloat) :
  int_lt_float 20 x = true -> py_min_20 (VFloat x) = Ok (VInt 20).
Proof. intros H. simpl. by rewrite H. Qed.

Lemma max_results_kept (n : Z) :
  n <= 20 -> py_min_20 (VInt n) = Ok (VInt n).
Proof. intros H. simpl. by destruct (Z.ltb_spec 20 n); [lia|]. Qed.

(** With a positive integer limit, at most that many blocks are looked at. *)
Lemma result_blocks_bound (s : soup W) (n : Z) :
  0 < n -> Z.of_nat (length (result_blocks W s (VInt n))) <= n.
Proof.
  intros H. unfold result_blocks, limited.
  destruct (Z.ltb_spec 0 n); [|lia]. rewrite length_take. lia.
Qed.

(** Each block gives at most one result. *)
Lemma search_hits_length (blocks : list (tag W)) (results : list value) :
  search_hits W blocks = Ok results -> (length results <= length blocks)%nat.
Proof.
  revert results. induction blocks as [|b rest IH]; intros results; simpl.
  - by intros [= <-].
  - destruct (search_hit W b) as [hit|e]; simpl; [|done].
    destruct (search_hits W rest) as [hits|e]; simpl; [|done].
    intros [= <-]. specialize (IH hits eq_refl).
    rewrite length_app. destruct hit; simpl; lia.
Qed.

(** The steps of [web_search] on a mapping with a usable [query] and a
    [maxResults] that [min] accepts. *)
Lemma web_search_spec (d : list (string * value)) (st : state) (m : value) :
  let query := default (VStr "") (assoc "query" d) in
  py_min_20 (default (VInt 10) (assoc "maxResults" d)) = Ok m ->
  truthy query = true ->
  web_search W (VDict d) st =
  if session st then
    match w_post W (trace st) search_url (search_params query) with
    | Ok resp =>
        match resp_text resp with
        | Ok html =>
            match w_BeautifulSoup W html with
            | Ok s =>
                match search_hits W (result_blocks W s m) with
                | Ok results =>
                    (Ok (VDict [("success", VBool true);
                                ("query", query);
                                ("results", VList results);
                                ("count", VInt (Z.of_nat (length results)))]),
                     log (EvPost search_url (search_params query)) st)
                | Error e =>
                    (Ok (failure (exn_str e)),
                     log (EvPost search_url (search_params query)) st)
                end
            | Error e =>
                (Ok (failure (exn_str e)), log (EvPost search_url (search_params query)) st)
            end
        | Error e =>
            (Ok (failure (exn_str e)), log (EvPost search_url (search_params query)) st)
        end
    | Error e =>
        (Ok (failure (exn_str e)), log (EvPost search_url (search_params query)) st)
    end
  else (Ok (failure "'NoneType' object has no attribute 'post'"), st).
Proof.
  intros query Hm Hq.
  unfold web_search, try_except, session_post, bind, get_state, modify, lift, raise, ret.
  simpl. fold query. rewrite Hm, Hq. simpl.
  destruct (session st); [|done]. simpl.
  destruct (w_post W (trace st) search_url (search_params query)) as [resp|e]; [|done].
  destruct (resp_text resp) as [html|e]; [|done].
  destruct (w_BeautifulSoup W html) as [s|e]; [|done].
  destruct (search_hits W (result_blocks W s m)) as [results|e]; done.
Qed.

(** A [maxResults] above 20 is clamped to 20, an absent one is 10: the
    loop of [web_search] runs over at most that many result blocks. *)
Lemma web_search_blocks_clamped (s : soup W) (d : list (string * value)) (n : Z) :
  assoc "maxResults" d = Some (VInt n) ->
  20 < n ->
  py_min_20 (default (VInt 10) (assoc "maxResults" d)) = Ok (VInt 20)
  /\ (length (result_blocks W s (VInt 20)) <= 20)%nat.
Proof.
  intros Hd Hn. rewrite Hd. split.
  - by apply max_results_clamped.
  - pose proof (result_blocks_bound s 20 ltac:(lia)). lia.
Qed.

Lemma web_search_blocks_default (s : soup W) (d : list (string * value)) :
  assoc "maxResults" d = None ->
  py_min_20 (default (VInt 10) (assoc "maxResults" d)) = Ok (VInt 10)
  /\ (length (result_blocks W s (VInt 10)) <= 10)%nat.
Proof.
  intros Hd. rewrite Hd. split; [done|].
  pose proof (result_blocks_bound s 10 ltac:(lia)). lia.
Qed.

End Search.

(** ** One response per request *)

Section Answers.

Variable W : World.

(** The tool operations print nothing and leave the registry alone. *)
Lemma call_tool_quiet (handler : tool) (params : value) (st : state) :
  quiet st (call_tool W handler params st).2.
Proof.
  destruct params as [| | | | | |d|]; try (by destruct handler).
  destruct handler; simpl.
  - destruct (py_min_20 (default (VInt 10) (assoc "maxResults" d))) as [m|e] eqn:Hm.
    2:{ by rewrite (web_search_raises W d st e Hm). }
    destruct (truthy (default (VStr "") (assoc "query" d))) eqn:Hq.
    2:{ by rewrite (web_search_missing_query W d st m Hq Hm). }
    rewrite (web_search_spec W d st m Hm Hq).
    destruct (session st); [|done].
    repeat (match goal with |- context [match ?x with _ => _ end] => destruct x end);
      by apply quiet_log.
  - destruct (fetch_webpage_cases W (VDict d) st)
      as [e Hout | msg st' Hout _ Hq | url t0 data _ _ Hout
          | url et em resp html s result st1 _ _ _ Hst1 _ _ _ _ Hout];
      rewrite Hout; simpl; try done.
    eapply quiet_trans; [|apply quiet_set_cache].
    eapply quiet_trans; [|apply quiet_tick].
    eapply quiet_trans; [|by apply quiet_log].
    by destruct Hst1 as [-> | ->].
  - destruct (truthy (default (VStr "") (assoc "url" d))) eqn:Hurl.
    2:{ unfold extract_links, bind, lift, ret. simpl. by rewrite Hurl. }
    rewrite extract_links_spec by done.
    destruct (session st); [|done].
    repeat (match goal with |- context [match ?x with _ => _ end] => destruct x end);
      by apply quiet_log.
  - destruct (truthy (default (VStr "") (assoc "url" d))) eqn:Hurl.
    2:{ unfold scrape_data, bind, lift, ret. simpl. by rewrite Hurl. }
    destruct (truthy (default (VDict []) (assoc "selectors" d))) eqn:Hsel.
    2:{ unfold scrape_data, bind, lift, ret. simpl. by rewrite Hurl, Hsel. }
    rewrite scrape_data_spec by done.
    destruct (session st); [|done].
    repeat (match goal with |- context [match ?x with _ => _ end] => destruct x end);
      by apply quiet_log.
Qed.

(** A decoded request with a [type] whose handling raises nothing gets
    exactly one response, and the response carries its id: a request that
    is no tool call; a tool call naming a string that is not registered;
    and a tool call whose operation returns a record that can be
    encoded. *)
Lemma handle_message_answers (message : string) (request : list (string * value))
    (type : value) (st : state) :
  decodes W message (VDict request) ->
  assoc "type" request = Some type ->
  (is_str type "tool" && truthy (default VNone (assoc "tool" request)) = true ->
   exists name,
     assoc "tool" request = Some (VStr name)
     /\ forall handler, assoc name (tools st) = Some handler ->
        exists r st1,
          call_tool W handler (default (VDict []) (assoc "params" request)) st
            = (Ok r, st1)
          /\ serializable r = true) ->
  exists resp st',
    handle_message W message st = (Ok tt, st')
    /\ printed (trace st') = printed (trace st) ++ [resp]
    /\ py_get resp "requestId" VNone = Ok (id_of request).
Proof.
  intros Hd Hty Htool.
  pose proof (decodes_id W _ _ Hd) as Hid.
  destruct (is_str type "tool" && truthy (default VNone (assoc "tool" request))) eqn:Hcase.
  - destruct (Htool eq_refl) as (name & Hname & Hcall).
    apply andb_true_iff in Hcase as [Ht Htruthy].
    assert (type = VStr "tool") as ->.
    { destruct type; try done. simpl in Ht. by apply String.eqb_eq in Ht as ->. }
    assert (name ≠ "") as Hne.
    { intros ->. by rewrite Hname in Htruthy. }
    rewrite (handle_message_tool W message request name st Hd Hty Hname Hne).
    destruct (assoc name (tools st)) as [handler|] eqn:Hreg.
    + destruct (Hcall handler eq_refl) as (r & st1 & Hr & Hs).
      pose proof (call_tool_quiet handler (default (VDict []) (assoc "params" request)) st)
        as (Hq & _). rewrite Hr in *. simpl in Hq.
      unfold send_response. simpl. rewrite Hid, Hs. simpl.
      eexists _, _. split; [done|]. simpl. rewrite printed_app, Hq. done.
    + eexists _, _. split; [done|]. simpl. by rewrite printed_app.
  - rewrite (handle_message_other W message request type st Hd Hty Hcase).
    destruct (is_str type "list_tools"); [|destruct (is_str type "ping")];
      eexists _, _; (split; [done|]); simpl; by rewrite printed_app.
Qed.

End Answers.

(** ** The server in the concrete world *)

(** After [initialize] the registry holds the four tools. *)
Lemma initialize_registers (W : World) :
  tools (initialize W init_state).2
  = [("webSearch", WebSearch); ("fetchWebpage", FetchWebpage);
     ("extractLinks", ExtractLinks); ("scrapeData", ScrapeData)].
Proof. done. Qed.

(** The first fetch of the example page asks the network and stores the
    record at time 0. *)
Lemma example_first_fetch :
  fetch_webpage Toy.example_world Toy.page_params Toy.ready
  = (Ok Toy.example_record, Toy.fetched)
  /\ cache Toy.fetched !! "fetch:https://example.com" = Some (0, Toy.example_record)
  /\ network_calls (trace Toy.fetched) = [EvGet (VStr "https://example.com")].
Proof. by vm_compute. Qed.

Lemma stale_entry_served_witness :
  cache_ttl * 1000000 < w_now Toy.example_world (ticks Toy.fetched) - 0
  /\ fetch_webpage Toy.example_world Toy.page_params Toy.fetched
  = (Ok Toy.example_record, tick Toy.fetched)
  /\ network_calls (trace (tick Toy.fetched)) = network_calls (trace Toy.fetched).
Proof.
  apply (stale_entry_served Toy.example_world
           [("url", VStr "https://example.com")] "https://example.com"
           Toy.fetched 0 Toy.example_record 1 10000000).
  - reflexivity.
  - discriminate.
  - vm_compute. reflexivity.
  - lia.
  - lia.
  - vm_compute. reflexivity.
Defined.

Lemma web_search_failure_escapes_witness :
  web_search Toy.example_world
    (VDict [("query", VStr "rocq"); ("maxResults", VStr "5")]) Toy.ready
    = (Error min_type_error, Toy.ready)
  /\ handle_message Toy.example_world Toy.search_line Toy.ready
     = (Error dumps_type_error, Toy.ready).
Proof.
  apply (web_search_failure_escapes Toy.example_world Toy.search_line
           Toy.search_request Toy.ready).
  - split; reflexivity.
  - reflexivity.
  - reflexivity.
  - reflexivity.
  - reflexivity.
Defined.

Lemma request_left_unanswered_witness :
  serve Toy.example_world [Toy.search_line; "{type: ping, id: 1}"] Toy.ready
  = (Error dumps_type_error, log (EvReadline Toy.search_line) Toy.ready)
  /\ printed (trace (serve Toy.example_world
                       [Toy.search_line; "{type: ping, id: 1}"] Toy.ready).2)
     = printed (trace Toy.ready).
Proof.
  apply (request_left_unanswered Toy.example_world Toy.search_line
           ["{type: ping, id: 1}"] Toy.search_request Toy.ready).
  - reflexivity.
  - split; reflexivity.
  - reflexivity.
  - reflexivity.
  - reflexivity.
  - reflexivity.
  - reflexivity.
Defined.

(** The whole run on these two lines: the announcement is all that is
    printed, the second line is never read, and the process exits. *)
Lemma example_run_without_response :
  exists st,
    run Toy.example_world [Line Toy.search_line; Line "{type: ping, id: 1}"] init_state
    = Ok st
    /\ trace st = trace Toy.ready
                  ++ [EvReadline Toy.search_line; EvSessionClose; EvExit 0].
Proof. eexists. split; by vm_compute. Qed.



Lemma extract_links_success_witness :
  exists (url io eo : value) (resp : response) (html : string)
         (s : soup Toy.example_world) (links : list link),
    py_get Toy.page_params "url" (VStr "") = Ok url
    /\ py_get Toy.page_params "internalOnly" (VBool false) = Ok io
    /\ py_get Toy.page_params "externalOnly" (VBool false) = Ok eo
    /\ w_get Toy.example_world (trace Toy.ready) url = Ok resp
    /\ resp_text resp = Ok html
    /\ w_BeautifulSoup Toy.example_world html = Ok s
    /\ py_get Toy.example_links_record "url" VNone = Ok (VStr (resp_url resp))
    /\ py_get Toy.example_links_record "links" VNone
       = Ok (VList ((fun l => link_record (link_url l) (link_text l)
                                          (link_internal l) (link_protocol l))
                    <$> links))
    /\ py_get Toy.example_links_record "count" VNone
       = Ok (VInt (Z.of_nat (length links)))
    /\ py_get Toy.example_links_record "internal" VNone
       = Ok (VInt (Z.of_nat (length (List.filter link_internal links))))
    /\ py_get Toy.example_links_record "external" VNone
       = Ok (VInt (Z.of_nat (length (List.filter (fun l => negb (link_internal l))
                                                links))))
    /\ (length (List.filter link_internal links)
        + length (List.filter (fun l => negb (link_internal l)) links)
        = length links)%nat
    /\ NoDup (link_url <$> links)
    /\ Forall (fun l => (String.length (link_text l) <= 100)%nat) links
    /\ (truthy io = true -> truthy eo = true ->
        py_get Toy.example_links_record "count" VNone = Ok (VInt 0))
    /\ (forall l, l ∈ links ->
         first_occurrence Toy.example_world (resp_url resp)
           (w_find_all Toy.example_world s (NamedWithAttr "a" "href")) l).
Proof.
  apply (extract_links_success Toy.example_world Toy.page_params Toy.ready
           (log (EvGet (VStr "https://example.com")) Toy.ready)
           Toy.example_links_record).
  - vm_compute. reflexivity.
  - reflexivity.
Defined.

Lemma scrape_data_success_witness :
  exists (resp : response) (html : string) (s : soup Toy.example_world)
         (data : list (string * value)),
    w_get Toy.example_world (trace Toy.ready) (VStr "https://example.com") = Ok resp
    /\ resp_text resp = Ok html
    /\ w_BeautifulSoup Toy.example_world html = Ok s
    /\ py_get Toy.example_scrape_record "url" VNone = Ok (VStr "https://example.com")
    /\ py_get Toy.example_scrape_record "data" VNone = Ok (VDict data)
    /\ py_get Toy.example_scrape_record "fieldsExtracted" VNone
       = Ok (VInt (Z.of_nat (length data)))
    /\ NoDup data.*1
    /\ (forall key selector_config selector,
          (key, selector_config) ∈ Toy.example_selectors ->
          selector_of selector_config = Some selector ->
          w_select Toy.example_world s selector = Ok [] ->
          assoc key data = None)
    /\ (forall key config elements first rest,
          (key, VDict config) ∈ Toy.example_selectors ->
          truthy (default (VBool false) (assoc "single" config)) = true ->
          w_select Toy.example_world s (default (VStr "") (assoc "selector" config))
            = Ok elements ->
          extracted_values Toy.example_world (default VNone (assoc "attribute" config))
            elements = Ok (first :: rest) ->
          assoc key data = Some first
          /\ (truthy (default VNone (assoc "attribute" config)) = false ->
              exists t, first = VStr t)).
Proof.
  apply (scrape_data_success Toy.example_world Toy.scrape_params Toy.ready
           (log (EvGet (VStr "https://example.com")) Toy.ready)
           Toy.example_scrape_record
           (VStr "https://example.com") Toy.example_selectors).
  - vm_compute. reflexivity.
  - reflexivity.
  - reflexivity.
  - reflexivity.
  - compute_done.
Defined.

(** The scrape of the example page: the field [titles] holds the empty
    list, since no anchor has a [title] attribute, and the field [classes]
    holds the list that is the first value of the multi-valued attribute
    [class]. *)
Lemma example_scrape :
  scrape_data Toy.example_world Toy.scrape_params Toy.ready
  = (Ok Toy.example_scrape_record,
     log (EvGet (VStr "https://example.com")) Toy.ready)
  /\ assoc "titles" Toy.example_data = Some (VList [])
  /\ assoc "classes" Toy.example_data = Some (VList [VStr "lead"; VStr "big"]).
Proof. by vm_compute. Qed.

(** C5 as stated fails: it is not so that every field in record form
    with [single] set whose selector matches at least one element holds a
    scalar.  On the example page the selector of [titles] matches the
    three anchors, and the field holds a sequence. *)
Lemma single_field_holds_sequence :
  ~ (forall (W : World) (params r url : value) (st st' : state)
            (selectors data : list (string * value))
            (resp : response) (html : string) (s : soup W)
            (key : string) (config : list (string * value))
            (e : tag W) (es : list (tag W)),
       scrape_data W params st = (Ok r, st') ->
       is_success r ->
       py_get r "data" VNone = Ok (VDict data) ->
       py_get params "url" (VStr "") = Ok url ->
       py_get params "selectors" (VDict []) = Ok (VDict selectors) ->
       NoDup selectors.*1 ->
       w_get W (trace st) url = Ok resp ->
       resp_text resp = Ok html ->
       w_BeautifulSoup W html = Ok s ->
       (key, VDict config) ∈ selectors ->
       truthy (default (VBool false) (assoc "single" config)) = true ->
       w_select W s (default (VStr "") (assoc "selector" config)) = Ok (e :: es) ->
       exists v, assoc key data = Some v /\ is_sequence v = false).
Proof.
  intros Hclaim.
  destruct (Hclaim Toy.example_world Toy.scrape_params Toy.example_scrape_record
              (VStr "https://example.com")
              Toy.ready (log (EvGet (VStr "https://example.com")) Toy.ready)
              Toy.example_selectors Toy.example_data
              (Response "https://example.com/" 200 "text/html" (Ok "<example>"))
              "<example>" Toy.example_doc
              "titles"
              [("selector", VStr "a"); ("attribute", VStr "title"); ("single", VBool true)]
              (Toy.Node (Toy.Leaf "a" [("href", AttrStr "/about")] "About us") [])
              [Toy.Node (Toy.Leaf "a" [("href", AttrStr "https://example.com/about")]
                                  "About again") [];
               Toy.Node (Toy.Leaf "a" [("href", AttrStr "https://other.org/")]
                                  "Elsewhere") []])
    as (v & Hv & Hseq).
  - by vm_compute.
  - reflexivity.
  - reflexivity.
  - reflexivity.
  - reflexivity.
  - compute_done.
  - reflexivity.
  - reflexivity.
  - reflexivity.
  - do 3 apply list_elem_of_further. apply list_elem_of_here.
  - reflexivity.
  - reflexivity.
  - vm_compute in Hv. injection Hv as <-. discriminate.
Qed.

Lemma failed_fetch_keeps_cache_witness :
  cache (fetch_webpage Toy.example_world Toy.slow_params Toy.fetched).2 = cache Toy.fetched
  /\ (fetch_webpage Toy.example_world Toy.slow_params Toy.fetched).1
     = Ok (VDict [("success", VBool false); ("error", VStr "Request timeout")])
  /\ (forall k t v,
        cache (fetch_webpage Toy.example_world Toy.slow_params Toy.fetched).2 !! k
          = Some (t, v) -> is_success v).
Proof.
  destruct (failed_fetch_keeps_cache Toy.example_world Toy.slow_params Toy.fetched)
    as (Hkeep & Htimeout & Hinv).
  split; [|split].
  - apply Hkeep. intros (r & Hr & Hs). vm_compute in Hr. injection Hr as <-.
    vm_compute in Hs. discriminate.
  - apply (Htimeout (VStr "https://slow.example.com")).
    + reflexivity.
    + reflexivity.
    + vm_compute. reflexivity.
    + reflexivity.
    + exists (new_exn TimeoutError ""). split; [reflexivity|]. left.
      vm_compute. reflexivity.
  - apply Hinv.
    apply (failed_fetch_keeps_cache Toy.example_world Toy.page_params Toy.ready).
    intros k t v. assert (cache Toy.ready = ∅) as -> by reflexivity.
    by rewrite lookup_empty.
Defined.

Lemma fetched_text_truncated_witness :
  exists (url : value) (resp : response) (html : string)
         (s : soup Toy.example_world) (text : string),
    py_get Toy.page_params "url" (VStr "") = Ok url
    /\ w_get Toy.example_world (trace Toy.ready) url = Ok resp
    /\ resp_text resp = Ok html
    /\ w_BeautifulSoup Toy.example_world html = Ok s
    /\ py_get Toy.example_record "text" VNone = Ok (VStr text)
    /\ (Z.of_nat (String.length text) <= 10000)
    /\ String.length text
       = Nat.min (Z.to_nat 10000) (String.length (page_text Toy.example_world s))
    /\ String.prefix text (page_text Toy.example_world s) = true
    /\ py_get Toy.example_record "textLength" VNone
       = Ok (VInt (Z.of_nat (String.length (page_text Toy.example_world s)))).
Proof.
  apply (fetched_text_truncated Toy.example_world Toy.page_params Toy.ready Toy.fetched
           Toy.example_record (VBool true)).
  - vm_compute. reflexivity.
  - vm_compute. discriminate.
  - reflexivity.
  - reflexivity.
  - reflexivity.
Defined.

(** C8 as stated fails: with [extractText] enabled the record need not
    hold a text.  The page was fetched a minute ago by a call with
    [extractText] off; the call with [extractText] on is served that
    record from the cache, as it was stored. *)
Lemma cached_record_without_text :
  ~ (forall (W : World) (params : value) (st st' : state) (r et : value),
       fetch_webpage W params st = (Ok r, st') ->
       is_success r ->
       py_get params "extractText" (VBool true) = Ok et ->
       truthy et = true ->
       exists (url : value) (resp : response) (html : string) (s : soup W)
              (text : string),
         py_get params "url" (VStr "") = Ok url
         /\ w_get W (trace st) url = Ok resp
         /\ resp_text resp = Ok html
         /\ w_BeautifulSoup W html = Ok s
         /\ py_get r "text" VNone = Ok (VStr text)
         /\ (Z.of_nat (String.length text) <= 10000)
         /\ String.prefix text (page_text W s) = true
         /\ py_get r "textLength" VNone
            = Ok (VInt (Z.of_nat (String.length (page_text W s))))).
Proof.
  intros Hclaim.
  destruct (Hclaim Demo.world Toy.page_params Demo.fetched_textless
              (tick Demo.fetched_textless) Demo.textless_record (VBool true))
    as (url & resp & html & s & text & _ & _ & _ & _ & Htext & _).
  - vm_compute. reflexivity.
  - reflexivity.
  - reflexivity.
  - reflexivity.
  - vm_compute in Htext. discriminate.
Qed.


(** * Further properties of the server *)

(** ** Requests that are no tool calls *)

Section Protocol.

Variable W : World.




(** A line that [json.loads] rejects gets no response: the report of the
    [JSONDecodeError] cannot be encoded, the [TypeError] of [json.dumps]
    leaves [handle_message], and the loop ends without reading on. *)
Theorem undecodable_line_ends_loop (line : string) (rest : list string)
    (e : exn) (st : state) :
  nonempty (strip line) = true ->
  w_json_loads W (strip line) = Error e ->
  handle_message W (strip line) st = (Error dumps_type_error, st)
  /\ serve W (line :: rest) st = (Error dumps_type_error, log (EvReadline line) st).
Proof.
  intros Hmsg Hload.
  assert (forall st0, handle_message W (strip line) st0 = (Error dumps_type_error, st0)) as Hh.
  { intros st0. unfold handle_message, try_except, dispatch, bind, lift.
    rewrite Hload. simpl. apply send_error_raised. }
  split; [apply Hh|].
  assert (nonempty line = true) as Hline by (by destruct line).
  rewrite serve_cons. unfold bind, modify. rewrite Hline, Hmsg, Hh. done.
Qed.

(** A decoded line that is no object, or an object without [type], gets
    no response either: [request.get] or [request['type']] raises, and the
    report of that exception cannot be encoded. *)
Theorem request_without_type_unanswered (message : string) (request : value)
    (st : state) :
  w_json_loads W message = Ok request ->
  (forall d, request = VDict d -> assoc "type" d = None) ->
  handle_message W message st = (Error dumps_type_error, st).
Proof.
  intros Hload Hty.
  unfold handle_message, try_except, dispatch, bind, lift.
  rewrite Hload. simpl.
  destruct request as [| | | | | |d|]; simpl; try apply send_error_raised.
  rewrite (Hty d eq_refl). simpl. apply send_error_raised.
Qed.

End Protocol.

(** ** What the tool operations touch *)

Section Footprint.

Variable W : World.

(** The states a tool operation other than [fetch_webpage] can end in:
    the state it started from, or that state after one network call. *)
Lemma plain_tool_end (handler : tool) (params : value) (st : state) :
  handler ≠ FetchWebpage ->
  (call_tool W handler params st).2 = st
  \/ exists ev, is_network_call ev = true
                /\ (call_tool W handler params st).2 = log ev st.
Proof.
  intros Hh.
  destruct params as [| | | | | |d|]; try (left; by destruct handler).
  destruct handler; simpl; try done.
  - destruct (py_min_20 (default (VInt 10) (assoc "maxResults" d))) as [m|e] eqn:Hm.
    2:{ left. by rewrite (web_search_raises W d st e Hm). }
    destruct (truthy (default (VStr "") (assoc "query" d))) eqn:Hq.
    2:{ left. by rewrite (web_search_missing_query W d st m Hq Hm). }
    rewrite (web_search_spec W d st m Hm Hq).
    destruct (session st); [|by left]. right. eexists (EvPost _ _).
    split; [done|].
    repeat (match goal with |- context [match ?x with _ => _ end] => destruct x end);
      done.
  - destruct (truthy (default (VStr "") (assoc "url" d))) eqn:Hurl.
    2:{ left. unfold extract_links, bind, lift, ret. simpl. by rewrite Hurl. }
    rewrite extract_links_spec by done.
    destruct (session st); [|by left]. right. eexists (EvGet _).
    split; [done|].
    repeat (match goal with |- context [match ?x with _ => _ end] => destruct x end);
      done.
  - destruct (truthy (default (VStr "") (assoc "url" d))) eqn:Hurl.
    2:{ left. unfold scrape_data, bind, lift, ret. simpl. by rewrite Hurl. }
    destruct (truthy (default (VDict []) (assoc "selectors" d))) eqn:Hsel.
    2:{ left. unfold scrape_data, bind, lift, ret. simpl. by rewrite Hurl, Hsel. }
    rewrite scrape_data_spec by done.
    destruct (session st); [|by left]. right. eexists (EvGet _).
    split; [done|].
    repeat (match goal with |- context [match ?x with _ => _ end] => destruct x end);
      done.
Qed.

(** The steps of the [try] block of [fetch_webpage] end in the state they
    started from, or in that state after one network call and, when the
    record is stored, one clock reading and one cache write. *)
Lemma fetch_fresh_end (url et em : value) (key : string) (st : state) :
  let st' := (fetch_fresh W url et em key st).2 in
  st' = st
  \/ st' = log (EvGet url) st
  \/ exists entry, st' = set_cache (insert key entry) (tick (log (EvGet url) st)).
Proof.
  simpl. rewrite fetch_fresh_spec.
  destruct (session st); [|by left].
  repeat (match goal with |- context [match ?x with _ => _ end] => destruct x end);
    try (right; left; done).
  right. right. by eexists.
Qed.

(** [web_search], [extract_links] and [scrape_data] neither read nor
    write the cache, and do not read the clock: the cache belongs to
    [fetch_webpage] alone. *)
Theorem only_fetch_uses_cache (handler : tool) (params : value) (st : state) :
  handler ≠ FetchWebpage ->
  cache (call_tool W handler params st).2 = cache st
  /\ ticks (call_tool W handler params st).2 = ticks st.
Proof.
  intros Hh.
  destruct (plain_tool_end handler params st Hh) as [-> | (ev & _ & ->)]; done.
Qed.

(** Where [fetch_webpage] ends: a served record costs one clock reading. *)
Lemma fetch_webpage_end (params : value) (st : state) :
  let st' := (fetch_webpage W params st).2 in
  exists st1, (st1 = st \/ st1 = tick st)
    /\ (st' = st1
        \/ (exists url, st' = log (EvGet url) st1)
        \/ exists url key entry,
             st' = set_cache (insert key entry) (tick (log (EvGet url) st1))).
Proof.
  simpl. destruct params as [| | | | | |d|]; try (exists st; split; [by left | by left]).
  destruct (truthy (default (VStr "") (assoc "url" d))) eqn:Hurl.
  2:{ exists st. split; [by left|]. left.
      unfold fetch_webpage, bind, lift, ret. simpl. by rewrite Hurl. }
  rewrite fetch_webpage_spec by done. rewrite cache_check_spec.
  destruct (cache st !! _) as [[t0 data]|].
  - exists (tick st). split; [by right|].
    destruct (_ <? _); [by left|].
    destruct (fetch_fresh_end (default (VStr "") (assoc "url" d))
                (default (VBool true) (assoc "extractText" d))
                (default (VBool true) (assoc "extractMetadata" d))
                (cache_key_of W (default (VStr "") (assoc "url" d))) (tick st))
      as [-> | [-> | (entry & ->)]]; eauto 10.
  - exists st. split; [by left|].
    destruct (fetch_fresh_end (default (VStr "") (assoc "url" d))
                (default (VBool true) (assoc "extractText" d))
                (default (VBool true) (assoc "extractMetadata" d))
                (cache_key_of W (default (VStr "") (assoc "url" d))) st)
      as [-> | [-> | (entry & ->)]]; eauto 10.
Qed.

(** One call of a tool operation makes at most one network call, whatever
    the parameters and whatever the outcome. *)
Theorem tool_makes_at_most_one_call (handler : tool) (params : value) (st : state) :
  network_calls (trace (call_tool W handler params st).2) = network_calls (trace st)
  \/ exists ev, is_network_call ev = true
       /\ network_calls (trace (call_tool W handler params st).2)
          = network_calls (trace st) ++ [ev].
Proof.
  assert (forall ev st0, is_network_call ev = true ->
            network_calls (trace (log ev st0)) = network_calls (trace st0) ++ [ev]) as Hlog.
  { intros ev st0 Hev. simpl. unfold network_calls.
    rewrite List.filter_app. simpl. by rewrite Hev. }
  assert (handler = FetchWebpage \/ handler ≠ FetchWebpage) as [->|Hh]
    by (destruct handler; (by left) || (by right)).
  - simpl. destruct (fetch_webpage_end params st) as (st1 & Hst1 & Hend).
    assert (trace st1 = trace st) as Ht1 by (by destruct Hst1 as [-> | ->]).
    destruct Hend as [-> | [(url & ->) | (url & key & entry & ->)]].
    + left. by rewrite Ht1.
    + right. exists (EvGet url). split; [done|]. by rewrite Hlog, Ht1.
    + right. exists (EvGet url). split; [done|]. simpl.
      unfold network_calls. rewrite List.filter_app, Ht1. done.
  - destruct (plain_tool_end handler params st Hh) as [-> | (ev & Hev & ->)].
    + by left.
    + right. exists ev. split; [done|]. by apply Hlog.
Qed.

End Footprint.

(** ** Validation and failures of the tool operations *)

Section Failures.

Variable W : World.

(** [fetch_webpage], [extract_links] and [scrape_data] reject a mapping
    without a usable [url] (absent, null, empty) at once: the record says
    [URL parameter is required], and no network call, clock reading or
    cache access takes place. *)
Theorem missing_url_rejected (handler : tool) (d : list (string * value)) (st : state) :
  handler ≠ WebSearch ->
  truthy (default (VStr "") (assoc "url" d)) = false ->
  call_tool W handler (VDict d) st
  = (Ok (VDict [("success", VBool false); ("error", VStr "URL parameter is required")]),
     st).
Proof.
  intros Hh Hurl. destruct handler; try done; simpl;
    unfold fetch_webpage, extract_links, scrape_data, bind, lift, ret; simpl;
    by rewrite Hurl.
Qed.


(** When the request for the page fails, [extract_links] and
    [scrape_data] return the failure record with the text of the
    exception, after that one network call; a timeout is no exception to
    this: its record carries the text of the timeout error, not [Request
    timeout]. *)
Theorem transport_error_reported (d : list (string * value)) (st : state) (e : exn) :
  let url := default (VStr "") (assoc "url" d) in
  session st = true ->
  truthy url = true ->
  w_get W (trace st) url = Error e ->
  extract_links W (VDict d) st
  = (Ok (VDict [("success", VBool false); ("error", VStr (exn_str e))]),
     log (EvGet url) st)
  /\ (truthy (default (VDict []) (assoc "selectors" d)) = true ->
      scrape_data W (VDict d) st
      = (Ok (VDict [("success", VBool false); ("error", VStr (exn_str e))]),
         log (EvGet url) st)).
Proof.
  intros url Hs Hurl Hget. split.
  - rewrite extract_links_spec by done. fold url. by rewrite Hs, Hget.
  - intros Hsel. rewrite scrape_data_spec by done. fold url. by rewrite Hs, Hget.
Qed.

(** A tool request whose [params] is present but is no mapping (null, a
    list, a number, a string) gets no response: the operation raises on
    [params.get], and the report of that exception cannot be encoded. *)
Theorem non_mapping_params_unanswered (message name : string)
    (request : list (string * value)) (params : value) (handler : tool) (st : state) :
  decodes W message (VDict request) ->
  assoc "type" request = Some (VStr "tool") ->
  assoc "tool" request = Some (VStr name) ->
  name ≠ "" ->
  assoc name (tools st) = Some handler ->
  assoc "params" request = Some params ->
  (forall d, params ≠ VDict d) ->
  handle_message W message st = (Error dumps_type_error, st).
Proof.
  intros Hd Hty Htool Hne Hreg Hparams Hnd.
  rewrite (handle_message_tool W message request name st Hd Hty Htool Hne).
  rewrite Hreg, Hparams. simpl.
  destruct params as [| | | | | |d|]; try (by destruct handler).
  by destruct (Hnd d).
Qed.

(** On a mapping, [fetch_webpage], [extract_links] and [scrape_data]
    never raise, whatever the mapping holds and whatever the network and
    the parser do: every exception is turned into a returned record. *)
Theorem mapping_params_never_raise (handler : tool) (d : list (string * value))
    (st : state) :
  handler ≠ WebSearch ->
  exists r st', call_tool W handler (VDict d) st = (Ok r, st').
Proof.
  intros Hh. destruct handler; [done| | |]; simpl.
  - apply fetch_webpage_returns.
  - apply extract_links_returns.
  - apply scrape_data_returns.
Qed.

End Failures.

(** ** The cache and the record of [fetch_webpage] *)

Section Cache.

Variable W : World.

(** A call of [fetch_webpage] changes the cache at most under the key of
    its own URL: every other entry stays as it is. *)
Theorem fetch_cache_frame (params url : value) (st : state) (k : string) :
  py_get params "url" (VStr "") = Ok url ->
  k ≠ cache_key_of W url ->
  cache (fetch_webpage W params st).2 !! k = cache st !! k.
Proof.
  intros Hurl Hk.
  destruct (fetch_webpage_cases W params st)
    as [e Hout | msg st' Hout Hc _ | url' t0 data _ _ Hout
        | url' et em resp html s result st1 Hurl' _ _ Hst1 _ _ _ _ Hout];
    rewrite Hout; simpl; try done.
  - by rewrite Hc.
  - assert (url' = url) as -> by congruence.
    assert (cache st1 = cache st) as -> by (by destruct Hst1 as [-> | ->]).
    by rewrite lookup_insert_ne.
Qed.

(** Two calls in a row: when a call has fetched a page and the clock,
    read again by the next call with the same parameters, has advanced by
    less than 300 seconds, that next call returns the very same record and
    makes no network call. *)
Theorem fetch_twice_within_ttl (params r : value) (st st' : state) :
  fetch_webpage W params st = (Ok r, st') ->
  trace st' ≠ trace st ->
  is_success r ->
  0 <= w_now W (ticks st') - w_now W (Nat.pred (ticks st')) < cache_ttl * 1000000 ->
  fetch_webpage W params st' = (Ok r, tick st')
  /\ trace (tick st') = trace st'.
Proof.
  intros Hcall Htrace Hsucc Hage. split; [|done].
  destruct params as [| | | | | |d|]; try done.
  destruct (truthy (default (VStr "") (assoc "url" d))) eqn:Htruthy.
  2:{ unfold fetch_webpage, bind, lift, ret in Hcall. simpl in Hcall.
      rewrite Htruthy in Hcall. by injection Hcall as _ <-. }
  destruct (fetch_webpage_cases W (VDict d) st)
    as [e Hout | msg st1 Hout Hc _ | url t0 data _ _ Hout
        | url et em resp html s result st1 Hurl _ _ Hst1 _ _ _ _ Hout];
    rewrite Hcall in Hout.
  - done.
  - injection Hout as -> _. done.
  - injection Hout as _ ->. done.
  - injection Hout as -> ->. simpl in Hurl. injection Hurl as <-.
    apply (fetch_webpage_cache_hit W d _ (w_now W (ticks st1)) (VDict result)).
    + done.
    + simpl. apply lookup_insert_eq.
    + simpl in Hage. simpl.
      rewrite timedelta_seconds_same_day by (unfold cache_ttl in *; lia).
      apply Z.div_lt_upper_bound; unfold cache_ttl in *; lia.
Qed.

(** The [headings] of the metadata hold at most five [h1] texts and at
    most five [h2] texts, whatever the page. *)
Theorem headings_bounded (s : soup W) (metadata : value) :
  page_metadata W s = Ok metadata ->
  exists (md : list (string * value)) (h1 h2 : list value),
    metadata = VDict md
    /\ assoc "headings" md = Some (VDict [("h1", VList h1); ("h2", VList h2)])
    /\ (length h1 <= 5)%nat
    /\ (length h2 <= 5)%nat.
Proof.
  unfold page_metadata.
  destruct (meta_entries W _ _) as [md|e]; simpl; [|done].
  intros [= <-]. eexists _, _, _. split; [done|]. split.
  - apply assoc_dict_set_eq.
  - unfold limited. simpl. rewrite !length_fmap, !length_take. lia.
Qed.

(** One turn of the loop over the [meta] tags writes under the name of
    the tag, or leaves the metadata as it is. *)
Lemma meta_entry_other (metadata out : list (string * value)) (meta : tag W) (k : string) :
  meta_entry W metadata meta = Ok out ->
  meta_name W meta ≠ VStr k ->
  assoc k out = assoc k metadata.
Proof.
  unfold meta_entry. fold (meta_name W meta). fold (meta_content W meta).
  intros Hrun Hname.
  destruct (truthy (meta_name W meta) && truthy (meta_content W meta)).
  - destruct (meta_name W meta) as [| | | |key| | |] eqn:Hn; try done.
    apply Ok_inj in Hrun as <-. apply assoc_dict_set_ne. congruence.
  - by apply Ok_inj in Hrun as <-.
Qed.

Lemma meta_entries_other (metas : list (tag W)) (k : string) :
  forall metadata out,
    meta_entries W metadata metas = Ok out ->
    (forall m, m ∈ metas -> meta_name W m ≠ VStr k) ->
    assoc k out = assoc k metadata.
Proof.
  induction metas as [|m rest IH]; intros metadata out; simpl.
  - by intros [= <-].
  - destruct (meta_entry W metadata m) as [md|e] eqn:Hm; simpl; [|done].
    intros Hrest Hnames. rewrite (IH md out Hrest).
    + eapply meta_entry_other; [done|]. apply Hnames. by left.
    + intros m' Hm'. apply Hnames. by right.
Qed.

(** Tags that do not write under [k] (another name, or no content) leave
    the entry under [k] as it is. *)
Lemma meta_entries_keep (post : list (tag W)) (k : string) :
  forall metadata out,
    meta_entries W metadata post = Ok out ->
    (forall m, m ∈ post ->
       meta_name W m ≠ VStr k \/ truthy (meta_content W m) = false) ->
    assoc k out = assoc k metadata.
Proof.
  induction post as [|m post IH]; intros metadata out; simpl.
  - by intros [= <-].
  - destruct (meta_entry W metadata m) as [md|e] eqn:Hm; simpl; [|done].
    intros Hrest Hpost. rewrite (IH md out Hrest).
    + destruct (Hpost m ltac:(by left)) as [Hn | Hc].
      * by eapply meta_entry_other.
      * unfold meta_entry in Hm. fold (meta_content W m) in Hm.
        rewrite Hc, andb_false_r in Hm. by apply Ok_inj in Hm as <-.
    + intros m' Hm'. apply Hpost. by right.
Qed.

Lemma meta_entries_last (pre post : list (tag W)) (meta : tag W) (k : string)
    (metadata out : list (string * value)) :
  meta_entries W metadata (pre ++ meta :: post) = Ok out ->
  meta_name W meta = VStr k ->
  k ≠ "" ->
  truthy (meta_content W meta) = true ->
  (forall m, m ∈ post ->
     meta_name W m ≠ VStr k \/ truthy (meta_content W m) = false) ->
  assoc k out = Some (meta_content W meta).
Proof.
  revert metadata. induction pre as [|p pre IH]; intros metadata; simpl.
  - intros Hrun Hname Hk Hcontent Hpost.
    assert (meta_entry W metadata meta = Ok (dict_set k (meta_content W meta) metadata))
      as Hm.
    { unfold meta_entry. fold (meta_name W meta). fold (meta_content W meta).
      rewrite Hname, Hcontent. by destruct k. }
    rewrite Hm in Hrun. simpl in Hrun.
    rewrite (meta_entries_keep post k _ out Hrun Hpost).
    apply assoc_dict_set_eq.
  - destruct (meta_entry W metadata p) as [md|e]; simpl; [|done]. apply IH.
Qed.

(** Of several [meta] tags with the same name, the last one with a
    content wins: its content is what the metadata of the page holds under
    that name.  This goes for the name [title] too, where the content of
    the tag replaces the text of the [title] element; only under
    [headings] the metadata always holds the headings. *)
Theorem last_meta_wins (s : soup W) (metadata : value) (pre post : list (tag W))
    (meta : tag W) (k : string) :
  page_metadata W s = Ok metadata ->
  w_find_all W s (Named ["meta"]) = pre ++ meta :: post ->
  meta_name W meta = VStr k ->
  k ≠ "" ->
  k ≠ "headings" ->
  truthy (meta_content W meta) = true ->
  (forall m, m ∈ post ->
     meta_name W m ≠ VStr k \/ truthy (meta_content W m) = false) ->
  exists md, metadata = VDict md /\ assoc k md = Some (meta_content W meta).
Proof.
  unfold page_metadata. intros Hrun Hmetas Hname Hk Hh Hcontent Hpost.
  rewrite Hmetas in Hrun.
  destruct (meta_entries W _ (pre ++ meta :: post)) as [md|e] eqn:Hloop;
    simpl in Hrun; [|done].
  apply Ok_inj in Hrun as <-. eexists. split; [done|].
  rewrite assoc_dict_set_ne by done.
  by eapply meta_entries_last.
Qed.

End Cache.

(** ** The links of a page *)

Section MoreLinks.

Variable W : World.

(** Each appended record is classified by the host of its URL, carries
    the scheme of its URL, and has passed the filters. *)
Lemma collect_links_classified (base_url base_netloc : string) (io eo : value)
    (anchors : list (tag W)) :
  forall (seen : gset string) (links out : list link),
    collect_links W base_url base_netloc io eo anchors seen links = Ok out ->
    exists new,
      out = links ++ new
      /\ forall l, l ∈ new ->
           exists parsed,
             w_urlparse W (link_url l) = Ok parsed
             /\ link_internal l = String.eqb (netloc parsed) base_netloc
             /\ link_protocol l = scheme parsed
             /\ passes io eo base_netloc parsed = true.
Proof.
  induction anchors as [|a rest IH]; intros seen links out; simpl.
  { intros [= <-]. exists []. rewrite app_nil_r. split; [done|].
    intros l Hl. by apply elem_of_nil in Hl. }
  destruct (href_of W a) as [href|e]; simpl; [|done].
  destruct (w_urljoin W base_url href) as [u|e]; simpl; [|done].
  destruct (w_urlparse W u) as [parsed|e] eqn:Hparse; simpl; [|done].
  case_bool_decide; [by apply IH|].
  destruct (truthy io && negb (String.eqb (netloc parsed) base_netloc)) eqn:Hio;
    [by apply IH|].
  destruct (truthy eo && String.eqb (netloc parsed) base_netloc) eqn:Heo;
    [by apply IH|].
  intros Hout. destruct (IH _ _ _ Hout) as (new & -> & Hnew).
  eexists (_ :: new). split; [by rewrite <- app_assoc|].
  intros l [->|Hl]%elem_of_cons; [|by apply Hnew].
  exists parsed. simpl. unfold passes. by rewrite Hio, Heo.
Qed.

(** No link is lost: the absolute URL of an anchor that gets past the
    filters is among the URLs of the result, provided this held for the
    URLs seen before. *)
Lemma collect_links_complete (base_url base_netloc : string) (io eo : value)
    (anchors : list (tag W)) :
  forall (seen : gset string) (links out : list link),
    collect_links W base_url base_netloc io eo anchors seen links = Ok out ->
    (forall u parsed, u ∈ seen -> w_urlparse W u = Ok parsed ->
       passes io eo base_netloc parsed = true -> u ∈ link_url <$> links) ->
    (forall l, l ∈ links -> l ∈ out)
    /\ forall a u parsed,
         a ∈ anchors ->
         absolute_url W base_url a = Ok u ->
         w_urlparse W u = Ok parsed ->
         passes io eo base_netloc parsed = true ->
         u ∈ link_url <$> out.
Proof.
  induction anchors as [|a rest IH]; intros seen links out; simpl.
  { intros [= <-] _. split; [done|]. intros a u parsed Ha. by apply elem_of_nil in Ha. }
  destruct (href_of W a) as [href|e] eqn:Hhref; simpl; [|done].
  destruct (w_urljoin W base_url href) as [u0|e] eqn:Hjoin; simpl; [|done].
  destruct (w_urlparse W u0) as [parsed0|e] eqn:Hparse; simpl; [|done].
  assert (absolute_url W base_url a = Ok u0) as Habs.
  { unfold absolute_url. rewrite Hhref. simpl. by rewrite Hjoin. }
  intros Hout Hseen.
  (* the three ways the loop goes on *)
  assert (exists (seen' : gset string) (links' : list link),
            collect_links W base_url base_netloc io eo rest seen' links' = Ok out
            /\ (forall l, l ∈ links -> l ∈ links')
            /\ (forall u parsed, u ∈ seen' -> w_urlparse W u = Ok parsed ->
                  passes io eo base_netloc parsed = true -> u ∈ link_url <$> links')
            /\ (passes io eo base_netloc parsed0 = true -> u0 ∈ link_url <$> links'))
    as (seen' & links' & Hrest & Hsub & Hseen' & Hu0).
  { case_bool_decide as Hin.
    - exists seen, links. repeat split; try done. intros Hp. by eapply Hseen.
    - assert (forall links' : list link,
                (forall l, l ∈ links -> l ∈ links') ->
                (passes io eo base_netloc parsed0 = true -> u0 ∈ link_url <$> links') ->
                forall u parsed, u ∈ ({[u0]} ∪ seen : gset string) ->
                  w_urlparse W u = Ok parsed ->
                  passes io eo base_netloc parsed = true -> u ∈ link_url <$> links')
        as Hstep.
      { intros links' Hsub Hu0 u parsed [Hu|Hu]%elem_of_union Hp Hpass.
        - apply elem_of_singleton in Hu as ->.
          assert (parsed = parsed0) as -> by congruence. by apply Hu0.
        - pose proof (Hseen u parsed Hu Hp Hpass) as Hin'.
          apply list_elem_of_fmap in Hin' as (l & -> & Hl).
          apply list_elem_of_fmap. exists l. split; [done|]. by apply Hsub. }
      destruct (truthy io && negb (String.eqb (netloc parsed0) base_netloc)) eqn:Hio.
      { exists ({[u0]} ∪ seen), links. split; [done|]. split; [done|].
        assert (passes io eo base_netloc parsed0 = true -> u0 ∈ link_url <$> links) as Hno.
        { unfold passes. by rewrite Hio. }
        split; [by apply Hstep | done]. }
      destruct (truthy eo && String.eqb (netloc parsed0) base_netloc) eqn:Heo.
      { exists ({[u0]} ∪ seen), links. split; [done|]. split; [done|].
        assert (passes io eo base_netloc parsed0 = true -> u0 ∈ link_url <$> links) as Hno.
        { unfold passes. by rewrite Hio, Heo. }
        split; [by apply Hstep | done]. }
      eexists ({[u0]} ∪ seen), (links ++ [_]). split; [done|].
      assert (forall l, l ∈ links -> l ∈ links ++ [Link u0
                 (str_take 100 (w_tag_text W a))
                 (String.eqb (netloc parsed0) base_netloc) (scheme parsed0)]) as Hsub.
      { intros l Hl. apply elem_of_app. by left. }
      split; [done|].
      assert (u0 ∈ link_url <$> links ++ [Link u0
                 (str_take 100 (w_tag_text W a))
                 (String.eqb (netloc parsed0) base_netloc) (scheme parsed0)]) as Hu0.
      { rewrite fmap_app. apply elem_of_app. right. simpl. by left. }
      split; [by apply Hstep | done]. }
  destruct (IH _ _ _ Hrest Hseen') as (Hkeep & Hall).
  split; [by auto|].
  intros a' u parsed [->|Ha']%elem_of_cons Ha Hp Hpass.
  - assert (u = u0) as -> by congruence. assert (parsed = parsed0) as -> by congruence.
    pose proof (Hu0 Hpass) as Hin'.
    apply list_elem_of_fmap in Hin' as (l & -> & Hl).
    apply list_elem_of_fmap. exists l. split; [done|]. by apply Hkeep.
  - by eapply Hall.
Qed.

(** What a successful [extract_links] was built from. *)
Lemma extract_links_inv (params r : value) (st st' : state) :
  extract_links W params st = (Ok r, st') ->
  is_success r ->
  exists (url io eo : value) (resp : response) (html : string) (s : soup W)
         (links : list link),
    py_get params "url" (VStr "") = Ok url
    /\ py_get params "internalOnly" (VBool false) = Ok io
    /\ py_get params "externalOnly" (VBool false) = Ok eo
    /\ w_get W (trace st) url = Ok resp
    /\ resp_text resp = Ok html
    /\ w_BeautifulSoup W html = Ok s
    /\ page_links W (resp_url resp) s io eo = Ok links
    /\ r = links_result (resp_url resp) links
    /\ st' = log (EvGet url) st.
Proof.
  intros Hcall Hsucc.
  destruct params as [| | | | | |d|]; try done.
  destruct (truthy (default (VStr "") (assoc "url" d))) eqn:Hurl.
  2:{ unfold extract_links, bind, lift, ret in Hcall. simpl in Hcall.
      rewrite Hurl in Hcall. injection Hcall as <- _. done. }
  rewrite extract_links_spec in Hcall by done.
  destruct (session st); [|injection Hcall as <- _; done].
  destruct (w_get W (trace st) _) as [resp|e] eqn:Hget; [|injection Hcall as <- _; done].
  destruct (resp_text resp) as [html|e] eqn:Htext; [|injection Hcall as <- _; done].
  destruct (w_BeautifulSoup W html) as [s|e] eqn:Hsoup; [|injection Hcall as <- _; done].
  destruct (page_links W (resp_url resp) s _ _) as [links|e] eqn:Hlinks;
    [|injection Hcall as <- _; done].
  injection Hcall as <- <-.
  by eexists _, _, _, resp, html, s, links.
Qed.

(** In the record of a successful [extract_links] every entry of [links]
    is marked internal exactly when the host of its URL is the host of the
    final page URL, and carries the scheme of its URL as [protocol]; with
    [internalOnly] set all entries are internal, with [externalOnly] set
    none is. *)
Theorem links_classified_and_filtered (params r : value) (st st' : state) :
  extract_links W params st = (Ok r, st') ->
  is_success r ->
  exists (url io eo : value) (resp : response) (base : parsed_url)
         (records : list value),
    py_get params "url" (VStr "") = Ok url
    /\ py_get params "internalOnly" (VBool false) = Ok io
    /\ py_get params "externalOnly" (VBool false) = Ok eo
    /\ w_get W (trace st) url = Ok resp
    /\ w_urlparse W (resp_url resp) = Ok base
    /\ py_get r "links" VNone = Ok (VList records)
    /\ forall record, record ∈ records ->
         exists (u : string) (parsed : parsed_url) (internal : bool),
           py_get record "url" VNone = Ok (VStr u)
           /\ w_urlparse W u = Ok parsed
           /\ py_get record "internal" VNone = Ok (VBool internal)
           /\ internal = String.eqb (netloc parsed) (netloc base)
           /\ py_get record "protocol" VNone = Ok (VStr (scheme parsed))
           /\ (truthy io = true -> internal = true)
           /\ (truthy eo = true -> internal = false).
Proof.
  intros Hcall Hsucc.
  destruct (extract_links_inv params r st st' Hcall Hsucc)
    as (url & io & eo & resp & html & s & links & Hurl & Hio & Heo & Hget & _ & _
        & Hlinks & -> & _).
  unfold page_links in Hlinks.
  destruct (w_urlparse W (resp_url resp)) as [base|e] eqn:Hbase; simpl in Hlinks; [|done].
  destruct (collect_links_classified _ _ _ _ _ _ _ _ Hlinks) as (new & Hnew & Hcl).
  simpl in Hnew. subst new.
  exists url, io, eo, resp, base, (link_value <$> links). do 6 (split; [done|]).
  intros record (l & -> & Hl)%list_elem_of_fmap.
  destruct (Hcl l Hl) as (parsed & Hp & Hint & Hproto & Hpass).
  unfold passes in Hpass. apply andb_true_iff in Hpass as [Hpi Hpe].
  exists (link_url l), parsed, (link_internal l).
  split; [done|]. split; [done|]. split; [done|]. split; [done|].
  split; [simpl; by rewrite Hproto|]. rewrite Hint. split.
  - intros Ht. rewrite Ht in Hpi. simpl in Hpi.
    by destruct (String.eqb (netloc parsed) (netloc base)).
  - intros Ht. rewrite Ht in Hpe. simpl in Hpe.
    by destruct (String.eqb (netloc parsed) (netloc base)).
Qed.

(** No link is lost: for every anchor of the page whose absolute URL gets
    past the filters, the [links] of the record hold an entry with that
    URL. *)
Theorem no_link_lost (params r : value) (st st' : state) :
  extract_links W params st = (Ok r, st') ->
  is_success r ->
  exists (url io eo : value) (resp : response) (html : string) (s : soup W)
         (base : parsed_url) (records : list value),
    py_get params "url" (VStr "") = Ok url
    /\ py_get params "internalOnly" (VBool false) = Ok io
    /\ py_get params "externalOnly" (VBool false) = Ok eo
    /\ w_get W (trace st) url = Ok resp
    /\ resp_text resp = Ok html
    /\ w_BeautifulSoup W html = Ok s
    /\ w_urlparse W (resp_url resp) = Ok base
    /\ py_get r "links" VNone = Ok (VList records)
    /\ forall a u parsed,
         a ∈ w_find_all W s (NamedWithAttr "a" "href") ->
         absolute_url W (resp_url resp) a = Ok u ->
         w_urlparse W u = Ok parsed ->
         passes io eo (netloc base) parsed = true ->
         exists record,
           record ∈ records /\ py_get record "url" VNone = Ok (VStr u).
Proof.
  intros Hcall Hsucc.
  destruct (extract_links_inv params r st st' Hcall Hsucc)
    as (url & io & eo & resp & html & s & links & Hurl & Hio & Heo & Hget & Htext & Hsoup
        & Hlinks & -> & _).
  unfold page_links in Hlinks.
  destruct (w_urlparse W (resp_url resp)) as [base|e] eqn:Hbase; simpl in Hlinks; [|done].
  destruct (collect_links_complete _ _ _ _ _ _ _ _ Hlinks) as (_ & Hall).
  { intros u parsed Hu. by apply elem_of_empty in Hu. }
  exists url, io, eo, resp, html, s, base, (link_value <$> links).
  do 8 (split; [done|]).
  intros a u parsed Ha Habs Hp Hpass.
  pose proof (Hall a u parsed Ha Habs Hp Hpass) as Hin.
  apply list_elem_of_fmap in Hin as (l & -> & Hl).
  exists (link_value l). split; [|done].
  apply list_elem_of_fmap. by exists l.
Qed.

End MoreLinks.

(** ** [web_search] once more *)

Section MoreSearch.

Variable W : World.

(** With a [maxResults] that is absent or a number, a request without a
    usable [query] is rejected at once: the record says [Query parameter
    is required] and no network call is made. *)
Theorem missing_query_rejected (d : list (string * value)) (st : state) :
  truthy (default (VStr "") (assoc "query" d)) = false ->
  (assoc "maxResults" d = None
   \/ (exists n, assoc "maxResults" d = Some (VInt n))
   \/ (exists x, assoc "maxResults" d = Some (VFloat x))
   \/ (exists b, assoc "maxResults" d = Some (VBool b))) ->
  web_search W (VDict d) st
  = (Ok (VDict [("success", VBool false); ("error", VStr "Query parameter is required")]),
     st).
Proof.
  intros Hq Hm.
  assert (exists m, py_min_20 (default (VInt 10) (assoc "maxResults" d)) = Ok m)
    as [m Hmin].
  { destruct Hm as [-> | [[n ->] | [[x ->] | [b ->]]]]; simpl; eauto. }
  by apply (web_search_missing_query W d st m).
Qed.

(** A successful search with a positive integer [maxResults] returns at
    most that many results and never more than 20; [count] is their
    number.  Without [maxResults] the bound is 10. *)
Theorem search_count_bounded (d : list (string * value)) (st st' : state)
    (r : value) (n : Z) :
  web_search W (VDict d) st = (Ok r, st') ->
  is_success r ->
  default (VInt 10) (assoc "maxResults" d) = VInt n ->
  0 < n ->
  exists results,
    r = VDict [("success", VBool true);
               ("query", default (VStr "") (assoc "query" d));
               ("results", VList results);
               ("count", VInt (Z.of_nat (length results)))]
    /\ Z.of_nat (length results) <= Z.min n 20.
Proof.
  intros Hcall Hsucc Hreq Hn.
  assert (py_min_20 (default (VInt 10) (assoc "maxResults" d))
          = Ok (VInt (Z.min n 20))) as Hmin.
  { rewrite Hreq. simpl. destruct (Z.ltb_spec 20 n); do 2 f_equal; lia. }
  destruct (truthy (default (VStr "") (assoc "query" d))) eqn:Hq.
  2:{ rewrite (web_search_missing_query W d st _ Hq Hmin) in Hcall.
      injection Hcall as <- _. done. }
  rewrite (web_search_spec W d st _ Hmin Hq) in Hcall.
  destruct (session st); [|injection Hcall as <- _; done].
  destruct (w_post W _ _ _) as [resp|e]; [|injection Hcall as <- _; done].
  destruct (resp_text resp) as [html|e]; [|injection Hcall as <- _; done].
  destruct (w_BeautifulSoup W html) as [s|e]; [|injection Hcall as <- _; done].
  destruct (search_hits W _) as [results|e] eqn:Hhits; [|injection Hcall as <- _; done].
  injection Hcall as <- _. exists results. split; [done|].
  pose proof (search_hits_length W _ _ Hhits) as Hlen.
  pose proof (result_blocks_bound W s (Z.min n 20) ltac:(lia)). lia.
Qed.

(** ** The redirect links of the search results *)

Lemma rev_app_append (s1 s2 s3 : string) :
  String.rev_app s1 s2 +:+ s3 = String.rev_app s1 (s2 +:+ s3).
Proof. revert s2. induction s1 as [|c s1 IH]; intros s2; simpl; [done|]. by rewrite IH. Qed.

Lemma rev_cons_append (c : ascii) (cur s : string) :
  String.rev (String c cur) +:+ s = String.rev cur +:+ String c s.
Proof. unfold String.rev. simpl. by rewrite !rev_app_append. Qed.

Lemma append_empty_r (s : string) : s +:+ "" = s.
Proof.
  induction s as [|c s IH]; [done|].
  change (String c s +:+ "") with (String c (s +:+ "")). by rewrite IH.
Qed.

(** A string without the separator is not split. *)
Lemma split_go_absent (sep : string) (s : string) :
  forall cur, contains sep s = false -> split_go sep O cur s = [String.rev cur +:+ s].
Proof.
  induction s as [|c s IH]; intros cur; simpl.
  - intros _. by rewrite append_empty_r.
  - intros [Hp Hs]%orb_false_iff. rewrite Hp, IH by done. by rewrite rev_cons_append.
Qed.

(** [split] always gives one piece at least, so that the subscript [[0]]
    is always in range. *)
Lemma split_go_cons (sep : string) (s : string) :
  forall skip cur, exists first more, split_go sep skip cur s = first :: more.
Proof.
  induction s as [|c s IH]; intros skip cur; simpl; [by eexists _, _|].
  destruct skip; [|by apply IH].
  match goal with |- context [if ?b then _ else _] => destruct b end;
    [by eexists _, _ | apply IH].
Qed.

(** A string with the separator is split in two pieces at least, so that
    the subscript [[1]] is always in range. *)
Lemma split_go_present (sep : string) (s : string) :
  sep ≠ "" ->
  forall cur, contains sep s = true ->
    exists first second more, split_go sep O cur s = first :: second :: more.
Proof.
  intros Hsep. pose proof (split_go_cons sep) as Hne.
  induction s as [|c s IH]; intros cur; simpl.
  - rewrite orb_false_r. by destruct sep.
  - intros Hc.
    match goal with |- context [if ?b then _ else _] => destruct b eqn:Hp end.
    + destruct (Hne s (Nat.pred (String.length sep)) "") as (second & more & ->).
      by eexists _, _, _.
    + simpl in Hc. by apply IH.
Qed.

(** Whenever [urlparse] accepts a result link, the decoding returns a
    string: the subscripts [[1]] and [[0]] on the pieces of the query are
    always in range, so that no [IndexError] arises, whatever the query
    holds. *)
Theorem redirect_decoding_safe (u : string) (parsed : parsed_url) :
  w_urlparse W u = Ok parsed ->
  exists target, decode_redirect W (VStr u) = Ok (VStr target).
Proof.
  intros Hparse. unfold decode_redirect.
  destruct (String.prefix "//duckduckgo.com/l/" u); [|by eauto].
  rewrite Hparse. simpl.
  destruct (contains "uddg=" (query parsed)) eqn:Hc; [|by eauto].
  destruct (split_go_present "uddg=" (query parsed) ltac:(done) "" Hc)
    as (first & second & more & Hsplit).
  unfold split. rewrite Hsplit.
  destruct (split_go_cons "&" second O "") as (x & xs & ->). by eauto.
Qed.

Lemma prefix_empty (s : string) : String.prefix "" s = true.
Proof. by destruct s. Qed.

Lemma prefix_char (a c : ascii) (s1 s2 : string) :
  String.prefix (String a "") (String c s1) = String.prefix (String a "") (String c s2).
Proof.
  cbn [String.prefix]. destruct (ascii_dec a c); [by rewrite !prefix_empty | done].
Qed.

(** The piece before the first [&] of a string is cut off by [split]. *)
Lemma split_amp_head (t rest : string) :
  contains "&" t = false ->
  forall cur,
    split_go "&" O cur (t +:+ String "&" rest)
    = (String.rev cur +:+ t) :: split_go "&" O "" rest.
Proof.
  induction t as [|c t IH]; intros Hc cur.
  - change ("" +:+ String "&" rest) with (String "&" rest). simpl.
    by rewrite prefix_empty, append_empty_r.
  - cbn [contains] in Hc. apply orb_false_iff in Hc as [Hp Ht].
    change (String c t +:+ String "&" rest) with (String c (t +:+ String "&" rest)).
    cbn [split_go].
    rewrite (prefix_char "&" c (t +:+ String "&" rest) t), Hp.
    rewrite (IH Ht). by rewrite rev_cons_append.
Qed.

(** The first piece of a split starts with what was read so far. *)
Lemma split_go_first (sep : string) (s : string) :
  forall cur, exists p more, split_go sep O cur s = (String.rev cur +:+ p) :: more.
Proof.
  induction s as [|c s IH]; intros cur; cbn [split_go].
  - exists "", []. by rewrite append_empty_r.
  - match goal with |- context [if ?b then _ else _] => destruct b end.
    + eexists "", _. by rewrite append_empty_r.
    + destruct (IH (String c cur)) as (p & more & ->).
      exists (String c p), more. by rewrite rev_cons_append.
Qed.

(** A separator without [&] that does not start a string does not start
    it either when the string is followed by [&]. *)
Lemma prefix_app_false (sep : string) :
  contains "&" sep = false ->
  forall x tail,
    tail = "" \/ (exists rest, tail = String "&" rest) ->
    String.prefix sep x = false ->
    String.prefix sep (x +:+ tail) = false.
Proof.
  induction sep as [|a sep IH]; intros Hamp x tail Htail Hx.
  { by rewrite prefix_empty in Hx. }
  cbn [contains] in Hamp. apply orb_false_iff in Hamp as [Ha Hsep].
  assert (a ≠ "&"%char) as Hne.
  { intros ->. cbn [String.prefix] in Ha.
    destruct (ascii_dec "&" "&"); [by rewrite prefix_empty in Ha | done]. }
  destruct x as [|c x].
  - change ("" +:+ tail) with tail.
    destruct Htail as [-> | [rest ->]]; [done|].
    cbn [String.prefix]. by destruct (ascii_dec a "&").
  - change (String c x +:+ tail) with (String c (x +:+ tail)).
    cbn [String.prefix] in *.
    destruct (ascii_dec a c); [|done]. by apply IH.
Qed.

(** The piece that [split('uddg=')] cuts off a target followed by [&]:
    the target, and then nothing or something that starts with [&]. *)
Lemma split_go_target (target tail : string) :
  contains "uddg=" target = false ->
  tail = "" \/ (exists rest, tail = String "&" rest) ->
  forall cur, exists p more,
    split_go "uddg=" O cur (target +:+ tail) = (String.rev cur +:+ target +:+ p) :: more
    /\ (p = "" \/ exists rest, p = String "&" rest).
Proof.
  intros Htarget Htail. induction target as [|c t IH]; intros cur.
  - change ("" +:+ tail) with tail.
    destruct Htail as [-> | [rest ->]].
    + exists "", []. split; [|by left]. cbn [split_go].
      change ("" +:+ "") with "". by rewrite append_empty_r.
    + cbn [split_go].
      assert (String.prefix "uddg=" (String "&" rest) = false) as -> by reflexivity.
      destruct (split_go_first "uddg=" rest (String "&" cur)) as (p & more & ->).
      exists (String "&" p), more. split; [|by eauto].
      rewrite rev_cons_append. by change ("" +:+ String "&" p) with (String "&" p).
  - cbn [contains] in Htarget. apply orb_false_iff in Htarget as [Hp Ht].
    pose proof (prefix_app_false "uddg=" eq_refl (String c t) tail Htail Hp) as Hp'.
    change (String c t +:+ tail) with (String c (t +:+ tail)) in *.
    cbn [split_go]. rewrite Hp'.
    destruct (IH Ht (String c cur)) as (p & more & -> & Hp0).
    exists p, more. split; [|done].
    rewrite rev_cons_append.
    by change (String c t +:+ p) with (String c (t +:+ p)).
Qed.

(** A redirect link whose query starts with [uddg=] is decoded to the
    unquoted target: the text after [uddg=] up to the first [&], or up to
    the end when there is none, provided that text holds no second
    [uddg=]. *)
Theorem redirect_decoded (u target tail : string) (parsed : parsed_url) :
  String.prefix "//duckduckgo.com/l/" u = true ->
  w_urlparse W u = Ok parsed ->
  contains "&" target = false ->
  contains "uddg=" target = false ->
  tail = "" \/ (exists rest, tail = String "&" rest) ->
  query parsed = "uddg=" +:+ target +:+ tail ->
  decode_redirect W (VStr u) = Ok (VStr (w_unquote W target)).
Proof.
  intros Hpre Hparse Hamp Huddg Htail Hq.
  unfold decode_redirect. rewrite Hpre, Hparse. simpl. rewrite Hq.
  destruct (split_go_target target tail Huddg Htail "") as (p & more & Hsplit & Hp).
  remember (target +:+ tail) as x eqn:Hx.
  change ("uddg=" +:+ x)
    with (String "u" (String "d" (String "d" (String "g" (String "=" x))))).
  assert (contains "uddg=" (String "u" (String "d" (String "d" (String "g" (String "=" x)))))
          = true) as ->.
  { cbn [contains]. apply orb_true_iff. left. cbn. apply prefix_empty. }
  assert (split "uddg=" (String "u" (String "d" (String "d" (String "g" (String "=" x)))))
          = "" :: (target +:+ p) :: more) as ->.
  { unfold split. cbn [split_go].
    assert (String.prefix "uddg="
              (String "u" (String "d" (String "d" (String "g" (String "=" x))))) = true)
      as -> by (cbn; apply prefix_empty).
    cbn [String.length Nat.pred split_go].
    rewrite Hsplit. done. }
  assert (exists more', split "&" (target +:+ p) = target :: more') as [more' ->].
  { unfold split. destruct Hp as [-> | [rest ->]].
    - rewrite append_empty_r, (split_go_absent "&" target "" Hamp). by eexists.
    - rewrite (split_amp_head target rest Hamp ""). by eexists. }
  done.
Qed.

End MoreSearch.

(** ** The text of a page *)

Section Text.

Variable W : World.

Lemma one_line_rev_app (s1 s2 : string) :
  one_line s1 = true -> one_line s2 = true -> one_line (String.rev_app s1 s2) = true.
Proof.
  revert s2. induction s1 as [|c s1 IH]; intros s2; simpl; [done|].
  intros [Hc Hs1]%andb_true_iff Hs2. apply IH; [done|]. simpl. by rewrite Hc.
Qed.

Lemma one_line_rev (s : string) : one_line s = true -> one_line (String.rev s) = true.
Proof. intros H. by apply one_line_rev_app. Qed.

Lemma one_line_lstrip (s : string) : one_line s = true -> one_line (lstrip s) = true.
Proof.
  induction s as [|c s IH]; simpl; [done|].
  intros [Hc Hs]%andb_true_iff. destruct (isspace c); [by apply IH|].
  simpl. by rewrite Hc.
Qed.

Lemma one_line_strip (s : string) : one_line s = true -> one_line (strip s) = true.
Proof.
  intros H. unfold strip.
  by apply one_line_rev, one_line_lstrip, one_line_rev, one_line_lstrip.
Qed.

Lemma one_line_app (s1 s2 : string) :
  one_line s1 = true -> one_line s2 = true -> one_line (s1 +:+ s2) = true.
Proof.
  induction s1 as [|c s1 IH]; [done|].
  change (String c s1 +:+ s2) with (String c (s1 +:+ s2)). simpl.
  intros [Hc Hs1]%andb_true_iff Hs2. rewrite Hc. by apply IH.
Qed.

Lemma one_line_tail (c : ascii) (s : string) :
  one_line (String c s) = true -> one_line s = true.
Proof. simpl. by intros [_ ?]%andb_true_iff. Qed.

(** The lines that [splitlines] gives hold no line boundary. *)
Lemma splitlines_go_one_line (s : string) :
  forall cur, one_line cur = true ->
    Forall (fun line => one_line line = true) (splitlines_go cur s).
Proof.
  assert (forall n s0 cur, (String.length s0 <= n)%nat -> one_line cur = true ->
            Forall (fun line => one_line line = true) (splitlines_go cur s0)) as Hn.
  { induction n as [|n IH]; intros s0 cur Hlen Hcur; destruct s0 as [|c s0]; simpl;
      simpl in Hlen; try lia.
    - destruct cur; [by constructor|]. constructor; [by apply one_line_rev | constructor].
    - destruct cur; [by constructor|]. constructor; [by apply one_line_rev | constructor].
    - destruct (is_linebreak c) eqn:Hc.
      + constructor; [by apply one_line_rev|].
        destruct s0 as [|c' s']; [by constructor|].
        destruct (is_CR c && is_LF c'); apply IH; simpl in *; try done; lia.
      + apply IH; [lia|]. simpl. by rewrite Hc. }
  intros cur. by apply (Hn (String.length s)).
Qed.

(** So do the pieces that [split] cuts a line into. *)
Lemma split_go_one_line (sep : string) (s : string) :
  forall skip cur, one_line cur = true -> one_line s = true ->
    Forall (fun piece => one_line piece = true) (split_go sep skip cur s).
Proof.
  induction s as [|c s IH]; intros skip cur Hcur Hs; simpl.
  - constructor; [by apply one_line_rev | constructor].
  - pose proof (one_line_tail c s Hs) as Hs'.
    destruct skip; [|by apply IH].
    match goal with |- context [if ?b then _ else _] => destruct b end.
    + constructor; [by apply one_line_rev | by apply IH].
    + apply IH; [|done]. simpl. simpl in Hs. apply andb_true_iff in Hs as [-> _]. done.
Qed.

Lemma one_line_concat (l : list string) :
  Forall (fun s => one_line s = true) l -> one_line (String.concat " " l) = true.
Proof.
  induction 1 as [|s l Hs Hl IH]; simpl; [done|].
  destruct l as [|s' l']; [done|].
  apply (one_line_app s). { done. }
  by apply (one_line_app " ").
Qed.

Lemma one_line_take (n : nat) (s : string) :
  one_line s = true -> one_line (str_take n s) = true.
Proof.
  revert s. induction n as [|n IH]; intros [|c s]; simpl; try done.
  intros [-> Hs]%andb_true_iff. by apply IH.
Qed.

(** The normalised text of a page is one line: it holds none of the
    characters at which [splitlines] breaks. *)
Lemma normalize_text_one_line (text : string) : one_line (normalize_text text) = true.
Proof.
  unfold normalize_text. apply one_line_concat.
  apply List.Forall_forall. intros chunk [Hin _]%List.filter_In.
  apply List.in_flat_map in Hin as (line & Hline & Hchunk).
  apply list_elem_of_In, list_elem_of_fmap in Hline as (raw & -> & Hraw).
  apply list_elem_of_In, list_elem_of_fmap in Hchunk as (piece & -> & Hpiece).
  apply one_line_strip.
  assert (one_line (strip raw) = true) as Hraw'.
  { apply one_line_strip.
    pose proof (splitlines_go_one_line text "" eq_refl) as Hall.
    rewrite List.Forall_forall in Hall. apply Hall. by apply list_elem_of_In. }
  pose proof (split_go_one_line "  " (strip raw) O "" eq_refl Hraw') as Hall.
  rewrite List.Forall_forall in Hall. apply Hall. by apply list_elem_of_In.
Qed.

(** The [text] of a freshly built record holds no line boundary: the
    lines of the page are joined by single spaces. *)
Theorem fetched_text_one_line (resp : response) (s : soup W) (et em : value)
    (result : list (string * value)) :
  fetch_result W resp s et em = Ok result ->
  truthy et = true ->
  exists text, assoc "text" result = Some (VStr text) /\ one_line text = true.
Proof.
  intros Hres Het.
  destruct (fetch_result_text W resp s et em result Hres Het) as [Ht _].
  eexists. split; [done|]. apply one_line_take, normalize_text_one_line.
Qed.

End Text.

(** ** Start and end of the process *)

Section Lifecycle.

Variable W : World.

Lemma tool_list_serializable (registry : list (string * tool)) :
  serializable (tool_list registry) = true.
Proof. unfold tool_list. simpl. induction registry.*1; simpl; auto. Qed.

(** The registry after [initialize]. *)
Lemma initialize_spec (st : state) :
  let registry := dict_set "scrapeData" ScrapeData
                    (dict_set "extractLinks" ExtractLinks
                       (dict_set "fetchWebpage" FetchWebpage
                          (dict_set "webSearch" WebSearch (tools st)))) in
  initialize W st
  = (Ok tt, log (EvPrint (announcement W registry))
                (State registry true (cache st) (ticks st) (trace st))).
Proof.
  assert (forall registry, serializable (announcement W registry) = true) as Hann.
  { intros registry. unfold announcement. cbn [serializable forallb snd].
    by rewrite tool_list_serializable. }
  unfold initialize, register_tool, bind, modify, get_state, send_response.
  cbn -[tool_list dict_set serializable].
  match goal with |- context [serializable ?v] =>
    change v with (announcement W (dict_set "scrapeData" ScrapeData
                     (dict_set "extractLinks" ExtractLinks
                        (dict_set "fetchWebpage" FetchWebpage
                           (dict_set "webSearch" WebSearch (tools st))))))
  end.
  by rewrite Hann.
Qed.

(** [initialize] creates the session, registers the four operations
    under their names whatever was registered before, keeps every other
    registration, and prints one announcement that lists all registered
    tools; the cache is not touched. *)
Theorem initialize_registers_and_announces (st : state) :
  let st' := (initialize W st).2 in
  (initialize W st).1 = Ok tt
  /\ session st' = true
  /\ assoc "webSearch" (tools st') = Some WebSearch
  /\ assoc "fetchWebpage" (tools st') = Some FetchWebpage
  /\ assoc "extractLinks" (tools st') = Some ExtractLinks
  /\ assoc "scrapeData" (tools st') = Some ScrapeData
  /\ (forall name,
        name ∉ ["webSearch"; "fetchWebpage"; "extractLinks"; "scrapeData"] ->
        assoc name (tools st') = assoc name (tools st))
  /\ trace st' = trace st ++ [EvPrint (announcement W (tools st'))]
  /\ cache st' = cache st.
Proof.
  rewrite initialize_spec. cbn -[tool_list dict_set announcement].
  split; [done|]. split; [done|].
  split; [rewrite !assoc_dict_set_ne by done; apply assoc_dict_set_eq|].
  split; [rewrite !assoc_dict_set_ne by done; apply assoc_dict_set_eq|].
  split; [rewrite !assoc_dict_set_ne by done; apply assoc_dict_set_eq|].
  split; [apply assoc_dict_set_eq|].
  split; [|done].
  intros name Hname. rewrite !not_elem_of_cons in Hname.
  destruct Hname as (H1 & H2 & H3 & H4 & _).
  by rewrite !assoc_dict_set_ne.
Qed.

Lemma steady_ret {A : Type} (a : A) : steady (ret a).
Proof. intros st. repeat split; try done. exists []. by rewrite app_nil_r. Qed.

Lemma steady_raise {A : Type} (e : exn) : steady (@raise A e).
Proof. intros st. repeat split; try done. exists []. by rewrite app_nil_r. Qed.

Lemma steady_lift {A : Type} (r : result A exn) : steady (lift r).
Proof. destruct r; [apply steady_ret | apply steady_raise]. Qed.

Lemma steady_get_state : steady get_state.
Proof. intros st. repeat split; try done. exists []. by rewrite app_nil_r. Qed.

Lemma steady_now : steady (now W).
Proof. intros st. repeat split; try done. exists []. by rewrite app_nil_r. Qed.

Lemma steady_log (ev : event) : is_shutdown ev = false -> steady (modify (log ev)).
Proof. intros Hev st. repeat split; try done. exists [ev]. simpl. by rewrite Hev. Qed.

Lemma steady_step (st1 st2 st3 : state) :
  (tools st2 = tools st1 /\ session st2 = session st1
   /\ exists tr, trace st2 = trace st1 ++ tr
                 /\ forallb (fun ev => negb (is_shutdown ev)) tr = true) ->
  (tools st3 = tools st2 /\ session st3 = session st2
   /\ exists tr, trace st3 = trace st2 ++ tr
                 /\ forallb (fun ev => negb (is_shutdown ev)) tr = true) ->
  tools st3 = tools st1 /\ session st3 = session st1
  /\ exists tr, trace st3 = trace st1 ++ tr
                /\ forallb (fun ev => negb (is_shutdown ev)) tr = true.
Proof.
  intros (Ht1 & Hs1 & tr1 & Htr1 & Hok1) (Ht2 & Hs2 & tr2 & Htr2 & Hok2).
  split; [congruence|]. split; [congruence|].
  exists (tr1 ++ tr2). split.
  - by rewrite Htr2, Htr1, app_assoc.
  - rewrite forallb_app. by rewrite Hok1, Hok2.
Qed.

Lemma steady_bind {A B : Type} (m : M A) (k : A -> M B) :
  steady m -> (forall a, steady (k a)) -> steady (bind m k).
Proof.
  intros Hm Hk st. unfold bind. specialize (Hm st).
  destruct (m st) as [[a|e] st1]; simpl in *; [|done].
  apply (steady_step st st1); [done | apply Hk].
Qed.

Lemma steady_try_except {A : Type} (body : M A) (handler : exn -> M A) :
  steady body -> (forall e, steady (handler e)) -> steady (try_except body handler).
Proof.
  intros Hm Hk st. unfold try_except. specialize (Hm st).
  destruct (body st) as [[a|e] st1]; simpl in *; [done|].
  apply (steady_step st st1); [done | apply Hk].
Qed.

Lemma steady_send_response (response : value) : steady (send_response response).
Proof.
  unfold send_response. destruct (serializable response);
    [by apply steady_log | apply steady_raise].
Qed.

Lemma steady_send_error (e : exn) (request_id : value) : steady (send_error e request_id).
Proof. apply steady_send_response. Qed.

Lemma steady_lookup_handler (name : value) : steady (lookup_handler name).
Proof.
  unfold lookup_handler. apply steady_bind; [apply steady_get_state|].
  intros st0. destruct name; first [apply steady_ret | apply steady_raise].
Qed.

Lemma steady_call_tool (handler : tool) (params : value) : steady (call_tool W handler params).
Proof.
  intros st.
  assert (forall ev st0, is_network_call ev = true ->
            tools (log ev st0) = tools st0 /\ session (log ev st0) = session st0
            /\ exists tr, trace (log ev st0) = trace st0 ++ tr
                          /\ forallb (fun ev => negb (is_shutdown ev)) tr = true) as Hlog.
  { intros ev st0 Hev. repeat split. exists [ev]. split; [done|]. by destruct ev. }
  assert (handler = FetchWebpage \/ handler ≠ FetchWebpage) as [->|Hh]
    by (destruct handler; (by left) || (by right)).
  - simpl. destruct (fetch_webpage_end W params st) as (st1 & Hst1 & Hend).
    assert (tools st1 = tools st /\ session st1 = session st
            /\ exists tr, trace st1 = trace st ++ tr
                          /\ forallb (fun ev => negb (is_shutdown ev)) tr = true) as H1.
    { destruct Hst1 as [-> | ->]; repeat split; exists []; by rewrite app_nil_r. }
    destruct Hend as [-> | [(url & ->) | (url & key & entry & ->)]].
    + done.
    + apply (steady_step st st1); [done | by apply Hlog].
    + apply (steady_step st st1); [done|].
      destruct (Hlog (EvGet url) st1 eq_refl) as (? & ? & ?). done.
  - destruct (plain_tool_end W handler params st Hh) as [-> | (ev & Hev & ->)].
    + repeat split. exists []. by rewrite app_nil_r.
    + by apply Hlog.
Qed.

Lemma steady_handle_message (message : string) : steady (handle_message W message).
Proof.
  unfold handle_message. apply steady_try_except; [|intros e; apply steady_send_error].
  unfold dispatch.
  repeat first
    [ apply steady_ret | apply steady_raise | apply steady_lift | apply steady_now
    | apply steady_get_state | apply steady_send_response | apply steady_send_error
    | apply steady_call_tool | apply steady_lookup_handler
    | apply steady_bind; [|intros ?]
    | match goal with
      | |- steady (if ?b then _ else _) => destruct b
      | |- steady (match ?x with _ => _ end) => destruct x
      end ].
Qed.

Lemma steady_read_loop (inputs : list input) : steady (read_loop W inputs).
Proof.
  induction inputs as [|[line|e] rest IH]; simpl;
    [apply steady_ret | | apply steady_raise].
  apply steady_bind; [by apply steady_log|]. intros _.
  destruct (nonempty line); [|apply steady_ret].
  apply steady_bind; [|by intros _].
  destruct (nonempty (strip line)); [apply steady_handle_message | apply steady_ret].
Qed.

(** Whatever comes in on the input, the process goes the same way: it
    prints the announcement first; then come the lines read, the
    responses and the network calls; and however the loop ends (at the
    end of the input, by an exception of [readline] or of [decode], or by
    one that leaves [handle_message]), the session is closed, once and
    after everything else, and the process exits with status 0. *)
Theorem run_announces_and_exits (inputs : list input) :
  exists st tr,
    run W inputs init_state = Ok st
    /\ trace st = [EvPrint (announcement W (tools st))] ++ tr
                  ++ [EvSessionClose; EvExit 0]
    /\ forallb (fun ev => negb (is_shutdown ev)) tr = true.
Proof.
  unfold run. rewrite initialize_spec.
  match goal with |- context [read_loop W inputs ?st0] =>
    remember st0 as st1 eqn:Hst1
  end.
  assert (session st1 = true) as Hsession by (by subst st1).
  assert (trace st1 = [EvPrint (announcement W (tools st1))]) as Htrace
    by (by subst st1).
  clear Hst1.
  destruct (steady_read_loop inputs st1) as (Htools & Hsess & tr & Htr & Hquiet).
  exists (shutdown (read_loop W inputs st1).2), tr.
  split; [done|]. split; [|done].
  unfold shutdown. rewrite Hsess, Hsession. unfold log. simpl.
  rewrite Htr, Htrace, Htools. by rewrite <- !app_assoc.
Qed.

End Lifecycle.

(** ** More on [scrape_data] *)

Section MoreScrape.

Variable W : World.

(** The loop over the fields succeeds only when every field does. *)
Lemma scrape_fields_all_ok (s : soup W) (items : list (string * value)) :
  forall (data out : list (string * value)),
    scrape_fields W s data items = Ok out ->
    forall key selector_config, (key, selector_config) ∈ items ->
      exists o, field_value W s selector_config = Ok o.
Proof.
  induction items as [|[k cfg] rest IH]; intros data out; simpl.
  { intros _ key selector_config Hin. by apply elem_of_nil in Hin. }
  rewrite scrape_field_value.
  destruct (field_value W s cfg) as [o|e] eqn:Hfv; simpl; [|done].
  intros Hout key selector_config [[= -> ->]|Hin]%elem_of_cons; [by eauto|].
  by eapply IH.
Qed.

(** What a successful [scrape_data] went through. *)
Lemma scrape_data_inv (params r url : value) (st st' : state)
    (selectors : list (string * value)) :
  scrape_data W params st = (Ok r, st') ->
  is_success r ->
  py_get params "url" (VStr "") = Ok url ->
  py_get params "selectors" (VDict []) = Ok (VDict selectors) ->
  exists (resp : response) (html : string) (s : soup W) (data : list (string * value)),
    w_get W (trace st) url = Ok resp
    /\ resp_text resp = Ok html
    /\ w_BeautifulSoup W html = Ok s
    /\ scrape_fields W s [] selectors = Ok data
    /\ r = scrape_result url data.
Proof.
  intros Hcall Hsucc Hurl Hsel.
  destruct params as [| | | | | |d|]; try done.
  simpl in Hurl, Hsel. injection Hurl as Hurl. injection Hsel as Hsel.
  destruct (truthy url) eqn:Htu.
  2:{ unfold scrape_data, bind, lift, ret in Hcall. simpl in Hcall.
      rewrite Hurl, Htu in Hcall. injection Hcall as <- _. done. }
  destruct (truthy (VDict selectors)) eqn:Hts.
  2:{ unfold scrape_data, bind, lift, ret in Hcall. simpl in Hcall.
      rewrite Hurl, Hsel, Htu, Hts in Hcall. injection Hcall as <- _. done. }
  rewrite scrape_data_spec in Hcall by (by rewrite ?Hurl, ?Hsel).
  rewrite Hurl, Hsel in Hcall.
  destruct (session st); [|injection Hcall as <- _; done].
  destruct (w_get W (trace st) url) as [resp|e] eqn:Hget; [|injection Hcall as <- _; done].
  destruct (resp_text resp) as [html|e] eqn:Htext; [|injection Hcall as <- _; done].
  destruct (w_BeautifulSoup W html) as [s|e] eqn:Hsoup; [|injection Hcall as <- _; done].
  simpl in Hcall.
  destruct (scrape_fields W s [] selectors) as [data|e] eqn:Hfields;
    [|injection Hcall as <- _; done].
  injection Hcall as <- _.
  by exists resp, html, s, data.
Qed.

(** In the [data] of the record of a successful [scrape_data] with
    distinct field names, a field given as a bare selector that matches
    holds the texts
    of all matched elements, in the order of the document; a field in
    record form without [single] holds the sequence of all extracted
    values; a field whose configuration is neither a string nor a record
    is left out; and [data] has no key that is not a field name. *)
Theorem scrape_collects_all_matches (params : value) (st st' : state) (r url : value)
    (selectors : list (string * value)) :
  scrape_data W params st = (Ok r, st') ->
  is_success r ->
  py_get params "url" (VStr "") = Ok url ->
  py_get params "selectors" (VDict []) = Ok (VDict selectors) ->
  NoDup selectors.*1 ->
  exists (resp : response) (html : string) (s : soup W) (data : list (string * value)),
    w_get W (trace st) url = Ok resp
    /\ resp_text resp = Ok html
    /\ w_BeautifulSoup W html = Ok s
    /\ py_get r "data" VNone = Ok (VDict data)
    /\ (forall key selector e es,
          (key, VStr selector) ∈ selectors ->
          w_select W s (VStr selector) = Ok (e :: es) ->
          assoc key data = Some (VList (text_values W (e :: es))))
    /\ (forall key config e es values,
          (key, VDict config) ∈ selectors ->
          truthy (default (VBool false) (assoc "single" config)) = false ->
          w_select W s (default (VStr "") (assoc "selector" config)) = Ok (e :: es) ->
          extracted_values W (default VNone (assoc "attribute" config)) (e :: es)
            = Ok values ->
          assoc key data = Some (VList values))
    /\ (forall key selector_config,
          (key, selector_config) ∈ selectors ->
          selector_of selector_config = None ->
          assoc key data = None)
    /\ (forall key, key ∈ data.*1 -> key ∈ selectors.*1).
Proof.
  intros Hcall Hsucc Hurl Hsel Hnd.
  destruct (scrape_data_inv params r url st st' selectors Hcall Hsucc Hurl Hsel)
    as (resp & html & s & data & Hget & Htext & Hsoup & Hfields & ->).
  destruct (scrape_fields_spec W s selectors [] data Hfields (NoDup_nil_2 (A:=string)))
    as (_ & Hkeep & Hfv).
  assert (forall key selector_config, (key, selector_config) ∈ selectors ->
            exists o, field_value W s selector_config = Ok o /\ assoc key data = o)
    as Hfield.
  { apply Hfv; [done|]. intros k _ Hk. by apply elem_of_nil in Hk. }
  exists resp, html, s, data.
  do 4 (split; [done|]). split; [|split; [|split]].
  - intros key selector e es Hin Hselect.
    destruct (Hfield key (VStr selector) Hin) as (o & Ho & ->).
    simpl in Ho. rewrite Hselect in Ho. simpl in Ho. by injection Ho as <-.
  - intros key config e es values Hin Hsingle Hselect Hvals.
    destruct (Hfield key (VDict config) Hin) as (o & Ho & ->).
    cbn [field_value] in Ho. rewrite Hselect in Ho.
    cbn [call and_then] in Ho. rewrite Hvals in Ho. cbn [and_then] in Ho.
    injection Ho as <-. unfold collapse. rewrite Hsingle. by destruct values.
  - intros key cfg Hin Hcfg.
    destruct (Hfield key cfg Hin) as (o & Ho & ->).
    destruct cfg; simpl in Hcfg; try done; simpl in Ho; by injection Ho as <-.
  - intros key Hkey.
    destruct (decide (key ∈ selectors.*1)) as [|Hnot]; [done|].
    specialize (Hkeep key Hnot). simpl in Hkeep.
    apply assoc_None_keys in Hkeep. done.
Qed.

(** One selector that the selector engine rejects fails the whole call:
    the result is a failure record with the text of some exception, and
    what the fields before it matched is not returned. *)
Theorem bad_selector_fails_whole_call (d selectors : list (string * value))
    (st : state) (resp : response) (html : string) (s : soup W)
    (key : string) (selector_config selector : value) (e : exn) :
  let url := default (VStr "") (assoc "url" d) in
  truthy url = true ->
  assoc "selectors" d = Some (VDict selectors) ->
  session st = true ->
  w_get W (trace st) url = Ok resp ->
  resp_text resp = Ok html ->
  w_BeautifulSoup W html = Ok s ->
  (key, selector_config) ∈ selectors ->
  selector_of selector_config = Some selector ->
  w_select W s selector = Error e ->
  exists msg,
    scrape_data W (VDict d) st
    = (Ok (VDict [("success", VBool false); ("error", VStr msg)]),
       log (EvGet url) st).
Proof.
  intros url Hurl Hsel Hs Hget Htext Hsoup Hin Hcfg Hbad.
  assert (truthy (default (VDict []) (assoc "selectors" d)) = true) as Hts.
  { rewrite Hsel. simpl. destruct selectors; [by apply elem_of_nil in Hin | done]. }
  rewrite scrape_data_spec by done. fold url.
  rewrite Hs, Hget, Htext, Hsoup, Hsel. simpl.
  destruct (scrape_fields W s [] selectors) as [data|e'] eqn:Hfields; [|by eauto].
  destruct (scrape_fields_all_ok s selectors [] data Hfields key selector_config Hin)
    as (o & Ho).
  destruct selector_config; simpl in Hcfg; try done; injection Hcfg as <-;
    simpl in Ho; rewrite Hbad in Ho; done.
Qed.

End MoreScrape.

(** ** The properties above on the second concrete world *)




Lemma undecodable_line_ends_loop_witness :
  handle_message Demo.world (strip "not json") Demo.ready
  = (Error dumps_type_error, Demo.ready)
  /\ serve Demo.world ["not json"; "{type: ping, id: 1}"] Demo.ready
     = (Error dumps_type_error, log (EvReadline "not json") Demo.ready).
Proof.
  apply (undecodable_line_ends_loop Demo.world "not json" ["{type: ping, id: 1}"]
           (new_exn JSONDecodeError "Expecting value: line 1 column 1 (char 0)")
           Demo.ready).
  - reflexivity.
  - reflexivity.
Defined.

Lemma request_without_type_unanswered_witness :
  handle_message Demo.world "{id: 6}" Demo.ready = (Error dumps_type_error, Demo.ready).
Proof.
  apply (request_without_type_unanswered Demo.world "{id: 6}"
           (VDict Demo.untyped_request) Demo.ready).
  - reflexivity.
  - intros d [= <-]. reflexivity.
Defined.

Lemma only_fetch_uses_cache_witness :
  cache (call_tool Demo.world WebSearch (VDict [("query", VStr "rocq")]) Demo.fetched).2
  = cache Demo.fetched
  /\ ticks (call_tool Demo.world WebSearch (VDict [("query", VStr "rocq")]) Demo.fetched).2
     = ticks Demo.fetched.
Proof.
  apply (only_fetch_uses_cache Demo.world WebSearch (VDict [("query", VStr "rocq")])
           Demo.fetched).
  discriminate.
Defined.

Lemma missing_url_rejected_witness :
  call_tool Demo.world ScrapeData
    (VDict [("url", VNone); ("selectors", VDict [("t", VStr "title")])]) Demo.ready
  = (Ok (VDict [("success", VBool false); ("error", VStr "URL parameter is required")]),
     Demo.ready).
Proof.
  apply (missing_url_rejected Demo.world ScrapeData
           [("url", VNone); ("selectors", VDict [("t", VStr "title")])] Demo.ready).
  - discriminate.
  - reflexivity.
Defined.


Lemma transport_error_reported_witness :
  extract_links Demo.world
    (VDict [("url", VStr "https://slow.example.com");
            ("selectors", VDict [("t", VStr "title")])]) Demo.ready
  = (Ok (VDict [("success", VBool false); ("error", VStr "")]),
     log (EvGet (VStr "https://slow.example.com")) Demo.ready)
  /\ scrape_data Demo.world
       (VDict [("url", VStr "https://slow.example.com");
               ("selectors", VDict [("t", VStr "title")])]) Demo.ready
     = (Ok (VDict [("success", VBool false); ("error", VStr "")]),
        log (EvGet (VStr "https://slow.example.com")) Demo.ready).
Proof.
  destruct (transport_error_reported Demo.world
              [("url", VStr "https://slow.example.com");
               ("selectors", VDict [("t", VStr "title")])]
              Demo.ready (new_exn TimeoutError "")) as [Hlinks Hscrape].
  - reflexivity.
  - reflexivity.
  - reflexivity.
  - split; [exact Hlinks | apply Hscrape; reflexivity].
Defined.

Lemma non_mapping_params_unanswered_witness :
  handle_message Demo.world "{type: tool, tool: fetchWebpage, id: 10, params: null}"
    Demo.ready
  = (Error dumps_type_error, Demo.ready).
Proof.
  apply (non_mapping_params_unanswered Demo.world
           "{type: tool, tool: fetchWebpage, id: 10, params: null}" "fetchWebpage"
           Demo.null_params_request VNone FetchWebpage Demo.ready).
  - split; reflexivity.
  - reflexivity.
  - reflexivity.
  - discriminate.
  - reflexivity.
  - reflexivity.
  - intros d. discriminate.
Defined.

Lemma mapping_params_never_raise_witness :
  exists r st',
    call_tool Demo.world FetchWebpage (VDict [("url", VInt 7)]) Demo.ready = (Ok r, st').
Proof.
  apply (mapping_params_never_raise Demo.world FetchWebpage [("url", VInt 7)] Demo.ready).
  discriminate.
Defined.

Lemma fetch_cache_frame_witness :
  cache (fetch_webpage Demo.world (VDict [("url", VStr "https://example.com/meta")])
           Demo.fetched).2 !! "fetch:https://example.com"
  = cache Demo.fetched !! "fetch:https://example.com".
Proof.
  apply (fetch_cache_frame Demo.world (VDict [("url", VStr "https://example.com/meta")])
           (VStr "https://example.com/meta") Demo.fetched "fetch:https://example.com").
  - reflexivity.
  - vm_compute. discriminate.
Defined.

Lemma fetch_twice_within_ttl_witness :
  fetch_webpage Demo.world Toy.page_params Demo.fetched
  = (Ok Toy.example_record, tick Demo.fetched)
  /\ trace (tick Demo.fetched) = trace Demo.fetched.
Proof.
  apply (fetch_twice_within_ttl Demo.world Toy.page_params Toy.example_record
           Demo.ready Demo.fetched).
  - vm_compute. reflexivity.
  - vm_compute. discriminate.
  - reflexivity.
  - vm_compute. split; [discriminate | reflexivity].
Defined.

Lemma fetch_webpage_within_ttl_witness :
  fetch_webpage Demo.world Toy.page_params Demo.fetched
  = (Ok Toy.example_record, tick Demo.fetched)
  /\ trace (tick Demo.fetched) = trace Demo.fetched.
Proof.
  apply (fetch_webpage_within_ttl Demo.world [("url", VStr "https://example.com")]
           Demo.fetched 0 Toy.example_record).
  - reflexivity.
  - vm_compute. reflexivity.
  - vm_compute. split; [discriminate | reflexivity].
Defined.

Lemma fetch_webpage_expired_witness :
  fetch_webpage Demo.slow_world Toy.page_params Demo.slow_fetched
  = fetch_fresh Demo.slow_world (VStr "https://example.com") (VBool true) (VBool true)
      "fetch:https://example.com" (tick Demo.slow_fetched).
Proof.
  apply (fetch_webpage_expired Demo.slow_world [("url", VStr "https://example.com")]
           Demo.slow_fetched 0 Toy.example_record).
  - reflexivity.
  - vm_compute. reflexivity.
  - vm_compute. split; [discriminate | reflexivity].
Defined.

Lemma headings_bounded_witness :
  exists (md : list (string * value)) (h1 h2 : list value),
    VDict [("title", VStr "Meta page"); ("description", VStr "second");
           ("headings", VDict [("h1", VList [VStr "Heading"]); ("h2", VList [])])]
    = VDict md
    /\ assoc "headings" md = Some (VDict [("h1", VList h1); ("h2", VList h2)])
    /\ (length h1 <= 5)%nat
    /\ (length h2 <= 5)%nat.
Proof.
  apply (headings_bounded Demo.world Demo.meta_doc).
  vm_compute. reflexivity.
Defined.

Lemma last_meta_wins_witness :
  exists md,
    VDict [("title", VStr "Meta page"); ("description", VStr "second");
           ("headings", VDict [("h1", VList [VStr "Heading"]); ("h2", VList [])])]
    = VDict md
    /\ assoc "description" md = Some (VStr "second").
Proof.
  apply (last_meta_wins Demo.world Demo.meta_doc _ [Demo.meta_first] [Demo.meta_third]
           Demo.meta_second "description").
  - vm_compute. reflexivity.
  - reflexivity.
  - reflexivity.
  - discriminate.
  - discriminate.
  - reflexivity.
  - intros m [->|[]%elem_of_nil]%elem_of_cons. right. reflexivity.
Defined.

Lemma fetched_text_one_line_witness :
  exists text,
    assoc "text" [("success", VBool true); ("url", VStr "https://example.com/meta");
                  ("statusCode", VInt 200); ("contentType", VStr "text/html");
                  ("text", VStr "Meta page Heading"); ("textLength", VInt 17)]
    = Some (VStr text)
    /\ one_line text = true.
Proof.
  apply (fetched_text_one_line Demo.world Demo.meta_response Demo.meta_doc
           (VBool true) (VBool false)).
  - vm_compute. reflexivity.
  - reflexivity.
Defined.

Lemma links_classified_and_filtered_witness :
  exists (url io eo : value) (resp : response) (base : parsed_url)
         (records : list value),
    py_get Demo.internal_params "url" (VStr "") = Ok url
    /\ py_get Demo.internal_params "internalOnly" (VBool false) = Ok io
    /\ py_get Demo.internal_params "externalOnly" (VBool false) = Ok eo
    /\ w_get Demo.world (trace Demo.ready) url = Ok resp
    /\ w_urlparse Demo.world (resp_url resp) = Ok base
    /\ py_get Demo.internal_links_record "links" VNone = Ok (VList records)
    /\ forall record, record ∈ records ->
         exists (u : string) (parsed : parsed_url) (internal : bool),
           py_get record "url" VNone = Ok (VStr u)
           /\ w_urlparse Demo.world u = Ok parsed
           /\ py_get record "internal" VNone = Ok (VBool internal)
           /\ internal = String.eqb (netloc parsed) (netloc base)
           /\ py_get record "protocol" VNone = Ok (VStr (scheme parsed))
           /\ (truthy io = true -> internal = true)
           /\ (truthy eo = true -> internal = false).
Proof.
  apply (links_classified_and_filtered Demo.world Demo.internal_params
           Demo.internal_links_record Demo.ready
           (log (EvGet (VStr "https://example.com")) Demo.ready)).
  - vm_compute. reflexivity.
  - reflexivity.
Defined.

Lemma no_link_lost_witness :
  exists (url io eo : value) (resp : response) (html : string) (s : soup Demo.world)
         (base : parsed_url) (records : list value),
    py_get Toy.page_params "url" (VStr "") = Ok url
    /\ py_get Toy.page_params "internalOnly" (VBool false) = Ok io
    /\ py_get Toy.page_params "externalOnly" (VBool false) = Ok eo
    /\ w_get Demo.world (trace Demo.ready) url = Ok resp
    /\ resp_text resp = Ok html
    /\ w_BeautifulSoup Demo.world html = Ok s
    /\ w_urlparse Demo.world (resp_url resp) = Ok base
    /\ py_get Toy.example_links_record "links" VNone = Ok (VList records)
    /\ forall a u parsed,
         a ∈ w_find_all Demo.world s (NamedWithAttr "a" "href") ->
         absolute_url Demo.world (resp_url resp) a = Ok u ->
         w_urlparse Demo.world u = Ok parsed ->
         passes io eo (netloc base) parsed = true ->
         exists record,
           record ∈ records /\ py_get record "url" VNone = Ok (VStr u).
Proof.
  apply (no_link_lost Demo.world Toy.page_params Toy.example_links_record Demo.ready
           (log (EvGet (VStr "https://example.com")) Demo.ready)).
  - vm_compute. reflexivity.
  - reflexivity.
Defined.

Lemma missing_query_rejected_witness :
  web_search Demo.world (VDict [("query", VStr ""); ("maxResults", VInt 5)]) Demo.ready
  = (Ok (VDict [("success", VBool false); ("error", VStr "Query parameter is required")]),
     Demo.ready).
Proof.
  apply (missing_query_rejected Demo.world [("query", VStr ""); ("maxResults", VInt 5)]
           Demo.ready).
  - reflexivity.
  - right. left. exists 5. reflexivity.
Defined.

Lemma search_count_bounded_witness :
  exists results,
    VDict [("success", VBool true);
           ("query", VStr "rocq");
           ("results",
            VList [VDict [("title", VStr "Rocq"); ("url", VStr "rocq-prover.org");
                          ("snippet", VStr "The Rocq prover");
                          ("source", VStr "DuckDuckGo")];
                   VDict [("title", VStr "Example"); ("url", VStr "https://example.com/");
                          ("snippet", VStr "An example");
                          ("source", VStr "DuckDuckGo")]]);
           ("count", VInt 2)]
    = VDict [("success", VBool true);
             ("query", VStr "rocq");
             ("results", VList results);
             ("count", VInt (Z.of_nat (length results)))]
    /\ Z.of_nat (length results) <= Z.min 2 20.
Proof.
  apply (search_count_bounded Demo.world [("query", VStr "rocq"); ("maxResults", VInt 2)]
           Demo.ready
           (log (EvPost search_url (search_params (VStr "rocq"))) Demo.ready) _ 2).
  - vm_compute. reflexivity.
  - reflexivity.
  - reflexivity.
  - lia.
Defined.

Lemma redirect_decoding_safe_witness :
  exists target,
    decode_redirect Demo.world (VStr "//duckduckgo.com/l/?rut=1&uddg=") = Ok (VStr target).
Proof.
  apply (redirect_decoding_safe Demo.world "//duckduckgo.com/l/?rut=1&uddg="
           (ParsedUrl "" "duckduckgo.com" "rut=1&uddg=")).
  vm_compute. reflexivity.
Defined.

Lemma redirect_decoded_witness :
  decode_redirect Demo.world (VStr "//duckduckgo.com/l/?uddg=rocq-prover.org&rut=1")
  = Ok (VStr "rocq-prover.org").
Proof.
  apply (redirect_decoded Demo.world "//duckduckgo.com/l/?uddg=rocq-prover.org&rut=1"
           "rocq-prover.org" "&rut=1"
           (ParsedUrl "" "duckduckgo.com" "uddg=rocq-prover.org&rut=1")).
  - reflexivity.
  - vm_compute. reflexivity.
  - reflexivity.
  - reflexivity.
  - right. exists "rut=1". reflexivity.
  - reflexivity.
Defined.

Lemma scrape_collects_all_matches_witness :
  exists (resp : response) (html : string) (s : soup Demo.world)
         (data : list (string * value)),
    w_get Demo.world (trace Demo.ready) (VStr "https://example.com") = Ok resp
    /\ resp_text resp = Ok html
    /\ w_BeautifulSoup Demo.world html = Ok s
    /\ py_get Demo.scrape_record "data" VNone = Ok (VDict data)
    /\ (forall key selector e es,
          (key, VStr selector) ∈ Demo.selectors ->
          w_select Demo.world s (VStr selector) = Ok (e :: es) ->
          assoc key data = Some (VList (text_values Demo.world (e :: es))))
    /\ (forall key config e es values,
          (key, VDict config) ∈ Demo.selectors ->
          truthy (default (VBool false) (assoc "single" config)) = false ->
          w_select Demo.world s (default (VStr "") (assoc "selector" config))
            = Ok (e :: es) ->
          extracted_values Demo.world (default VNone (assoc "attribute" config)) (e :: es)
            = Ok values ->
          assoc key data = Some (VList values))
    /\ (forall key selector_config,
          (key, selector_config) ∈ Demo.selectors ->
          selector_of selector_config = None ->
          assoc key data = None)
    /\ (forall key, key ∈ data.*1 -> key ∈ Demo.selectors.*1).
Proof.
  apply (scrape_collects_all_matches Demo.world
           (VDict [("url", VStr "https://example.com");
                   ("selectors", VDict Demo.selectors)])
           Demo.ready (log (EvGet (VStr "https://example.com")) Demo.ready)
           Demo.scrape_record).
  - vm_compute. reflexivity.
  - reflexivity.
  - reflexivity.
  - reflexivity.
  - compute_done.
Defined.

Lemma bad_selector_fails_whole_call_witness :
  exists msg,
    scrape_data Demo.world
      (VDict [("url", VStr "https://example.com");
              ("selectors", VDict [("anchors", VStr "a"); ("bad", VStr "")])])
      Demo.ready
    = (Ok (VDict [("success", VBool false); ("error", VStr msg)]),
       log (EvGet (VStr "https://example.com")) Demo.ready).
Proof.
  apply (bad_selector_fails_whole_call Demo.world
           [("url", VStr "https://example.com");
            ("selectors", VDict [("anchors", VStr "a"); ("bad", VStr "")])]
           [("anchors", VStr "a"); ("bad", VStr "")]
           Demo.ready
           (Response "https://example.com/" 200 "text/html" (Ok "<example>"))
           "<example>" Toy.example_doc "bad" (VStr "") (VStr "")
           (new_exn (LibraryError "SelectorSyntaxError") "empty selector")).
  - reflexivity.
  - reflexivity.
  - reflexivity.
  - reflexivity.
  - reflexivity.
  - reflexivity.
  - apply list_elem_of_further, list_elem_of_here.
  - reflexivity.
  - reflexivity.
Defined.

Lemma handle_message_answers_witness :
  exists resp st',
    handle_message Demo.world
      "{type: tool, tool: extractLinks, id: 8, params: {url: https://example.com}}"
      Demo.ready = (Ok tt, st')
    /\ printed (trace st') = printed (trace Demo.ready) ++ [resp]
    /\ py_get resp "requestId" VNone = Ok (VInt 8).
Proof.
  apply (handle_message_answers Demo.world
           "{type: tool, tool: extractLinks, id: 8, params: {url: https://example.com}}"
           Demo.links_request (VStr "tool") Demo.ready).
  - split; reflexivity.
  - reflexivity.
  - intros _. exists "extractLinks". split; [reflexivity|].
    intros handler Hreg. vm_compute in Hreg. injection Hreg as <-.
    exists (links_result "https://example.com/" Toy.example_links),
           (log (EvGet (VStr "https://example.com")) Demo.ready).
    split; vm_compute; reflexivity.
Defined.
